(** * Poloniex-AI: the synchronisation code of the bots, embedded and verified

    The development follows the three Python modules the claims are about:

    - [poloniex_wrapper.py]: the [Poloniex] class, of which the public
      methods used by the bots and the two market-list methods are embedded;
    - [poloniex_scraping_bot.py]: [get_new_ticker_data];
    - [poloniex_bot.py]: [get_trade_history_between_dates],
      [get_complete_trade_history] and [get_chart_data_between_dates].

    Python values are an inductive type, exceptions are an explicit outcome,
    and the module-level singletons (the API client, the logger, the Mongo
    collections, the terminal and the clock) are one record threaded through
    a small state-and-exception monad. *)

From Stdlib Require Import ZArith List Bool Ascii String Lia.
From Stdlib Require Import Floats.SpecFloat.
From stdpp Require Import base option list gmap strings.

Local Set Warnings "-register-all".
Local Open Scope string_scope.
Local Open Scope list_scope.
Local Open Scope Z_scope.

(** ** Python values and the builtins the bots call *)

Module Py.

(** The exceptions (all subclasses of [Exception]) the embedded code can
    meet. *)
Inductive exn : Type :=
| TypeError
| ValueError
| KeyError
| IndexError
| AttributeError
| UnboundLocalError
| OverflowError
| EOFError
| StorageError.

(** What running a piece of code gives: a value, an exception on its way
    up, or an execution cut off because the loop budget ran out. *)
Inductive outcome (A : Type) : Type :=
| Ok (a : A)
| Raise (e : exn)
| OutOfFuel.
Arguments Ok {A} a.
Arguments Raise {A} e.
Arguments OutOfFuel {A}.

(** A float is a binary64 number, in the specification format of the
    Standard Library. *)
Definition prec : Z := 53.
Definition emax : Z := 1024.

(** Values: what [json.loads] builds ([None], booleans, integers, floats,
    strings, lists, objects with string keys), and the [datetime] objects
    the bot stores in records.  A [dict] keeps its keys in insertion
    order, as Python's does. *)
Inductive pyval : Type :=
| PNone
| PBool (b : bool)
| PInt (z : Z)
| PFloat (f : spec_float)
| PStr (s : string)
| PDatetime (t : Z)
| PList (l : list pyval)
| PDict (d : list (string * pyval)).

(** [d[k]] on the association list of a dict. *)
Fixpoint dict_get (k : string) (d : list (string * pyval)) : option pyval :=
  match d with
  | [] => None
  | (k', v) :: d' => if String.eqb k k' then Some v else dict_get k d'
  end.

(** [d[k] = v]: an existing key keeps its place, a new key goes last. *)
Fixpoint dict_set (k : string) (v : pyval) (d : list (string * pyval))
  : list (string * pyval) :=
  match d with
  | [] => [(k, v)]
  | (k', v') :: d' =>
      if String.eqb k k' then (k', v) :: d' else (k', v') :: dict_set k v d'
  end.

Definition is_dict (v : pyval) : bool :=
  match v with PDict _ => true | _ => false end.

Definition is_str (v : pyval) : bool :=
  match v with PStr _ => true | _ => false end.

Fixpoint chars (s : string) : list pyval :=
  match s with
  | EmptyString => []
  | String c s' => PStr (String c EmptyString) :: chars s'
  end.

(** [for x in v]: the items a [for] loop visits. *)
Definition py_iter (v : pyval) : outcome (list pyval) :=
  match v with
  | PList l => Ok l
  | PDict d => Ok (map (fun kv => PStr (fst kv)) d)
  | PStr s => Ok (chars s)
  | _ => Raise TypeError
  end.

(** Index of a sequence of length [n] at [i], negative indices counting
    from the end. *)
Definition seq_index (n i : Z) : option nat :=
  if (0 <=? i) && (i <? n) then Some (Z.to_nat i)
  else if (- n <=? i) && (i <? 0) then Some (Z.to_nat (n + i))
  else None.

(** [o[k]]. *)
Definition py_getitem (o k : pyval) : outcome pyval :=
  match o, k with
  | PDict d, PStr s =>
      match dict_get s d with Some v => Ok v | None => Raise KeyError end
  | PDict _, (PList _ | PDict _) => Raise TypeError
  | PDict _, _ => Raise KeyError
  | PList l, (PInt _ | PBool _) =>
      let i := match k with PInt z => z | PBool true => 1 | _ => 0 end in
      match seq_index (Z.of_nat (length l)) i with
      | Some n => match nth_error l n with Some v => Ok v | None => Raise IndexError end
      | None => Raise IndexError
      end
  | PStr s, (PInt _ | PBool _) =>
      let i := match k with PInt z => z | PBool true => 1 | _ => 0 end in
      match seq_index (Z.of_nat (length (chars s))) i with
      | Some n => match nth_error (chars s) n with Some v => Ok v | None => Raise IndexError end
      | None => Raise IndexError
      end
  | _, _ => Raise TypeError
  end.

(** [o[k] = v] with a string key: only a dict takes it. *)
Definition py_setitem (k : string) (v : pyval) (o : pyval) : outcome pyval :=
  match o with
  | PDict d => Ok (PDict (dict_set k v d))
  | _ => Raise TypeError
  end.

(** *** Reading numbers out of strings *)

Definition digit_of (c : ascii) : option Z :=
  let n := Z.of_N (N_of_ascii c) in
  if (48 <=? n) && (n <=? 57) then Some (n - 48) else None.

(** The leading decimal digits of [s]: their value on top of [acc], how
    many there are, and what follows them. *)
Fixpoint take_digits (acc : Z) (cnt : Z) (s : string) : Z * Z * string :=
  match s with
  | EmptyString => (acc, cnt, s)
  | String c s' =>
      match digit_of c with
      | Some d => take_digits (10 * acc + d) (cnt + 1) s'
      | None => (acc, cnt, s)
      end
  end.

Definition is_space (c : ascii) : bool :=
  let n := Z.of_N (N_of_ascii c) in
  (n =? 32) || ((9 <=? n) && (n <=? 13)).

Fixpoint lstrip (s : string) : string :=
  match s with
  | String c s' => if is_space c then lstrip s' else s
  | EmptyString => s
  end.

Fixpoint rstrip (s : string) : string :=
  match s with
  | EmptyString => EmptyString
  | String c s' =>
      match rstrip s' with
      | EmptyString => if is_space c then EmptyString else String c EmptyString
      | r => String c r
      end
  end.

Definition strip (s : string) : string := rstrip (lstrip s).

Definition lower_ascii (c : ascii) : ascii :=
  let n := N_of_ascii c in
  if ((65 <=? n) && (n <=? 90))%N then ascii_of_N (n + 32) else c.

Fixpoint lower (s : string) : string :=
  match s with
  | EmptyString => EmptyString
  | String c s' => String (lower_ascii c) (lower s')
  end.

Definition upper_ascii (c : ascii) : ascii :=
  let n := N_of_ascii c in
  if ((97 <=? n) && (n <=? 122))%N then ascii_of_N (n - 32) else c.

Fixpoint upper (s : string) : string :=
  match s with
  | EmptyString => EmptyString
  | String c s' => String (upper_ascii c) (upper s')
  end.

(** An optional sign in front of [s]: [true] for a minus. *)
Definition take_sign (s : string) : bool * string :=
  match s with
  | String "-"%char s' => (true, s')
  | String "+"%char s' => (false, s')
  | _ => (false, s)
  end.

(** The integer a string denotes for [int(s)]: blanks around, a sign,
    decimal digits (the digit-grouping underscore and other bases are not
    part of the model). *)
Definition parse_int (s : string) : option Z :=
  let '(neg, r) := take_sign (strip s) in
  let '(v, cnt, rest) := take_digits 0 0 r in
  if (0 <? cnt) && String.eqb rest EmptyString
  then Some (if neg then - v else v) else None.

(** What a decimal literal denotes: a sign, a natural number [m] and a
    power of ten, for the value [m * 10 ^ e10]. *)
Inductive literal : Type :=
| LitDecimal (neg : bool) (m : Z) (e10 : Z)
| LitInf (neg : bool)
| LitNan.

Definition parse_exponent (s : string) : option Z :=
  match s with
  | EmptyString => Some 0
  | String c s' =>
      if (Ascii.eqb c "e" || Ascii.eqb c "E")%bool then
        let '(neg, r) := take_sign s' in
        let '(v, cnt, rest) := take_digits 0 0 r in
        if (0 <? cnt) && String.eqb rest EmptyString
        then Some (if neg then - v else v) else None
      else None
  end.

(** The grammar of [float(s)]: blanks around, a sign, then [inf],
    [infinity] or [nan] in any case, or digits with at most one point and
    an optional exponent (again without the digit-grouping underscore). *)
Definition parse_float (s : string) : option literal :=
  let '(neg, r) := take_sign (strip s) in
  let lr := lower r in
  if String.eqb lr "inf" || String.eqb lr "infinity" then Some (LitInf neg)
  else if String.eqb lr "nan" then Some LitNan
  else
    let '(ip, n1, r1) := take_digits 0 0 r in
    let '(m, n2, r2) :=
      match r1 with
      | String "."%char r1' => take_digits ip 0 r1'
      | _ => (ip, 0, r1)
      end in
    if 0 <? n1 + n2 then
      match parse_exponent r2 with
      | Some e => Some (LitDecimal neg m (e - n2))
      | None => None
      end
    else None.

(** The binary64 number nearest to [m * 10 ^ e10] (ties to even), found by
    an exact integer division carried far enough for the rounding. *)
Definition float_of_decimal (neg : bool) (m : Z) (e10 : Z) : spec_float :=
  match m with
  | Zpos p =>
      if 0 <=? e10 then
        binary_round prec emax neg (Z.to_pos (m * 10 ^ e10)) 0
      else
        let '(q, e, l) := SFdiv_core_binary prec emax m 0 (10 ^ (- e10)) 0 in
        binary_round_aux prec emax neg q e l
  | _ => S754_zero neg
  end.

Definition float_of_literal (l : literal) : spec_float :=
  match l with
  | LitDecimal neg m e10 => float_of_decimal neg m e10
  | LitInf neg => S754_infinity neg
  | LitNan => S754_nan
  end.

(** [float(v)]. *)
Definition py_float (v : pyval) : outcome spec_float :=
  match v with
  | PFloat f => Ok f
  | PInt z =>
      match binary_normalize prec emax z 0 false with
      | S754_infinity _ => Raise OverflowError
      | f => Ok f
      end
  | PBool b => Ok (binary_normalize prec emax (if b then 1 else 0) 0 false)
  | PStr s =>
      match parse_float s with
      | Some l => Ok (float_of_literal l)
      | None => Raise ValueError
      end
  | _ => Raise TypeError
  end.

(** The integer part of a float, towards zero. *)
Definition trunc_float (f : spec_float) : outcome Z :=
  match f with
  | S754_zero _ => Ok 0
  | S754_infinity _ => Raise OverflowError
  | S754_nan => Raise ValueError
  | S754_finite s m e =>
      let a := if 0 <=? e then Zpos m * 2 ^ e else Zpos m / 2 ^ (- e) in
      Ok (if s then - a else a)
  end.

(** [int(v)]: a [datetime], [None], a list or a dict is a [TypeError]. *)
Definition py_int (v : pyval) : outcome Z :=
  match v with
  | PInt z => Ok z
  | PBool b => Ok (if b then 1 else 0)
  | PFloat f => trunc_float f
  | PStr s =>
      match parse_int s with
      | Some z => Ok z
      | None => Raise ValueError
      end
  | _ => Raise TypeError
  end.

(** The methods of [str] without arguments that give a string back;
    asking a [str] for any other attribute is an [AttributeError]. *)
Definition str_method (name : string) : option (string -> string) :=
  if String.eqb name "lower" then Some lower
  else if String.eqb name "upper" then Some upper
  else if String.eqb name "strip" then Some strip
  else if String.eqb name "lstrip" then Some lstrip
  else if String.eqb name "rstrip" then Some rstrip
  else None.

(** [s.name()]. *)
Definition call_str_method (s : string) (name : string) : outcome string :=
  match str_method name with
  | Some f => Ok (f s)
  | None => Raise AttributeError
  end.

(** [sep.join(items)]: every item has to be a [str]. *)
Fixpoint join_items (items : list pyval) : outcome (list string) :=
  match items with
  | [] => Ok []
  | PStr s :: rest =>
      match join_items rest with
      | Ok l => Ok (s :: l)
      | r => r
      end
  | _ :: _ => Raise TypeError
  end.

End Py.

(** ** Naive datetimes *)

Module Datetime.
Import Py.

(** A [datetime] without time zone is the number of microseconds between
    1970-01-01 00:00:00 on the same wall clock and the instant it names;
    comparison and subtraction are those of [Z]. *)

(** [timedelta(days=1)] and [timedelta(microseconds=1)]. *)
Definition one_day : Z := 86400000000.
Definition one_microsecond : Z := 1.

Definition is_leap (year : Z) : bool :=
  (year mod 4 =? 0) && (negb (year mod 100 =? 0) || (year mod 400 =? 0)).

Definition days_before_year (year : Z) : Z :=
  let y := year - 1 in y * 365 + y / 4 - y / 100 + y / 400.

Definition days_before_month (year month : Z) : Z :=
  nth (Z.to_nat month) [0; 0; 31; 59; 90; 120; 151; 181; 212; 243; 273; 304; 334] 0
  + (if (2 <? month) && is_leap year then 1 else 0).

(** The proleptic Gregorian ordinal of a date, 0001-01-01 being day 1. *)
Definition ymd2ord (year month day : Z) : Z :=
  days_before_year year + days_before_month year month + day.

(** [datetime(year, month, day, hour, minute, second, microsecond)]. *)
Definition datetime (year month day hour minute second microsecond : Z) : Z :=
  ((((ymd2ord year month day - ymd2ord 1970 1 1) * 24 + hour) * 60 + minute) * 60
   + second) * 1000000 + microsecond.

(** [datetime.min] and [datetime.max]. *)
Definition dt_min : Z := Eval vm_compute in datetime 1 1 1 0 0 0 0.
Definition dt_max : Z := Eval vm_compute in datetime 9999 12 31 23 59 59 999999.

(** [t + d] for a timedelta [d]: an [OverflowError] outside years 1 to
    9999. *)
Definition add (t d : Z) : outcome Z :=
  let r := t + d in
  if (dt_min <=? r) && (r <=? dt_max) then Ok r else Raise OverflowError.

(** [datetime.fromtimestamp(ts)]: the wall-clock reading, in the zone of
    the machine, of the instant [ts] seconds after the UNIX epoch.
    [utcoffset] gives the zone's offset from UTC, in seconds, at an
    instant.  (Out of range, Python raises one of several exceptions
    depending on the platform; the model raises [ValueError].) *)
Definition fromtimestamp (utcoffset : Z -> Z) (ts : Z) : outcome Z :=
  let r := (ts + utcoffset ts) * 1000000 in
  if (dt_min <=? r) && (r <=? dt_max) then Ok r else Raise ValueError.

(** [t.strftime('%Y%m%d%H%M%S')] prints the calendar fields of [t] down to
    the second, so two datetimes get the same text exactly when they lie
    in the same second: the text is represented by the number of that
    second. *)
Definition strftime_seconds (t : Z) : Z := t / 1000000.

End Datetime.

(** ** The world outside the code, and the monad that threads it *)

Module World.
Import Py.

(** A call of the public API, as [api_query] receives it. *)
Inductive request : Type :=
| ReturnTicker
| Return24hVolume
| ReturnTradeHistory (currency_pair : pyval) (start end_ : Z)
| ReturnChartData (currency_pair : pyval) (start end_ : Z) (period : Z).

(** A line handed to a logger: [info] with its arguments, or [exception]
    with the exception being handled when the code knows it. *)
Inductive log_record : Type :=
| LogInfo (logger : string) (msg : string) (args : list pyval)
| LogException (logger : string) (msg : string) (e : option exn).

(** What the code cannot decide: the answers of the exchange, whether the
    database takes a batch, the time zone and the C library's date
    formatting.  [http n r] is the parsed JSON answer to request [r] when
    [n] requests were made before it, and [None] when opening the URL or
    parsing the answer raised.  [insert_many_error n c docs] is the
    exception [insert_many] raises for the batch [docs] on collection [c]
    when [n] batches are stored already, if it raises. *)
Record environment : Type := {
  http : nat -> request -> option pyval;
  insert_many_error : nat -> string -> pyval -> option exn;
  utcoffset : Z -> Z;
  strftime : string -> Z -> string
}.

(** The state of the module-level singletons: the clock ([datetime.now()],
    advanced by [time.sleep]), the requests sent so far, the batches
    stored in Mongo, the log files, the terminal, and the [markets] field
    of the one [Poloniex] instance. *)
Record world : Type := {
  clock : Z;
  requests : list request;
  stored : list (string * pyval);
  logs : list log_record;
  stdout : list (string * list pyval);
  stdin : list string;
  markets : option (list pyval)
}.

Definition set_clock (t : Z) (w : world) : world :=
  {| clock := t; requests := requests w; stored := stored w; logs := logs w;
     stdout := stdout w; stdin := stdin w; markets := markets w |}.

Definition add_request (r : request) (w : world) : world :=
  {| clock := clock w; requests := requests w ++ [r]; stored := stored w;
     logs := logs w; stdout := stdout w; stdin := stdin w; markets := markets w |}.

Definition add_stored (c : string) (docs : pyval) (w : world) : world :=
  {| clock := clock w; requests := requests w; stored := stored w ++ [(c, docs)];
     logs := logs w; stdout := stdout w; stdin := stdin w; markets := markets w |}.

Definition add_log (r : log_record) (w : world) : world :=
  {| clock := clock w; requests := requests w; stored := stored w;
     logs := logs w ++ [r]; stdout := stdout w; stdin := stdin w;
     markets := markets w |}.

Definition add_stdout (fmt : string) (args : list pyval) (w : world) : world :=
  {| clock := clock w; requests := requests w; stored := stored w;
     logs := logs w; stdout := stdout w ++ [(fmt, args)]; stdin := stdin w;
     markets := markets w |}.

Definition set_stdin (l : list string) (w : world) : world :=
  {| clock := clock w; requests := requests w; stored := stored w;
     logs := logs w; stdout := stdout w; stdin := l; markets := markets w |}.

Definition set_markets (m : option (list pyval)) (w : world) : world :=
  {| clock := clock w; requests := requests w; stored := stored w;
     logs := logs w; stdout := stdout w; stdin := stdin w; markets := m |}.

(** The local variables of a running function next to the world. *)
Record frame (L : Type) : Type := Frame { vars : L; world_of : world }.
Arguments Frame {L} vars world_of.
Arguments vars {L} f.
Arguments world_of {L} f.

End World.

Module Exec.
Import Py World.

Section Monad.
Context {S : Type}.

(** A computation over a state [S] that can raise. *)
Definition M (A : Type) : Type := S -> outcome A * S.

Definition ret {A} (a : A) : M A := fun s => (Ok a, s).

Definition raise {A} (e : exn) : M A := fun s => (Raise e, s).

Definition lift {A} (o : outcome A) : M A := fun s => (o, s).

Definition bind {A B} (c : M A) (k : A -> M B) : M B :=
  fun s =>
    match c s with
    | (Ok a, s') => k a s'
    | (Raise e, s') => (Raise e, s')
    | (OutOfFuel, s') => (OutOfFuel, s')
    end.

(** [try: body / except Exception: handler]: the handler starts from
    the state the body had reached. *)
Definition try_except {A} (body : M A) (handler : exn -> M A) : M A :=
  fun s =>
    match body s with
    | (Raise e, s') => handler e s'
    | r => r
    end.

Definition gets {A} (f : S -> A) : M A := fun s => (Ok (f s), s).

Definition modify (f : S -> S) : M unit := fun s => (Ok tt, f s).

(** [while cond: body], for at most [fuel] rounds. *)
Fixpoint while (fuel : nat) (cond : S -> bool) (body : M unit) (s : S)
  : outcome unit * S :=
  if cond s then
    match fuel with
    | O => (OutOfFuel, s)
    | Datatypes.S fuel' =>
        match body s with
        | (Ok _, s') => while fuel' cond body s'
        | r => r
        end
    end
  else (Ok tt, s).

(** [for x in items: body]. *)
Fixpoint for_each {A} (items : list A) (body : A -> M unit) : M unit :=
  match items with
  | [] => ret tt
  | x :: rest => bind (body x) (fun _ => for_each rest body)
  end.

End Monad.

Arguments M S A : clear implicits.

Declare Scope exec_scope.
Delimit Scope exec_scope with exec.
Notation "x <- c ;; k" := (bind c (fun x => k))
  (at level 100, c at next level, right associativity) : exec_scope.
Notation "c ;; k" := (bind c (fun _ => k))
  (at level 100, right associativity) : exec_scope.

(** The same for a plain outcome, without state. *)
Definition and_then {A B} (o : outcome A) (k : A -> outcome B) : outcome B :=
  match o with
  | Ok a => k a
  | Raise e => Raise e
  | OutOfFuel => OutOfFuel
  end.

Section Frames.
Context {L : Type}.

(** Run a computation on the world inside a function's frame. *)
Definition in_world {A} (c : M world A) : M (frame L) A :=
  fun s => let '(r, w) := c (world_of s) in (r, Frame (vars s) w).

Definition local {A} (f : L -> A) : M (frame L) A :=
  fun s => (Ok (f (vars s)), s).

Definition assign (f : L -> L) : M (frame L) unit :=
  fun s => (Ok tt, Frame (f (vars s)) (world_of s)).

(** Call a function: its locals start as [init] and disappear when it
    returns or raises. *)
Definition call {A} (init : L) (c : M (frame L) A) : M world A :=
  fun w => let '(r, s) := c (Frame init w) in (r, world_of s).

End Frames.

(** *** The singletons *)

Definition log_info (logger msg : string) (args : list pyval) : M world unit :=
  modify (add_log (LogInfo logger msg args)).

Definition log_exception (logger msg : string) (e : option exn) : M world unit :=
  modify (add_log (LogException logger msg e)).

Definition print (fmt : string) (args : list pyval) : M world unit :=
  modify (add_stdout fmt args).

(** [input()]: the next line of the terminal, [EOFError] at its end. *)
Definition input : M world string :=
  fun w =>
    match stdin w with
    | [] => (Raise EOFError, w)
    | l :: rest => (Ok l, set_stdin rest w)
    end.

(** [datetime.now()]. *)
Definition now : M world Z := gets clock.

(** [time.sleep(seconds)]. *)
Definition sleep (seconds : Z) : M world unit :=
  modify (fun w => set_clock (clock w + seconds * 1000000) w).

(** [collection.insert_many(docs)]. *)
Definition insert_many (env : environment) (collection : string) (docs : pyval)
  : M world unit :=
  fun w =>
    match insert_many_error env (length (stored w)) collection docs with
    | Some e => (Raise e, w)
    | None => (Ok tt, add_stored collection docs w)
    end.

End Exec.

(** ** poloniex_wrapper.py: the [Poloniex] class *)

Module Wrapper.
Import Py World Exec.
Local Open Scope exec_scope.

Definition logger : string := "poloniex_wrapper_logger".

(** [Poloniex.api_query(ApiPublicMethods, params)].  The URL is built from
    the parameters and opened; when that or the JSON parse raises, the
    handler logs and evaluates [json.loads(None)], which is a [TypeError]
    for the caller. *)
Definition api_query (env : environment) (req : request) : M world pyval :=
  n <- gets (fun w => length (requests w)) ;;
  log_info logger "ApiPublicMethods URL open: %s" [] ;;
  modify (add_request req) ;;
  match http env n req with
  | Some v => ret v
  | None => log_exception logger "Communication error" None ;; raise TypeError
  end.

Definition return_ticker (env : environment) : M world pyval :=
  api_query env ReturnTicker.

Definition return_24h_volume (env : environment) : M world pyval :=
  api_query env Return24hVolume.

Definition return_public_trade_history (env : environment)
    (currency_pair : pyval) (start end_ : Z) : M world pyval :=
  api_query env (ReturnTradeHistory currency_pair start end_).

Definition return_chart_data (env : environment)
    (currency_pair : pyval) (start end_ : Z) (period : Z) : M world pyval :=
  api_query env (ReturnChartData currency_pair start end_ period).

(** [self.markets.append(market)]. *)
Definition append_market (market : pyval) (w : world) : world :=
  match markets w with
  | Some l => set_markets (Some (l ++ [market])) w
  | None => w
  end.

(** [return self.markets]. *)
Definition return_markets : M world pyval :=
  m <- gets markets ;;
  ret (match m with Some l => PList l | None => PNone end).

(** The body of the [for] loop of [get_all_markets]. *)
Definition collect_market (volumes market : pyval) : M world unit :=
  v <- lift (py_getitem volumes market) ;;
  if is_dict v then modify (append_market market) else ret tt.

(** [Poloniex.get_all_markets]. *)
Definition get_all_markets (env : environment) : M world pyval :=
  m <- gets markets ;;
  match m with
  | None =>
      modify (set_markets (Some [])) ;;
      volumes <- return_24h_volume env ;;
      items <- lift (py_iter volumes) ;;
      for_each items (collect_market volumes)
  | Some _ => ret tt
  end ;;
  return_markets.

(** [market[:3] == 'BTC']. *)
Definition starts_with_BTC (market : pyval) : outcome bool :=
  match market with
  | PStr s => Ok (String.eqb (substring 0 3 s) "BTC")
  | PList _ => Ok false
  | _ => Raise TypeError
  end.

(** The body of the [for] loop of [get_all_btc_markets]. *)
Definition collect_btc_market (volumes market : pyval) : M world unit :=
  v <- lift (py_getitem volumes market) ;;
  if is_dict v then
    b <- lift (starts_with_BTC market) ;;
    if b : bool then modify (append_market market) else ret tt
  else ret tt.

(** [Poloniex.get_all_btc_markets]. *)
Definition get_all_btc_markets (env : environment) : M world pyval :=
  m <- gets markets ;;
  match m with
  | None =>
      modify (set_markets (Some [])) ;;
      volumes <- return_ticker env ;;
      items <- lift (py_iter volumes) ;;
      for_each items (collect_btc_market volumes)
  | Some _ => ret tt
  end ;;
  return_markets.

(** [create_time_stamp] is [time.mktime(time.strptime(datestr, ...))], two
    calls into the C library; the functions below take it as [stamp], the
    float or the exception it gives for a value. *)

(** The body of the loop of [post_process] for one entry of the list. *)
Definition post_process_entry (stamp : pyval -> outcome spec_float) (x : pyval)
  : outcome pyval :=
  match x with
  | PDict d =>
      match dict_get "datetime" d, dict_get "timestamp" d with
      | Some datestr, None =>
          and_then (stamp datestr) (fun t =>
          Ok (PDict (dict_set "timestamp" (PFloat t) d)))
      | _, _ => Ok x
      end
  | _ => Ok x
  end.

Fixpoint post_process_each (stamp : pyval -> outcome spec_float) (l : list pyval)
  : outcome (list pyval) :=
  match l with
  | [] => Ok []
  | x :: rest =>
      and_then (post_process_entry stamp x) (fun x' =>
      and_then (post_process_each stamp rest) (fun rest' =>
      Ok (x' :: rest')))
  end.

(** ['return' in v] for a list: is one of the items that string? *)
Definition has_return_item (l : list pyval) : bool :=
  existsb (fun x => match x with PStr s => String.eqb s "return" | _ => false end) l.

(** [Poloniex.post_process(before)]. *)
Definition post_process (stamp : pyval -> outcome spec_float) (before : pyval)
  : outcome pyval :=
  match before with
  | PDict d =>
      match dict_get "return" d with
      | Some (PList l) =>
          and_then (post_process_each stamp l) (fun l' =>
          Ok (PDict (dict_set "return" (PList l') d)))
      | _ => Ok before
      end
  | PList l => if has_return_item l then Raise TypeError else Ok before
  | PStr s =>
      match String.index 0 "return" s with
      | Some _ => Raise TypeError
      | None => Ok before
      end
  | _ => Raise TypeError
  end.

End Wrapper.

(** ** poloniex_scraping_bot.py *)

Module ScrapingBot.
Import Py World Exec Wrapper.
Local Open Scope exec_scope.

Definition logger : string := "poloniex_scraping_bot_logger".

(** The local variables of [get_new_ticker_data]; [None] is a name that
    has not been assigned yet. *)
Record locals : Type := {
  tickers_dict : option pyval;
  tickers : option (list pyval)
}.

Definition unbound : locals := {| tickers_dict := None; tickers := None |}.

Definition set_tickers_dict (v : pyval) (l : locals) : locals :=
  {| tickers_dict := Some v; tickers := tickers l |}.

Definition set_tickers (v : list pyval) (l : locals) : locals :=
  {| tickers_dict := tickers_dict l; tickers := Some v |}.

(** Reading the local [tickers]. *)
Definition read_tickers : M (frame locals) (list pyval) :=
  t <- local tickers ;;
  match t with
  | Some l => ret l
  | None => raise UnboundLocalError
  end.

(** The body of the [try]. *)
Definition fetch_tickers (env : environment) (insert_to_database : bool)
  : M (frame locals) unit :=
  td <- in_world (return_ticker env) ;;
  assign (set_tickers_dict td) ;;
  assign (set_tickers []) ;;
  items <- lift (py_iter td) ;;
  for_each items (fun market =>
    ticker <- lift (py_getitem td market) ;;
    ticker <- lift (py_setitem "market" market ticker) ;;
    t <- in_world now ;;
    ticker <- lift (py_setitem "time"
                      (PStr (strftime env "%Y-%m-%d %H:%M:%S" t)) ticker) ;;
    l <- read_tickers ;;
    assign (set_tickers (l ++ [ticker]))) ;;
  if insert_to_database then
    l <- read_tickers ;;
    in_world (insert_many env "tickers" (PList l))
  else ret tt.

(** [get_new_ticker_data(insert_to_database)]. *)
Definition get_new_ticker_data (env : environment) (insert_to_database : bool)
  : M world pyval :=
  call unbound
    (in_world (log_info logger "get_new_ticker_data()" []) ;;
     try_except
       (fetch_tickers env insert_to_database)
       (fun e => in_world (log_exception logger
                             "Public ticker data method error" (Some e))) ;;
     if negb insert_to_database then
       l <- read_tickers ;;
       ret (PList l)
     else ret PNone).

(** [main()]: the poll, for at most [fuel] rounds of its [while True]. *)
Definition main (fuel : nat) (env : environment) : M world unit :=
  while fuel (fun _ => true)
    (t <- now ;;
     print "%s" [PStr (strftime env "%Y-%m-%d %H:%M:%S" t)] ;;
     get_new_ticker_data env true ;;
     sleep 60).

End ScrapingBot.

(** ** poloniex_bot.py *)

Module Bot.
Import Py World Exec Wrapper.
Local Open Scope exec_scope.

Definition logger : string := "poloniex_bot_logger".
Definition time_format : string := "%Y-%m-%d %H:%M:%S".

(** [for trade_part in current_trade: trade_part['market'] = market], on
    the items one after the other. *)
Fixpoint set_market_each (market : pyval) (items : list pyval)
  : outcome (list pyval) :=
  match items with
  | [] => Ok []
  | trade_part :: rest =>
      and_then (py_setitem "market" market trade_part) (fun trade_part' =>
      and_then (set_market_each market rest) (fun rest' =>
      Ok (trade_part' :: rest')))
  end.

(** The loop over whatever the API returned: a list has its items
    updated in place, any other iterable raises at its first item. *)
Definition set_market (market : pyval) (current_trade : pyval) : outcome pyval :=
  and_then (py_iter current_trade) (fun items =>
  and_then (set_market_each market items) (fun items' =>
  Ok (match current_trade with PList _ => PList items' | other => other end))).

(** *** The local variables of the two trade-history functions *)
Module TradeVars.
Record t : Type := {
  end_date : Z;
  current_date_start : Z;
  current_date_end : Z;
  trade_history : list pyval
}.

Definition with_end_date (x : Z) (v : t) : t :=
  {| end_date := x; current_date_start := current_date_start v;
     current_date_end := current_date_end v; trade_history := trade_history v |}.

Definition with_start (x : Z) (v : t) : t :=
  {| end_date := end_date v; current_date_start := x;
     current_date_end := current_date_end v; trade_history := trade_history v |}.

Definition with_end (x : Z) (v : t) : t :=
  {| end_date := end_date v; current_date_start := current_date_start v;
     current_date_end := x; trade_history := trade_history v |}.

Definition with_history (x : list pyval) (v : t) : t :=
  {| end_date := end_date v; current_date_start := current_date_start v;
     current_date_end := current_date_end v; trade_history := x |}.
End TradeVars.
Import TradeVars.

(** [while current_date_start < end_date]. *)
Definition trade_loop_cond (s : frame TradeVars.t) : bool :=
  current_date_start (vars s) <? end_date (vars s).

(** [if current_date_end > end_date: current_date_end = end_date]. *)
Definition clamp_window : M (frame TradeVars.t) unit :=
  assign (fun v =>
    if end_date v <? current_date_end v then with_end (end_date v) v else v).

(** The [__log__.info] and [print] lines at the head of the loop body. *)
Definition announce_window (env : environment) (market : pyval)
  : M (frame TradeVars.t) unit :=
  v <- local id ;;
  let args := [market;
               PStr (strftime env time_format (current_date_start v));
               PStr (strftime env time_format (current_date_end v))] in
  in_world (log_info logger
              "__poloniex__.return_public_trade_history(%s, %s, %s)" args) ;;
  in_world (print "Market: %s, %s - %s" args).

(** [trade_history += current_trade]. *)
Definition extend_history (current_trade : pyval) : M (frame TradeVars.t) unit :=
  items <- lift (py_iter current_trade) ;;
  assign (fun v => with_history (trade_history v ++ items) v).

(** [current_date_start += timedelta(days=1)] and the same for the end. *)
Definition advance_one_day : M (frame TradeVars.t) unit :=
  v <- local id ;;
  s' <- lift (Datetime.add (current_date_start v) Datetime.one_day) ;;
  assign (with_start s') ;;
  v <- local id ;;
  e' <- lift (Datetime.add (current_date_end v) Datetime.one_day) ;;
  assign (with_end e').

(** The [try] block of [get_trade_history_between_dates]. *)
Definition fetch_trades (env : environment) (market : pyval)
    (insert_to_database : bool) : M (frame TradeVars.t) unit :=
  v <- local id ;;
  current_trade <- in_world (return_public_trade_history env market
                               (current_date_start v) (current_date_end v)) ;;
  current_trade <- lift (set_market market current_trade) ;;
  (if insert_to_database
   then in_world (insert_many env "trade_history" current_trade)
   else extend_history current_trade) ;;
  advance_one_day.

(** The handler of every [except Exception] of the module. *)
Definition log_window_error {L : Type} (e : exn) : M (frame L) unit :=
  in_world (log_exception logger "Public trade history method error" (Some e)).

(** One round of the [while] loop of [get_trade_history_between_dates]. *)
Definition trade_window (env : environment) (market : pyval)
    (insert_to_database : bool) : M (frame TradeVars.t) unit :=
  clamp_window ;;
  announce_window env market ;;
  try_except (fetch_trades env market insert_to_database) log_window_error.

(** The two assignments that open the window of a market. *)
Definition first_window (start_date : Z) : M (frame TradeVars.t) unit :=
  assign (with_start start_date) ;;
  t1 <- lift (Datetime.add start_date Datetime.one_day) ;;
  t2 <- lift (Datetime.add t1 (- Datetime.one_microsecond)) ;;
  assign (with_end t2).

(** The [currency_pairs] in use, and the names joined for the log line. *)
Definition log_call (env : environment) (name : string) (start_date end_date : Z)
    (extra : list pyval) (currency_pairs : pyval) : M world (list pyval) :=
  pairs <- lift (py_iter currency_pairs) ;;
  names <- lift (join_items pairs) ;;
  log_info logger name
    ([PStr (strftime env time_format start_date);
      PStr (strftime env time_format end_date)] ++ extra ++ [PList (map PStr names)]) ;;
  ret pairs.

(** The body of [for market in currency_pairs]; [fuel] bounds the rounds
    of the [while]. *)
Definition trade_market_loop (fuel : nat) (env : environment) (start_date : Z)
    (insert_to_database : bool) (market : pyval) : M (frame TradeVars.t) unit :=
  first_window start_date ;;
  while fuel trade_loop_cond (trade_window env market insert_to_database).

(** [get_trade_history_between_dates(start_date, end_date, currency_pairs,
    insert_to_database)]. *)
Definition get_trade_history_between_dates (fuel : nat) (env : environment)
    (start_date end_date : Z) (currency_pairs : pyval) (insert_to_database : bool)
  : M world pyval :=
  currency_pairs <- match currency_pairs with
                    | PNone => get_all_markets env
                    | _ => ret currency_pairs
                    end ;;
  pairs <- log_call env "get_trade_history_between_dates(%s, %s, %s)"
             start_date end_date [] currency_pairs ;;
  call {| end_date := end_date; current_date_start := start_date;
          current_date_end := start_date; trade_history := [] |}
    (for_each pairs (trade_market_loop fuel env start_date insert_to_database) ;;
     if negb insert_to_database then
       th <- local trade_history ;;
       ret (PList th)
     else ret PNone).

(** The [try] block of [get_complete_trade_history]: after a fetch, either
    the window follows the moving end ([time.sleep(60)], then both ends
    become [datetime.now()]) or it moves one day on. *)
Definition fetch_trades_live (env : environment) (market : pyval)
    (mongo_collection : option string) : M (frame TradeVars.t) unit :=
  v <- local id ;;
  current_trade <- in_world (return_public_trade_history env market
                               (current_date_start v) (current_date_end v)) ;;
  current_trade <- lift (set_market market current_trade) ;;
  match mongo_collection with
  | Some c => in_world (insert_many env c current_trade)
  | None => extend_history current_trade
  end ;;
  next_end <- lift (Datetime.add (current_date_end v) Datetime.one_day) ;;
  v <- local id ;;
  if end_date v <? next_end then
    assign (with_start (current_date_end v)) ;;
    in_world (sleep 60) ;;
    t <- in_world now ;;
    assign (fun v => with_end t (with_end_date t v))
  else advance_one_day.

Definition live_window (env : environment) (market : pyval)
    (mongo_collection : option string) : M (frame TradeVars.t) unit :=
  clamp_window ;;
  announce_window env market ;;
  try_except (fetch_trades_live env market mongo_collection) log_window_error.

(** The question asked before all markets are fetched:
    [c = input(); if c.toLower() == 'n': return].  [true] means go on. *)
Definition confirm_all_markets : M world bool :=
  print "Jesi li siguran da zelis nastaviti sa dohvatom svih trzista?" [] ;;
  c <- input ;;
  answer <- lift (call_str_method c "toLower") ;;
  ret (negb (String.eqb answer "n")).

(** The body of [for market in currency_pairs]. *)
Definition live_market_loop (fuel : nat) (env : environment) (start_date : Z)
    (mongo_collection : option string) (market : pyval)
  : M (frame TradeVars.t) unit :=
  first_window start_date ;;
  while fuel trade_loop_cond (live_window env market mongo_collection).

(** [get_complete_trade_history(currency_start_date, currency_pairs,
    mongo_collection)]. *)
Definition get_complete_trade_history (fuel : nat) (env : environment)
    (currency_start_date : Z) (currency_pairs : pyval)
    (mongo_collection : option string) : M world pyval :=
  chosen <- match currency_pairs with
            | PNone =>
                all <- get_all_markets env ;;
                go_on <- confirm_all_markets ;;
                ret (if go_on : bool then Some all else None)
            | _ => ret (Some currency_pairs)
            end ;;
  match chosen with
  | None => ret PNone
  | Some currency_pairs =>
      let start_date := currency_start_date in
      end_date <- now ;;
      pairs <- log_call env "get_trade_history_between_dates(%s, %s, %s)"
                 start_date end_date [] currency_pairs ;;
      call {| end_date := end_date; current_date_start := start_date;
              current_date_end := start_date; trade_history := [] |}
        (for_each pairs (live_market_loop fuel env start_date mongo_collection) ;;
         match mongo_collection with
         | None => th <- local trade_history ;; ret (PList th)
         | Some _ => ret PNone
         end)
  end.

(** *** Candles *)

(** [trade_part[field] = float(trade_part[field])]. *)
Definition coerce_float (field : string) (trade_part : pyval) : outcome pyval :=
  and_then (py_getitem trade_part (PStr field)) (fun x =>
  and_then (py_float x) (fun f =>
  py_setitem field (PFloat f) trade_part)).

(** The nine assignments made on every candle of a window. *)
Definition normalize_candle (env : environment) (market : pyval)
    (trade_part : pyval) : outcome pyval :=
  and_then (py_setitem "market" market trade_part) (fun trade_part =>
  and_then (py_getitem trade_part (PStr "date")) (fun d =>
  and_then (py_int d) (fun ts =>
  and_then (Datetime.fromtimestamp (utcoffset env) ts) (fun t =>
  and_then (py_setitem "date" (PDatetime t) trade_part) (fun trade_part =>
  and_then (coerce_float "high" trade_part) (fun trade_part =>
  and_then (coerce_float "low" trade_part) (fun trade_part =>
  and_then (coerce_float "open" trade_part) (fun trade_part =>
  and_then (coerce_float "close" trade_part) (fun trade_part =>
  and_then (coerce_float "volume" trade_part) (fun trade_part =>
  and_then (coerce_float "quoteVolume" trade_part) (fun trade_part =>
  coerce_float "weightedAverage" trade_part))))))))))).

Fixpoint normalize_each (env : environment) (market : pyval) (items : list pyval)
  : outcome (list pyval) :=
  match items with
  | [] => Ok []
  | trade_part :: rest =>
      and_then (normalize_candle env market trade_part) (fun trade_part' =>
      and_then (normalize_each env market rest) (fun rest' =>
      Ok (trade_part' :: rest')))
  end.

Definition normalize (env : environment) (market : pyval) (current_trade : pyval)
  : outcome pyval :=
  and_then (py_iter current_trade) (fun items =>
  and_then (normalize_each env market items) (fun items' =>
  Ok (match current_trade with PList _ => PList items' | other => other end))).

(** *** The local variables of [get_chart_data_between_dates] *)
Module ChartVars.
Record t : Type := {
  end_date : Z;
  current_date_start : Z;
  current_date_end : Z;
  atempt : gmap Z nat;
  chart_data : list pyval
}.

Definition with_start (x : Z) (v : t) : t :=
  {| end_date := end_date v; current_date_start := x;
     current_date_end := current_date_end v; atempt := atempt v;
     chart_data := chart_data v |}.

Definition with_end (x : Z) (v : t) : t :=
  {| end_date := end_date v; current_date_start := current_date_start v;
     current_date_end := x; atempt := atempt v; chart_data := chart_data v |}.

Definition with_atempt (x : gmap Z nat) (v : t) : t :=
  {| end_date := end_date v; current_date_start := current_date_start v;
     current_date_end := current_date_end v; atempt := x;
     chart_data := chart_data v |}.

Definition with_chart_data (x : list pyval) (v : t) : t :=
  {| end_date := end_date v; current_date_start := current_date_start v;
     current_date_end := current_date_end v; atempt := atempt v;
     chart_data := x |}.
End ChartVars.

Definition chart_loop_cond (s : frame ChartVars.t) : bool :=
  ChartVars.current_date_start (vars s) <? ChartVars.end_date (vars s).

Definition chart_clamp_window : M (frame ChartVars.t) unit :=
  assign (fun v =>
    if ChartVars.end_date v <? ChartVars.current_date_end v
    then ChartVars.with_end (ChartVars.end_date v) v else v).

Definition chart_announce_window (env : environment) (market : pyval) (period : Z)
  : M (frame ChartVars.t) unit :=
  v <- local id ;;
  let s := PStr (strftime env time_format (ChartVars.current_date_start v)) in
  let e := PStr (strftime env time_format (ChartVars.current_date_end v)) in
  in_world (log_info logger "__poloniex__.return_chart_data(%s, %s, %s, %d)"
              [market; s; e; PInt period]) ;;
  in_world (print "Market: %s, %s - %s" [market; s; e]).

(** The counter of the window start: 1 at its first round, one more at
    each later round. *)
Definition count_attempt : M (frame ChartVars.t) unit :=
  assign (fun v =>
    let key := Datetime.strftime_seconds (ChartVars.current_date_start v) in
    match ChartVars.atempt v !! key with
    | None => ChartVars.with_atempt (<[key := 1%nat]> (ChartVars.atempt v)) v
    | Some n => ChartVars.with_atempt (<[key := Datatypes.S n]> (ChartVars.atempt v)) v
    end).

Definition chart_advance_one_day : M (frame ChartVars.t) unit :=
  v <- local id ;;
  s' <- lift (Datetime.add (ChartVars.current_date_start v) Datetime.one_day) ;;
  assign (ChartVars.with_start s') ;;
  v <- local id ;;
  e' <- lift (Datetime.add (ChartVars.current_date_end v) Datetime.one_day) ;;
  assign (ChartVars.with_end e').

(** The [try] block of [get_chart_data_between_dates]. *)
Definition fetch_candles (env : environment) (market : pyval) (period : Z)
    (insert_to_database : bool) : M (frame ChartVars.t) unit :=
  v <- local id ;;
  current_trade <- in_world (return_chart_data env market
                               (ChartVars.current_date_start v)
                               (ChartVars.current_date_end v) period) ;;
  current_trade <- lift (normalize env market current_trade) ;;
  (if insert_to_database
   then in_world (insert_many env "chart_data" current_trade)
   else
     items <- lift (py_iter current_trade) ;;
     assign (fun v => ChartVars.with_chart_data (ChartVars.chart_data v ++ items) v)) ;;
  chart_advance_one_day.

(** Has the window start now in [current_date_start] been counted five
    times? *)
Definition fifth_attempt (v : ChartVars.t) : bool :=
  match ChartVars.atempt v
          !! Datetime.strftime_seconds (ChartVars.current_date_start v) with
  | Some n => Nat.eqb n 5
  | None => false
  end.

(** The [if] that closes the loop body. *)
Definition force_advance : M (frame ChartVars.t) unit :=
  v <- local id ;;
  if fifth_attempt v then chart_advance_one_day else ret tt.

(** One round of the [while] loop of [get_chart_data_between_dates]. *)
Definition chart_window (env : environment) (market : pyval) (period : Z)
    (insert_to_database : bool) : M (frame ChartVars.t) unit :=
  chart_clamp_window ;;
  chart_announce_window env market period ;;
  count_attempt ;;
  try_except (fetch_candles env market period insert_to_database) log_window_error ;;
  force_advance.

Definition chart_first_window (start_date : Z) : M (frame ChartVars.t) unit :=
  assign (ChartVars.with_start start_date) ;;
  t1 <- lift (Datetime.add start_date Datetime.one_day) ;;
  t2 <- lift (Datetime.add t1 (- Datetime.one_microsecond)) ;;
  assign (ChartVars.with_end t2) ;;
  assign (ChartVars.with_atempt ∅).

(** The body of [for market in currency_pairs]. *)
Definition chart_market_loop (fuel : nat) (env : environment) (start_date : Z)
    (period : Z) (insert_to_database : bool) (market : pyval)
  : M (frame ChartVars.t) unit :=
  chart_first_window start_date ;;
  while fuel chart_loop_cond (chart_window env market period insert_to_database).

(** [get_chart_data_between_dates(start_date, end_date, period,
    currency_pairs, insert_to_database)]. *)
Definition get_chart_data_between_dates (fuel : nat) (env : environment)
    (start_date end_date : Z) (period : Z) (currency_pairs : pyval)
    (insert_to_database : bool) : M world pyval :=
  currency_pairs <- match currency_pairs with
                    | PNone => get_all_btc_markets env
                    | _ => ret currency_pairs
                    end ;;
  pairs <- log_call env "get_chart_data_between_dates(%s, %s, %d, %s)"
             start_date end_date [PInt period] currency_pairs ;;
  call {| ChartVars.end_date := end_date;
          ChartVars.current_date_start := start_date;
          ChartVars.current_date_end := start_date;
          ChartVars.atempt := ∅;
          ChartVars.chart_data := [] |}
    (for_each pairs (chart_market_loop fuel env start_date period insert_to_database) ;;
     if negb insert_to_database then
       cd <- local ChartVars.chart_data ;;
       ret (PList cd)
     else ret PNone).

(** [main()]: the candles of one market since 2017, into the database. *)
Definition main (fuel : nat) (env : environment) : M world unit :=
  t <- now ;;
  get_chart_data_between_dates fuel env (Datetime.datetime 2017 1 1 0 0 0 0) t 300
    (PList [PStr "BTC_BCN"]) true ;;
  ret tt.

End Bot.

(** ** Vocabulary of the statements *)

Module Spec.
Import Py World Exec Wrapper Bot.

(** Does [d] hold a dict under the key [k]? *)
Definition has_dict (d : list (string * pyval)) (k : string) : bool :=
  match dict_get k d with
  | Some v => is_dict v
  | None => false
  end.

(** The keys of a JSON object whose values are objects, in order. *)
Definition dict_markets (d : list (string * pyval)) : list pyval :=
  map PStr (List.filter (has_dict d) (map fst d)).

Definition btc_prefix (k : string) : bool := String.eqb (substring 0 3 k) "BTC".

(** Those of them that start with [BTC]. *)
Definition btc_markets (d : list (string * pyval)) : list pyval :=
  map PStr (List.filter (fun k => has_dict d k && btc_prefix k) (map fst d)).

(** *** Windows *)

(** A datetime Python can represent. *)
Definition in_range (t : Z) : Prop := Datetime.dt_min <= t <= Datetime.dt_max.

(** The [k]-th day window of a range, cut at the end of the range. *)
Definition window_at (start_date end_date : Z) (k : Z) : Z * Z :=
  (start_date + k * Datetime.one_day,
   Z.min (start_date + (k + 1) * Datetime.one_day - Datetime.one_microsecond)
     end_date).

(** How many days a range touches. *)
Definition window_count (start_date end_date : Z) : nat :=
  Z.to_nat ((end_date - start_date + Datetime.one_day - 1) / Datetime.one_day).

Definition day_windows (start_date end_date : Z) : list (Z * Z) :=
  map (fun k => window_at start_date end_date (Z.of_nat k))
    (seq 0 (window_count start_date end_date)).

(** The state of a round of a trade-history loop when it enters the
    [try]: the window is clamped and announced. *)
Definition trade_head (env : environment) (market : pyval)
    (s : frame TradeVars.t) : frame TradeVars.t :=
  snd (bind clamp_window (fun _ => announce_window env market) s).

(** The same for the chart loop: the round is counted as well. *)
Definition chart_head (env : environment) (market : pyval) (period : Z)
    (s : frame ChartVars.t) : frame ChartVars.t :=
  snd (bind chart_clamp_window (fun _ =>
       bind (chart_announce_window env market period) (fun _ =>
       count_attempt)) s).

(** The rounds counted so far for the window start in
    [current_date_start]. *)
Definition attempts (v : ChartVars.t) : nat :=
  default 0%nat
    (ChartVars.atempt v
       !! Datetime.strftime_seconds (ChartVars.current_date_start v)).

(** The state after [n] rounds of a loop body. *)
Definition rounds {S : Type} (body : M S unit) (n : nat) (s : S) : S :=
  Nat.iter n (fun s => snd (body s)) s.

(** An exchange that answers every trade-history request with a list of
    objects ... *)
Definition trades_succeed (env : environment) : Prop :=
  forall n market a b,
  exists items, http env n (ReturnTradeHistory market a b)
                = Some (PList (map PDict items)).

(** ... and every chart request with a list of candles that normalize. *)
Definition candles_succeed (env : environment) : Prop :=
  forall n market a b period,
  exists items items', http env n (ReturnChartData market a b period)
                       = Some (PList items)
                       /\ normalize_each env market items = Ok items'.

(** A database that takes every batch. *)
Definition sink_accepts (env : environment) : Prop :=
  forall n c docs, insert_many_error env n c docs = None.

(** An exchange that never answers. *)
Definition never_answers (env : environment) : Prop :=
  forall n r, http env n r = None.

(** Is the binary64 number [f] within half a unit in its last place of
    the decimal [m * 10 ^ e10]?  Both sides are scaled to integers. *)
Definition within_half_ulp (f : spec_float) (m e10 : Z) : bool :=
  match f with
  | S754_finite false mf ef =>
      let scale := 2 ^ Z.max ef 0 * 10 ^ Z.max (- e10) 0 in
      let a := Zpos mf * scale in
      let b := m * 10 ^ Z.max e10 0 * 2 ^ Z.max (- ef) 0 in
      2 * Z.abs (a - b) <=? scale
  | _ => false
  end.

(** A finite binary64 number in canonical form, as rounding produces. *)
Definition is_binary64 (f : spec_float) : bool := valid_binary prec emax f.

(** The seven numeric fields of a candle. *)
Definition numeric_fields : list string :=
  ["high"; "low"; "open"; "close"; "volume"; "quoteVolume"; "weightedAverage"].

End Spec.

(** ** Sample inputs *)

Module Samples.
Import Py World Exec.

(** The answer of [return24hVolume] shown in the wrapper's docstring, with
    a market quoted in USDT added. *)
Definition volumes : list (string * pyval) :=
  [("BTC_LTC", PDict [("BTC", PStr "2.23248854"); ("LTC", PStr "87.10381314")]);
   ("BTC_NXT", PDict [("BTC", PStr "0.981616"); ("NXT", PStr "14145")]);
   ("USDT_BTC", PDict [("USDT", PStr "1000.5"); ("BTC", PStr "0.25")]);
   ("totalBTC", PStr "81.89657704");
   ("totalLTC", PStr "78.52083806")].

(** An exchange that answers the two market-list requests with [volumes]
    and every window with an empty list; the machine is on UTC. *)
Definition quiet_exchange : environment :=
  {| http := fun _ r =>
               match r with
               | ReturnTicker | Return24hVolume => Some (PDict volumes)
               | _ => Some (PList [])
               end;
     insert_many_error := fun _ _ _ => None;
     utcoffset := fun _ => 0;
     strftime := fun _ _ => "" |}.

(** The candle of the specification's round-trip example. *)
Definition candle : pyval :=
  PDict [("date", PInt 1405699200);
         ("high", PStr "0.0045388");
         ("low", PStr "0.00403001");
         ("open", PStr "0.00404545");
         ("close", PStr "0.00427592");
         ("volume", PStr "44.11655644");
         ("quoteVolume", PStr "10259.29079097");
         ("weightedAverage", PStr "0.00430015")].

(** The numeric fields of [candle] as exact decimals: the digits and the
    power of ten. *)
Definition candle_decimals : list (string * (Z * Z)) :=
  [("high", (45388, -7));
   ("low", (403001, -8));
   ("open", (404545, -8));
   ("close", (427592, -8));
   ("volume", (4411655644, -8));
   ("quoteVolume", (1025929079097, -8));
   ("weightedAverage", (430015, -8))].

(** The record the sample candle becomes, given the datetime its
    timestamp converts to. *)
Definition normalized_candle (t : Z) (market : pyval) : list (string * pyval) :=
  [("date", PDatetime t);
   ("high", PFloat (S754_finite false 5232880125109557 (-60)));
   ("low", PFloat (S754_finite false 4646285192780639 (-60)));
   ("open", PFloat (S754_finite false 4664086300811769 (-60)));
   ("close", PFloat (S754_finite false 4929800119978509 (-60)));
   ("volume", PFloat (S754_finite false 6208853348251670 (-47)));
   ("quoteVolume", PFloat (S754_finite false 5640104758703376 (-39)));
   ("weightedAverage", PFloat (S754_finite false 4957735408035133 (-60)));
   ("market", market)].

(** An exchange that cannot be reached. *)
Definition dead_exchange : environment :=
  {| http := fun _ _ => None;
     insert_many_error := fun _ _ _ => None;
     utcoffset := fun _ => 0;
     strftime := fun _ _ => "" |}.

(** A fresh process at [t] on the clock, with [lines] waiting on the
    terminal. *)
Definition fresh (t : Z) (lines : list string) : world :=
  {| clock := t; requests := []; stored := []; logs := []; stdout := [];
     stdin := lines; markets := None |}.

(** A ticker answer for two markets, and an exchange that gives it; the
    C library formats every time as the epoch. *)
Definition ticker : list (string * pyval) :=
  [("BTC_LTC", PDict [("last", PStr "0.0251")]);
   ("BTC_NXT", PDict [("last", PStr "0.00005730")])].

Definition ticker_exchange : environment :=
  {| http := fun _ r =>
               match r with
               | ReturnTicker => Some (PDict ticker)
               | _ => None
               end;
     insert_many_error := fun _ _ _ => None;
     utcoffset := fun _ => 0;
     strftime := fun _ _ => "1970-01-01 00:00:00" |}.

End Samples.


(** ** More vocabulary: records, rounds and traces *)

Module Runs.
Import Py World Exec Wrapper Bot.

(** A record that carries the tag [market]. *)
Definition tagged (market : pyval) (item : pyval) : Prop :=
  exists d, item = PDict d /\ dict_get "market" d = Some market.

(** The local variables after a window was fetched and left behind: the
    fetched [items] are kept and both ends move one day on. *)
Definition trade_advanced (items : list pyval) (v : TradeVars.t) : TradeVars.t :=
  TradeVars.with_end (TradeVars.current_date_end v + Datetime.one_day)
    (TradeVars.with_start (TradeVars.current_date_start v + Datetime.one_day)
       (TradeVars.with_history (TradeVars.trade_history v ++ items) v)).

(** The local variables after the live-tail step taken at [t] on the clock:
    the window restarts at its old end and both ends of the range become
    [t]. *)
Definition trade_tailed (items : list pyval) (t : Z) (v : TradeVars.t) : TradeVars.t :=
  TradeVars.with_end t
    (TradeVars.with_end_date t
       (TradeVars.with_start (TradeVars.current_date_end v)
          (TradeVars.with_history (TradeVars.trade_history v ++ items) v))).

(** The request a round of a trade-history loop sends. *)
Definition trade_request (market : pyval) (v : TradeVars.t) : request :=
  ReturnTradeHistory market (TradeVars.current_date_start v)
    (TradeVars.current_date_end v).

(** The same for the chart loop. *)
Definition chart_request (market : pyval) (period : Z) (v : ChartVars.t) : request :=
  ReturnChartData market (ChartVars.current_date_start v)
    (ChartVars.current_date_end v) period.

Definition chart_advanced (items : list pyval) (v : ChartVars.t) : ChartVars.t :=
  ChartVars.with_end (ChartVars.current_date_end v + Datetime.one_day)
    (ChartVars.with_start (ChartVars.current_date_start v + Datetime.one_day)
       (ChartVars.with_chart_data (ChartVars.chart_data v ++ items) v)).

(** A candle as [normalize_candle] leaves it: tagged, dated with a
    [datetime], its seven numeric fields floats. *)
Definition normalized (market : pyval) (item : pyval) : Prop :=
  exists d t,
    item = PDict d
    /\ dict_get "market" d = Some market
    /\ dict_get "date" d = Some (PDatetime t)
    /\ Forall (fun field => exists f, dict_get field d = Some (PFloat f))
         Spec.numeric_fields.

(** The state in which the loop of a market is entered. *)
Definition trade_entry (start_date end_date : Z) (history : list pyval) (w : world)
  : frame TradeVars.t :=
  Frame {| TradeVars.end_date := end_date;
           TradeVars.current_date_start := start_date;
           TradeVars.current_date_end :=
             start_date + Datetime.one_day - Datetime.one_microsecond;
           TradeVars.trade_history := history |} w.

Definition chart_entry (start_date end_date : Z) (data : list pyval) (w : world)
  : frame ChartVars.t :=
  Frame {| ChartVars.end_date := end_date;
           ChartVars.current_date_start := start_date;
           ChartVars.current_date_end :=
             start_date + Datetime.one_day - Datetime.one_microsecond;
           ChartVars.atempt := ∅;
           ChartVars.chart_data := data |} w.


(** The requests that walk a range day by day for one market. *)
Definition trade_requests (start_date end_date : Z) (market : pyval) : list request :=
  map (fun ab => ReturnTradeHistory market (fst ab) (snd ab))
    (Spec.day_windows start_date end_date).

Definition chart_requests (start_date end_date : Z) (period : Z) (market : pyval)
  : list request :=
  map (fun ab => ReturnChartData market (fst ab) (snd ab) period)
    (Spec.day_windows start_date end_date).

(** A database that takes every batch when it is used at all. *)
Definition sink_ready (env : environment) (used : bool) : Prop :=
  used = true -> Spec.sink_accepts env.

(** What holds at the head of every round of the chart loop for a range
    ending at [end_]: the counters recorded belong to window starts not
    after the current one, and the current one was counted at most four
    times. *)
Definition chart_invariant (end_ : Z) (s : frame ChartVars.t) : Prop :=
  let v := vars s in
  ChartVars.end_date v = end_
  /\ Datetime.dt_min <= ChartVars.current_date_start v
  /\ Datetime.dt_min <= ChartVars.current_date_end v
  /\ (forall k n, ChartVars.atempt v !! k = Some n ->
                  k <= Datetime.strftime_seconds (ChartVars.current_date_start v))
  /\ (Spec.attempts v <= 4)%nat.

(** The rounds the chart loop can still make: five for every window left,
    less those already spent on the current one. *)
Definition chart_budget (end_ : Z) (v : ChartVars.t) : Z :=
  5 * Z.of_nat (Spec.window_count (ChartVars.current_date_start v) end_)
  - Z.of_nat (Spec.attempts v).

(** Each request of [rs] sent as often as [cs] says, in order. *)
Definition repeated (rs : list request) (cs : list nat) : list request :=
  flat_map (fun rc => repeat (fst rc) (snd rc)) (combine rs cs).

(** The requests of a chart walk over [names] in which the windows of the
    [i]-th market were tried as often as the [i]-th list of [counts]
    says. *)
Fixpoint chart_rounds (start_date end_date period : Z) (names : list string)
    (counts : list (list nat)) : list request :=
  match names, counts with
  | name :: names', cs :: counts' =>
      repeated (chart_requests start_date end_date period (PStr name)) cs
      ++ chart_rounds start_date end_date period names' counts'
  | _, _ => []
  end.

(** Counts that fit a walk: one list per market, one count per window,
    each from one to five. *)
Definition fair_counts (start_date end_date : Z) (names : list string)
    (counts : list (list nat)) : Prop :=
  length counts = length names
  /\ Forall (fun cs => length cs = Spec.window_count start_date end_date
                       /\ Forall (fun c => (1 <= c <= 5)%nat) cs) counts.

(** A ticker as [get_new_ticker_data] leaves it: the entry of [market] in
    the answer [d], with the market and the time [now] written into it. *)
Definition stamped_ticker (now : string) (d : list (string * pyval)) (market : string)
  : pyval :=
  match dict_get market d with
  | Some (PDict t) => PDict (dict_set "time" (PStr now) (dict_set "market" (PStr market) t))
  | _ => PNone
  end.

(** The entries of a list that are objects with a [datetime] and no
    [timestamp]: those [post_process] has to stamp. *)
Definition unstamped (x : pyval) : bool :=
  match x with
  | PDict d =>
      match dict_get "datetime" d, dict_get "timestamp" d with
      | Some _, None => true
      | _, _ => false
      end
  | _ => false
  end.

(** The database after some rounds that each sent one request and stored
    one batch: on top of [stored0] there is one batch for every request
    sent after the first [sent0], each a list of records with [Q] in
    [collection]. *)
Definition stored_since (stored0 : list (string * pyval)) (sent0 : nat)
    (collection : string) (Q : pyval -> Prop) (w : world) : Prop :=
  exists batches,
    stored w = stored0 ++ batches
    /\ length (requests w) = (sent0 + length batches)%nat
    /\ Forall (fun b => fst b = collection
                        /\ exists items, snd b = PList items /\ Forall Q items) batches.

(** A trade-history request for a day window of the range and one of the
    markets [names]. *)
Definition window_request (start_date end_date : Z) (names : list string)
    (q : request) : Prop :=
  exists name a b,
    In name names
    /\ In (a, b) (Spec.day_windows start_date end_date)
    /\ q = ReturnTradeHistory (PStr name) a b.

(** The requests sent since [sent0] all have [Q]. *)
Definition sent_since (sent0 : list request) (Q : request -> Prop) (w : world) : Prop :=
  exists l, requests w = sent0 ++ l /\ Forall Q l.

(** What holds at the head of every round of the loop of
    [get_trade_history_between_dates] over a range: the window starts a
    whole number of days after [start_date], and while it starts inside
    the range it ends, once clamped, where the day window does. *)
Definition trade_invariant (start_date end_ : Z) (s : frame TradeVars.t) : Prop :=
  let v := vars s in
  TradeVars.end_date v = end_
  /\ (exists k : nat,
        TradeVars.current_date_start v = start_date + Z.of_nat k * Datetime.one_day)
  /\ (TradeVars.current_date_start v < end_ ->
      Z.min (TradeVars.current_date_end v) end_
      = Z.min (TradeVars.current_date_start v + Datetime.one_day
               - Datetime.one_microsecond) end_).

End Runs.
(** ** The market list of the wrapper *)

Section MarketCache.
Import Py World Exec Wrapper Spec.

Variable env : environment.

Lemma dict_get_key (d : list (string * pyval)) (k : string) :
  In k (map fst d) -> exists v, dict_get k d = Some v.
Proof.
  induction d as [|[k' v'] d IH]; simpl; [tauto|].
  intros [->|Hin].
  - rewrite String.eqb_refl. eauto.
  - destruct (String.eqb k k'); eauto.
Qed.

Lemma set_markets_twice (a b : option (list pyval)) (w : world) :
  set_markets a (set_markets b w) = set_markets a w.
Proof. reflexivity. Qed.

(** The loop of [get_all_markets] over keys of the object: the dict-valued
    ones are appended to the list, nothing else changes. *)
Lemma collect_market_loop (d : list (string * pyval)) (keys : list string) :
  forall (acc : list pyval) (w : world),
    (forall k, In k keys -> In k (map fst d)) ->
    markets w = Some acc ->
    for_each (map PStr keys) (collect_market (PDict d)) w
    = (Ok tt, set_markets (Some (acc ++ map PStr (List.filter (has_dict d) keys))) w).
Proof.
  induction keys as [|k keys IH]; intros acc w Hsub Hm.
  - simpl. rewrite app_nil_r. unfold ret. destruct w; simpl in *; subst; reflexivity.
  - destruct (dict_get_key d k) as [v Hv]; [apply Hsub; now left|].
    simpl. unfold bind at 1. unfold collect_market at 1, has_dict at 1.
    unfold bind, lift. simpl. rewrite Hv.
    destruct (is_dict v) eqn:Hd.
    + unfold modify, append_market. rewrite Hm.
      rewrite (IH (acc ++ [PStr k])); [|intros; apply Hsub; now right|reflexivity].
      rewrite set_markets_twice. simpl. now rewrite <- app_assoc.
    + unfold ret. apply IH; [intros; apply Hsub; now right|assumption].
Qed.

Lemma collect_btc_market_loop (d : list (string * pyval)) (keys : list string) :
  forall (acc : list pyval) (w : world),
    (forall k, In k keys -> In k (map fst d)) ->
    markets w = Some acc ->
    for_each (map PStr keys) (collect_btc_market (PDict d)) w
    = (Ok tt, set_markets
                (Some (acc ++ map PStr
                         (List.filter (fun k => has_dict d k && btc_prefix k) keys))) w).
Proof.
  induction keys as [|k keys IH]; intros acc w Hsub Hm.
  - simpl. rewrite app_nil_r. unfold ret. destruct w; simpl in *; subst; reflexivity.
  - destruct (dict_get_key d k) as [v Hv]; [apply Hsub; now left|].
    simpl. unfold bind at 1. unfold collect_btc_market at 1, has_dict at 1.
    unfold bind, lift. simpl. rewrite Hv.
    destruct (is_dict v) eqn:Hd; simpl.
    + fold (btc_prefix k). destruct (btc_prefix k) eqn:Hb.
      * unfold modify, append_market. rewrite Hm.
        rewrite (IH (acc ++ [PStr k])); [|intros; apply Hsub; now right|reflexivity].
        rewrite set_markets_twice. simpl. now rewrite <- app_assoc.
      * unfold ret. apply IH; [intros; apply Hsub; now right|assumption].
    + unfold ret. apply IH; [intros; apply Hsub; now right|assumption].
Qed.

(** A first call of [get_all_markets]. *)
Lemma get_all_markets_first (w : world) (d : list (string * pyval)) :
  markets w = None ->
  http env (length (requests w)) Return24hVolume = Some (PDict d) ->
  exists w1, get_all_markets env w = (Ok (PList (dict_markets d)), w1)
             /\ markets w1 = Some (dict_markets d).
Proof.
  intros Hm Hh. unfold get_all_markets, return_24h_volume, api_query.
  unfold bind at 1. unfold gets at 1. rewrite Hm.
  unfold bind, gets, modify, log_info, ret, lift. simpl. rewrite Hh. simpl.
  rewrite <- (map_map fst PStr).
  erewrite collect_market_loop with (acc := []); [|auto|reflexivity].
  unfold return_markets, bind, gets, ret. simpl.
  eexists; split; reflexivity.
Qed.

(** A first call of [get_all_btc_markets]. *)
Lemma get_all_btc_markets_first (w : world) (d : list (string * pyval)) :
  markets w = None ->
  http env (length (requests w)) ReturnTicker = Some (PDict d) ->
  exists w1, get_all_btc_markets env w = (Ok (PList (btc_markets d)), w1)
             /\ markets w1 = Some (btc_markets d).
Proof.
  intros Hm Hh. unfold get_all_btc_markets, return_ticker, api_query.
  unfold bind at 1. unfold gets at 1. rewrite Hm.
  unfold bind, gets, modify, log_info, ret, lift. simpl. rewrite Hh. simpl.
  rewrite <- (map_map fst PStr).
  erewrite collect_btc_market_loop with (acc := []); [|auto|reflexivity].
  unfold return_markets, bind, gets, ret. simpl.
  eexists; split; reflexivity.
Qed.

(** Once the field is set, both methods hand it back and do nothing
    else. *)
Lemma markets_cached (w : world) (l : list pyval) :
  markets w = Some l ->
  get_all_markets env w = (Ok (PList l), w)
  /\ get_all_btc_markets env w = (Ok (PList l), w).
Proof.
  intros Hm. unfold get_all_markets, get_all_btc_markets, return_markets.
  unfold bind, gets, ret. rewrite Hm. simpl. rewrite Hm. split; reflexivity.
Qed.

Lemma dict_markets_member (d : list (string * pyval)) (k : string) (v : list (string * pyval)) :
  dict_get k d = Some (PDict v) -> In (PStr k) (dict_markets d).
Proof.
  intros Hk. unfold dict_markets. apply in_map, filter_In. split.
  - assert (Hs : dict_get k d <> None) by (rewrite Hk; discriminate).
    clear v Hk. induction d as [|[k' v'] d IH]; simpl in *; [congruence|].
    destruct (String.eqb_spec k k'); [now left|right; auto].
  - unfold has_dict. now rewrite Hk.
Qed.

End MarketCache.

(** C10. [get_all_markets] and [get_all_btc_markets] memoize into the same
    [markets] field.  On an instance whose field is still [None], whichever
    is called first fills it (with the dict-valued keys of the 24h-volume
    answer, or with those keys of the ticker answer that start with BTC);
    from then on both methods return that list and change nothing.  So
    [get_all_btc_markets] called after [get_all_markets] returns every
    dict-valued key of the volume answer, those not starting with BTC
    included. *)
Theorem markets_cache_shared_by_both_methods
    (env : World.environment) (w : World.world)
    (vol tick : list (string * Py.pyval))
    (Hfresh : World.markets w = None)
    (Hvol : World.http env (length (World.requests w)) World.Return24hVolume
            = Some (Py.PDict vol))
    (Htick : World.http env (length (World.requests w)) World.ReturnTicker
             = Some (Py.PDict tick)) :
  (exists w1,
      Wrapper.get_all_markets env w = (Py.Ok (Py.PList (Spec.dict_markets vol)), w1)
      /\ (forall w2, World.markets w2 = World.markets w1 ->
            Wrapper.get_all_btc_markets env w2
            = (Py.Ok (Py.PList (Spec.dict_markets vol)), w2)
            /\ Wrapper.get_all_markets env w2
               = (Py.Ok (Py.PList (Spec.dict_markets vol)), w2))
      /\ (forall k v, Py.dict_get k vol = Some (Py.PDict v) ->
            Spec.btc_prefix k = false ->
            exists l, Wrapper.get_all_btc_markets env w1 = (Py.Ok (Py.PList l), w1)
                      /\ In (Py.PStr k) l))
  /\ (exists w1,
      Wrapper.get_all_btc_markets env w = (Py.Ok (Py.PList (Spec.btc_markets tick)), w1)
      /\ (forall w2, World.markets w2 = World.markets w1 ->
            Wrapper.get_all_markets env w2
            = (Py.Ok (Py.PList (Spec.btc_markets tick)), w2)
            /\ Wrapper.get_all_btc_markets env w2
               = (Py.Ok (Py.PList (Spec.btc_markets tick)), w2))).
Proof.
  split.
  - destruct (get_all_markets_first env w vol Hfresh Hvol) as (w1 & Hrun & Hm1).
    exists w1. split; [exact Hrun|]. split.
    + intros w2 Hm2. rewrite Hm1 in Hm2.
      destruct (markets_cached env w2 _ Hm2) as [Ha Hb]. now split.
    + intros k v Hk _. exists (Spec.dict_markets vol). split.
      * apply (markets_cached env w1 _ Hm1).
      * eapply dict_markets_member; eassumption.
  - destruct (get_all_btc_markets_first env w tick Hfresh Htick) as (w1 & Hrun & Hm1).
    exists w1. split; [exact Hrun|].
    intros w2 Hm2. rewrite Hm1 in Hm2. apply (markets_cached env w2 _ Hm2).
Qed.

(** With the sample answer, [get_all_btc_markets] after [get_all_markets]
    lists the USDT market. *)
Lemma markets_cache_shared_by_both_methods_witness :
  World.markets (Samples.fresh 0 []) = None
  /\ exists w1,
       Wrapper.get_all_markets Samples.quiet_exchange (Samples.fresh 0 [])
       = (Py.Ok (Py.PList [Py.PStr "BTC_LTC"; Py.PStr "BTC_NXT"; Py.PStr "USDT_BTC"]), w1)
       /\ Wrapper.get_all_btc_markets Samples.quiet_exchange w1
          = (Py.Ok (Py.PList [Py.PStr "BTC_LTC"; Py.PStr "BTC_NXT"; Py.PStr "USDT_BTC"]), w1).
Proof.
  split; [reflexivity|].
  destruct (markets_cache_shared_by_both_methods Samples.quiet_exchange
              (Samples.fresh 0 []) Samples.volumes Samples.volumes
              eq_refl eq_refl eq_refl) as [(w1 & Hrun & Hlater & _) _].
  exists w1. split; [exact Hrun|]. exact (proj1 (Hlater w1 eq_refl)).
Defined.

(** ** The ticker poll *)

(** C9. When the ticker fetch raises, [get_new_ticker_data(False)] raises
    itself: the handler logs the failure, and the [return tickers] that
    follows reads a local that was never assigned.  With the default
    [insert_to_database=True] the same failure is logged and the call
    returns [None]. *)
Theorem ticker_fetch_failure
    (env : World.environment) (w : World.world)
    (Hfail : World.http env (length (World.requests w)) World.ReturnTicker = None) :
  fst (ScrapingBot.get_new_ticker_data env false w) = Py.Raise Py.UnboundLocalError
  /\ fst (ScrapingBot.get_new_ticker_data env true w) = Py.Ok Py.PNone
  /\ World.logs (snd (ScrapingBot.get_new_ticker_data env true w))
     = World.logs w
       ++ [World.LogInfo ScrapingBot.logger "get_new_ticker_data()" [];
           World.LogInfo Wrapper.logger "ApiPublicMethods URL open: %s" [];
           World.LogException Wrapper.logger "Communication error" None;
           World.LogException ScrapingBot.logger "Public ticker data method error"
             (Some Py.TypeError)].
Proof.
  unfold ScrapingBot.get_new_ticker_data, ScrapingBot.fetch_tickers,
    ScrapingBot.read_tickers, Wrapper.return_ticker, Wrapper.api_query,
    Exec.call, Exec.try_except, Exec.in_world, Exec.bind, Exec.gets, Exec.modify,
    Exec.log_info, Exec.log_exception, Exec.raise, Exec.local, Exec.ret.
  simpl. rewrite Hfail. simpl.
  repeat split. now rewrite <- !app_assoc.
Qed.

Lemma ticker_fetch_failure_witness :
  World.http Samples.dead_exchange (length (World.requests (Samples.fresh 0 [])))
    World.ReturnTicker = None
  /\ fst (ScrapingBot.get_new_ticker_data Samples.dead_exchange false (Samples.fresh 0 []))
     = Py.Raise Py.UnboundLocalError.
Proof.
  split; [reflexivity|].
  exact (proj1 (ticker_fetch_failure Samples.dead_exchange (Samples.fresh 0 []) eq_refl)).
Defined.

(** ** The question before a full-history fetch *)

Lemma full_history_question_run
    (fuel : nat) (env : World.environment) (currency_start_date : Z)
    (mongo_collection : option string) (w w1 : World.world)
    (all : Py.pyval) (answer : string) (rest : list string) :
  Wrapper.get_all_markets env w = (Py.Ok all, w1) ->
  World.stdin w1 = answer :: rest ->
  Bot.get_complete_trade_history fuel env currency_start_date Py.PNone
    mongo_collection w
  = (Py.Raise Py.AttributeError,
     World.set_stdin rest
       (World.add_stdout
          "Jesi li siguran da zelis nastaviti sa dohvatom svih trzista?" [] w1)).
Proof.
  intros Hmarkets Hline.
  unfold Bot.get_complete_trade_history.
  unfold Exec.bind at 1. unfold Exec.bind at 1. rewrite Hmarkets.
  unfold Exec.bind at 1. unfold Bot.confirm_all_markets.
  unfold Exec.bind, Exec.print, Exec.modify, Exec.input, Exec.lift. simpl.
  rewrite Hline. reflexivity.
Qed.

(** C8, as the code has it.  With [currency_pairs=None] the market list is
    fetched, the question is printed and a line is read; the test on the
    answer then asks the string for an attribute [toLower], which [str] does
    not have.  Whatever the answer, the call ends in [AttributeError] and no
    window is requested. *)
Theorem full_history_question_raises
    (fuel : nat) (env : World.environment) (currency_start_date : Z)
    (mongo_collection : option string) (w w1 : World.world)
    (all : Py.pyval) (answer : string) (rest : list string)
    (Hmarkets : Wrapper.get_all_markets env w = (Py.Ok all, w1))
    (Hline : World.stdin w1 = answer :: rest) :
  fst (Bot.get_complete_trade_history fuel env currency_start_date Py.PNone
         mongo_collection w) = Py.Raise Py.AttributeError
  /\ World.requests (snd (Bot.get_complete_trade_history fuel env currency_start_date
                            Py.PNone mongo_collection w)) = World.requests w1
  /\ World.stdout (snd (Bot.get_complete_trade_history fuel env currency_start_date
                          Py.PNone mongo_collection w))
     = World.stdout w1
       ++ [("Jesi li siguran da zelis nastaviti sa dohvatom svih trzista?", [])].
Proof.
  rewrite (full_history_question_run fuel env currency_start_date mongo_collection
             w w1 all answer rest Hmarkets Hline).
  repeat split.
Qed.

Lemma full_history_question_raises_witness :
  Wrapper.get_all_markets Samples.quiet_exchange (Samples.fresh 0 ["n"])
  = (Py.Ok (Py.PList (Spec.dict_markets Samples.volumes)),
     snd (Wrapper.get_all_markets Samples.quiet_exchange (Samples.fresh 0 ["n"])))
  /\ fst (Bot.get_complete_trade_history 1 Samples.quiet_exchange 0 Py.PNone None
            (Samples.fresh 0 ["n"])) = Py.Raise Py.AttributeError.
Proof.
  split; [reflexivity|].
  exact (proj1 (full_history_question_raises 1 Samples.quiet_exchange 0 None
                  (Samples.fresh 0 ["n"]) _ _ "n" [] eq_refl eq_refl)).
Defined.

(** The same call when the answer is anything but [n]. *)
Example full_history_question_raises_on_yes :
  fst (Bot.get_complete_trade_history 1 Samples.quiet_exchange 0 Py.PNone None
         (Samples.fresh 0 ["y"])) = Py.Raise Py.AttributeError.
Proof. reflexivity. Qed.

(** ** Candle normalization *)

Section Candles.
Import Py World Exec Bot Spec.

Lemma dict_get_set (k k' : string) (v : pyval) (d : list (string * pyval)) :
  dict_get k (dict_set k' v d)
  = if String.eqb k k' then Some v else dict_get k d.
Proof.
  induction d as [|[k0 v0] d IH]; simpl.
  - now destruct (String.eqb k k').
  - destruct (String.eqb_spec k' k0) as [->|Hne]; simpl.
    + now destruct (String.eqb k k0).
    + destruct (String.eqb_spec k k0) as [->|Hne'].
      * destruct (String.eqb_spec k0 k'); [congruence|reflexivity].
      * exact IH.
Qed.

(** Writing what a key already holds changes nothing. *)
Lemma dict_set_same (k : string) (v : pyval) (d : list (string * pyval)) :
  dict_get k d = Some v -> dict_set k v d = d.
Proof.
  induction d as [|[k0 v0] d IH]; simpl; [discriminate|].
  destruct (String.eqb_spec k k0) as [->|Hne].
  - now intros [= ->].
  - intros H. now rewrite IH.
Qed.

Lemma and_then_ok {A B : Type} (o : outcome A) (k : A -> outcome B) (b : B) :
  and_then o k = Ok b -> exists a, o = Ok a /\ k a = Ok b.
Proof. destruct o; simpl; [eauto|discriminate|discriminate]. Qed.

Lemma py_setitem_ok (k : string) (v tp tp' : pyval) :
  py_setitem k v tp = Ok tp' -> exists d, tp = PDict d /\ tp' = PDict (dict_set k v d).
Proof. destruct tp; simpl; try discriminate. intros [= <-]. eauto. Qed.

Lemma coerce_float_ok (field : string) (d : list (string * pyval)) (tp' : pyval) :
  coerce_float field (PDict d) = Ok tp' ->
  exists f, tp' = PDict (dict_set field (PFloat f) d).
Proof.
  unfold coerce_float. intros H.
  apply and_then_ok in H as (x & _ & H).
  apply and_then_ok in H as (f & _ & H).
  simpl in H. injection H as <-. eauto.
Qed.

(** A field holding a float is left as it is by its coercion. *)
Lemma coerce_float_again (field : string) (f : spec_float) (d : list (string * pyval)) :
  dict_get field d = Some (PFloat f) ->
  coerce_float field (PDict d) = Ok (PDict d).
Proof.
  intros H. unfold coerce_float. simpl. rewrite H. simpl.
  now rewrite (dict_set_same _ _ _ H).
Qed.

(** The shape of a record that went through [normalize_candle]. *)
Lemma normalize_candle_ok (env : environment) (market tp tp' : pyval) :
  normalize_candle env market tp = Ok tp' ->
  exists d0 t f1 f2 f3 f4 f5 f6 f7,
    tp = PDict d0
    /\ tp' = PDict
               (dict_set "weightedAverage" (PFloat f7)
               (dict_set "quoteVolume" (PFloat f6)
               (dict_set "volume" (PFloat f5)
               (dict_set "close" (PFloat f4)
               (dict_set "open" (PFloat f3)
               (dict_set "low" (PFloat f2)
               (dict_set "high" (PFloat f1)
               (dict_set "date" (PDatetime t)
               (dict_set "market" market d0))))))))).
Proof.
  unfold normalize_candle. intros H.
  apply and_then_ok in H as (tp1 & H1 & H).
  apply py_setitem_ok in H1 as (d0 & -> & ->).
  apply and_then_ok in H as (x & _ & H).
  apply and_then_ok in H as (ts & _ & H).
  apply and_then_ok in H as (t & _ & H).
  apply and_then_ok in H as (tp2 & H2 & H).
  simpl in H2. injection H2 as <-.
  apply and_then_ok in H as (tp3 & H3 & H). apply coerce_float_ok in H3 as (f1 & ->).
  apply and_then_ok in H as (tp4 & H4 & H). apply coerce_float_ok in H4 as (f2 & ->).
  apply and_then_ok in H as (tp5 & H5 & H). apply coerce_float_ok in H5 as (f3 & ->).
  apply and_then_ok in H as (tp6 & H6 & H). apply coerce_float_ok in H6 as (f4 & ->).
  apply and_then_ok in H as (tp7 & H7 & H). apply coerce_float_ok in H7 as (f5 & ->).
  apply and_then_ok in H as (tp8 & H8 & H). apply coerce_float_ok in H8 as (f6 & ->).
  apply coerce_float_ok in H as (f7 & ->).
  exists d0, t, f1, f2, f3, f4, f5, f6, f7. split; reflexivity.
Qed.

End Candles.

(** C7, as the code has it.  Normalization is not idempotent as a whole:
    for every candle whose normalization succeeds, normalizing the result
    again raises [TypeError], because [int()] is applied to the [datetime]
    the first pass stored under [date].  Taken alone, the market assignment
    and each of the seven float coercions leave a normalized record as it
    is. *)
Theorem normalize_candle_twice
    (env : World.environment) (market tp tp' : Py.pyval)
    (Hok : Bot.normalize_candle env market tp = Py.Ok tp') :
  Bot.normalize_candle env market tp' = Py.Raise Py.TypeError
  /\ Py.py_setitem "market" market tp' = Py.Ok tp'
  /\ Forall (fun field => Bot.coerce_float field tp' = Py.Ok tp') Spec.numeric_fields.
Proof.
  apply normalize_candle_ok in Hok
    as (d0 & t & f1 & f2 & f3 & f4 & f5 & f6 & f7 & -> & ->).
  split; [|split].
  - unfold Bot.normalize_candle. simpl.
    rewrite !dict_get_set. simpl. reflexivity.
  - simpl. f_equal. f_equal. apply dict_set_same.
    rewrite !dict_get_set. simpl. reflexivity.
  - unfold Spec.numeric_fields.
    repeat (constructor;
            [eapply coerce_float_again; rewrite !dict_get_set; simpl; reflexivity|]).
    constructor.
Qed.

Lemma normalize_candle_twice_witness :
  (exists tp', Bot.normalize_candle Samples.quiet_exchange (Py.PStr "BTC_XMR")
                 Samples.candle = Py.Ok tp'
               /\ Bot.normalize_candle Samples.quiet_exchange (Py.PStr "BTC_XMR") tp'
                  = Py.Raise Py.TypeError).
Proof.
  eexists. split; [vm_compute; reflexivity|].
  refine (proj1 (normalize_candle_twice Samples.quiet_exchange (Py.PStr "BTC_XMR")
                   Samples.candle _ _)).
  vm_compute. reflexivity.
Defined.

(** The claim of idempotence fails on the specification's own candle: the
    second pass does not give what the first pass gave. *)
Lemma normalize_candle_not_idempotent :
  Exec.and_then
    (Bot.normalize_candle Samples.quiet_exchange (Py.PStr "BTC_XMR") Samples.candle)
    (Bot.normalize_candle Samples.quiet_exchange (Py.PStr "BTC_XMR"))
  <> Bot.normalize_candle Samples.quiet_exchange (Py.PStr "BTC_XMR") Samples.candle.
Proof. vm_compute. discriminate. Qed.

(** On a machine whose clock is on UTC, the date of the normalized sample
    candle is not 2014-07-18 12:00:00. *)
Lemma sample_candle_date_is_not_noon :
  ~ exists d,
      Bot.normalize_candle Samples.quiet_exchange (Py.PStr "BTC_XMR") Samples.candle
      = Py.Ok (Py.PDict d)
      /\ Py.dict_get "date" d
         = Some (Py.PDatetime (Datetime.datetime 2014 7 18 12 0 0 0)).
Proof.
  intros (d & H & Hd). vm_compute in H. injection H as <-.
  vm_compute in Hd. discriminate.
Qed.

Section SampleCandle.
Import Py World Exec Bot Spec.

Lemma sample_instant : Datetime.datetime 2014 7 18 16 0 0 0 = 1405699200 * 1000000.
Proof. vm_compute. reflexivity. Qed.

Lemma noon_instant : Datetime.datetime 2014 7 18 12 0 0 0 = 1405684800 * 1000000.
Proof. vm_compute. reflexivity. Qed.

Lemma fromtimestamp_in_range (off : Z -> Z) (ts : Z) :
  in_range ((ts + off ts) * 1000000) ->
  Datetime.fromtimestamp off ts = Ok ((ts + off ts) * 1000000).
Proof.
  unfold in_range, Datetime.fromtimestamp. intros [H1 H2].
  destruct (Z.leb_spec Datetime.dt_min ((ts + off ts) * 1000000)); [|lia].
  destruct (Z.leb_spec ((ts + off ts) * 1000000) Datetime.dt_max); [|lia].
  reflexivity.
Qed.

Lemma sample_fromtimestamp (env : environment) :
  -86400 <= utcoffset env 1405699200 <= 86400 ->
  Datetime.fromtimestamp (utcoffset env) 1405699200
  = Ok (Datetime.datetime 2014 7 18 16 0 0 0 + utcoffset env 1405699200 * 1000000).
Proof.
  intros Hz. rewrite fromtimestamp_in_range.
  - rewrite sample_instant. f_equal. lia.
  - unfold in_range, Datetime.dt_min, Datetime.dt_max. lia.
Qed.

Lemma sample_candle_with_date (env : environment) (market : pyval) (t : Z) :
  Datetime.fromtimestamp (utcoffset env) 1405699200 = Ok t ->
  normalize_candle env market Samples.candle = Ok (PDict (Samples.normalized_candle t market)).
Proof.
  intros Ht. unfold normalize_candle, Samples.candle.
  cbn [and_then py_setitem py_getitem py_int dict_get dict_set
       String.eqb Ascii.eqb Bool.eqb andb].
  rewrite Ht. vm_compute. reflexivity.
Qed.

Lemma sample_candle_floats (t : Z) (market : pyval) :
  Forall (fun '(field, (m, e10)) =>
            exists f, dict_get field (Samples.normalized_candle t market) = Some (PFloat f)
                      /\ is_binary64 f = true
                      /\ within_half_ulp f m e10 = true)
    Samples.candle_decimals.
Proof.
  unfold Samples.candle_decimals, Samples.normalized_candle.
  repeat (constructor;
          [eexists; split; [reflexivity|split; vm_compute; reflexivity]|]).
  constructor.
Qed.

End SampleCandle.

(** C6, as the code has it.  The sample candle normalizes to a record whose
    [date] is the reading, on the machine's own wall clock, of the instant
    2014-07-18 16:00:00 UTC (1405699200 seconds after the epoch): it reads
    12:00:00 only in a zone four hours behind UTC.  Each of the seven
    numeric fields is the binary64 number nearest to the decimal in the
    string, and [market] is the caller's tag. *)
Theorem sample_candle_normalized
    (env : World.environment) (market : Py.pyval)
    (Hzone : -86400 <= World.utcoffset env 1405699200 <= 86400) :
  let t := Datetime.datetime 2014 7 18 16 0 0 0
           + World.utcoffset env 1405699200 * 1000000 in
  let d := [("date", Py.PDatetime t);
            ("high", Py.PFloat (S754_finite false 5232880125109557 (-60)));
            ("low", Py.PFloat (S754_finite false 4646285192780639 (-60)));
            ("open", Py.PFloat (S754_finite false 4664086300811769 (-60)));
            ("close", Py.PFloat (S754_finite false 4929800119978509 (-60)));
            ("volume", Py.PFloat (S754_finite false 6208853348251670 (-47)));
            ("quoteVolume", Py.PFloat (S754_finite false 5640104758703376 (-39)));
            ("weightedAverage", Py.PFloat (S754_finite false 4957735408035133 (-60)));
            ("market", market)] in
  Bot.normalize_candle env market Samples.candle = Py.Ok (Py.PDict d)
  /\ (t = Datetime.datetime 2014 7 18 12 0 0 0
      <-> World.utcoffset env 1405699200 = -14400)
  /\ Forall (fun '(field, (m, e10)) =>
               exists f, Py.dict_get field d = Some (Py.PFloat f)
                         /\ Spec.is_binary64 f = true
                         /\ Spec.within_half_ulp f m e10 = true)
        Samples.candle_decimals.
Proof.
  intros t d. split; [|split].
  - exact (sample_candle_with_date env market t (sample_fromtimestamp env Hzone)).
  - subst t. rewrite sample_instant, noon_instant. lia.
  - exact (sample_candle_floats t market).
Qed.

Lemma sample_candle_normalized_witness :
  -86400 <= World.utcoffset Samples.quiet_exchange 1405699200 <= 86400
  /\ exists d,
       Bot.normalize_candle Samples.quiet_exchange (Py.PStr "BTC_XMR") Samples.candle
       = Py.Ok (Py.PDict d)
       /\ Py.dict_get "date" d
          = Some (Py.PDatetime (Datetime.datetime 2014 7 18 16 0 0 0)).
Proof.
  assert (Hz : -86400 <= World.utcoffset Samples.quiet_exchange 1405699200 <= 86400)
    by (simpl; lia).
  split; [exact Hz|].
  eexists. split.
  - exact (proj1 (sample_candle_normalized Samples.quiet_exchange (Py.PStr "BTC_XMR") Hz)).
  - reflexivity.
Defined.

(** ** The trade-history loops *)

Section TradeLoops.
Import Py World Exec Wrapper Bot Spec.
Import TradeVars.

Variable env : environment.
Variable market : pyval.

Lemma add_in_range (t d : Z) :
  in_range (t + d) -> Datetime.add t d = Ok (t + d).
Proof.
  unfold in_range, Datetime.add. intros [H1 H2].
  destruct (Z.leb_spec Datetime.dt_min (t + d)); [|lia].
  destruct (Z.leb_spec (t + d) Datetime.dt_max); [|lia].
  reflexivity.
Qed.

(** Entering the [try]: only the end of the window and the output
    changed. *)
Lemma trade_head_vars (s : frame TradeVars.t) :
  vars (trade_head env market s)
  = with_end (Z.min (current_date_end (vars s)) (end_date (vars s))) (vars s).
Proof.
  unfold trade_head, clamp_window, announce_window, bind, assign, local, in_world,
    log_info, print, modify. simpl.
  destruct (Z.ltb_spec (end_date (vars s)) (current_date_end (vars s))).
  - rewrite Z.min_r by lia. reflexivity.
  - rewrite Z.min_l by lia. destruct s as [[] ?]; reflexivity.
Qed.

Lemma trade_head_world (s : frame TradeVars.t) :
  requests (world_of (trade_head env market s)) = requests (world_of s)
  /\ clock (world_of (trade_head env market s)) = clock (world_of s)
  /\ stored (world_of (trade_head env market s)) = stored (world_of s).
Proof.
  unfold trade_head, clamp_window, announce_window, bind, assign, local, in_world,
    log_info, print, modify. simpl. auto.
Qed.

Lemma trade_window_unfold (insert_to_database : bool) (s : frame TradeVars.t) :
  trade_window env market insert_to_database s
  = try_except (fetch_trades env market insert_to_database) log_window_error
      (trade_head env market s).
Proof. reflexivity. Qed.

Lemma live_window_unfold (mongo_collection : option string) (s : frame TradeVars.t) :
  live_window env market mongo_collection s
  = try_except (fetch_trades_live env market mongo_collection) log_window_error
      (trade_head env market s).
Proof. reflexivity. Qed.

Lemma set_market_iterable (ct ct' : pyval) :
  set_market market ct = Ok ct' -> exists items, py_iter ct' = Ok items.
Proof.
  unfold set_market. intros H.
  apply and_then_ok in H as (items & Hi & H).
  apply and_then_ok in H as (items' & _ & H).
  injection H as <-. destruct ct; simpl in *; eauto.
Qed.

Lemma advance_one_day_run (s : frame TradeVars.t) :
  in_range (current_date_start (vars s) + Datetime.one_day) ->
  in_range (current_date_end (vars s) + Datetime.one_day) ->
  advance_one_day s
  = (Ok tt,
     Frame (with_end (current_date_end (vars s) + Datetime.one_day)
              (with_start (current_date_start (vars s) + Datetime.one_day) (vars s)))
       (world_of s)).
Proof.
  intros H1 H2. unfold advance_one_day, bind, local, lift, assign. simpl.
  rewrite (add_in_range _ _ H1). simpl. rewrite (add_in_range _ _ H2). reflexivity.
Qed.

(** The [try] of [get_trade_history_between_dates] either completes or
    raises with the local variables as they were. *)
Lemma fetch_trades_raise (insert_to_database : bool) (s1 s2 : frame TradeVars.t)
    (e : exn) :
  in_range (current_date_start (vars s1) + Datetime.one_day) ->
  in_range (current_date_end (vars s1) + Datetime.one_day) ->
  fetch_trades env market insert_to_database s1 = (Raise e, s2) ->
  vars s2 = vars s1.
Proof.
  intros H1 H2. unfold fetch_trades.
  unfold bind at 1. unfold local at 1.
  unfold bind at 1. unfold in_world at 1.
  destruct (return_public_trade_history env market _ _ (world_of s1))
    as [[ct| |] w1] eqn:Hf; try (intros [= <- <-]; reflexivity); try discriminate.
  unfold bind at 1. unfold lift at 1.
  destruct (set_market market ct) as [ct'| |] eqn:Hs;
    try (intros [= <- <-]; reflexivity); try discriminate.
  destruct (set_market_iterable _ _ Hs) as [items Hit].
  unfold bind at 1. destruct insert_to_database.
  - unfold in_world, insert_many. simpl.
    destruct (insert_many_error env _ _ _); [intros [= <- <-]; reflexivity|].
    rewrite advance_one_day_run by assumption. discriminate.
  - unfold extend_history, bind, lift, assign. rewrite Hit. simpl.
    rewrite advance_one_day_run by assumption. discriminate.
Qed.

(** *** A window the exchange does not answer *)

Lemma fetch_trades_unanswered (insert_to_database : bool) (s1 : frame TradeVars.t) :
  http env (length (requests (world_of s1)))
    (ReturnTradeHistory market (current_date_start (vars s1))
       (current_date_end (vars s1))) = None ->
  exists w', fetch_trades env market insert_to_database s1
             = (Raise TypeError, Frame (vars s1) w').
Proof.
  intros H. unfold fetch_trades, return_public_trade_history, api_query.
  unfold bind, local, in_world, gets, modify, log_info, log_exception, raise.
  simpl. rewrite H. simpl. eauto.
Qed.

Lemma fetch_trades_live_unanswered (mongo_collection : option string)
    (s1 : frame TradeVars.t) :
  http env (length (requests (world_of s1)))
    (ReturnTradeHistory market (current_date_start (vars s1))
       (current_date_end (vars s1))) = None ->
  exists w', fetch_trades_live env market mongo_collection s1
             = (Raise TypeError, Frame (vars s1) w').
Proof.
  intros H. unfold fetch_trades_live, return_public_trade_history, api_query.
  unfold bind, local, in_world, gets, modify, log_info, log_exception, raise.
  simpl. rewrite H. simpl. eauto.
Qed.

(** A round whose [try] raises ends normally, in the state the [try] had
    reached plus one log line. *)
Lemma try_except_logged {L : Type} (body : M (frame L) unit)
    (s1 s2 : frame L) (e : exn) :
  body s1 = (Raise e, s2) ->
  try_except body log_window_error s1
  = (Ok tt,
     Frame (vars s2)
       (add_log (LogException Bot.logger "Public trade history method error" (Some e))
          (world_of s2))).
Proof.
  intros H. unfold try_except. rewrite H.
  unfold log_window_error, in_world, log_exception, modify. reflexivity.
Qed.

Lemma trade_loop_cond_head (s s' : frame TradeVars.t) :
  vars s' = vars (trade_head env market s) ->
  trade_loop_cond s' = trade_loop_cond s.
Proof.
  intros H. unfold trade_loop_cond. rewrite H, trade_head_vars. reflexivity.
Qed.

(** With an exchange that never answers, a round leaves the loop where it
    was, so no amount of rounds ends it. *)
Lemma trade_loop_never_ends (Hdead : never_answers env) (insert_to_database : bool)
    (fuel : nat) :
  forall s, trade_loop_cond s = true ->
    fst (while fuel trade_loop_cond (trade_window env market insert_to_database) s)
    = OutOfFuel.
Proof.
  induction fuel as [|fuel IH]; intros s Hc; simpl; rewrite Hc; [reflexivity|].
  rewrite trade_window_unfold.
  destruct (fetch_trades_unanswered insert_to_database (trade_head env market s))
    as [w' Hf]; [apply Hdead|].
  rewrite (try_except_logged _ _ _ _ Hf).
  apply IH. erewrite trade_loop_cond_head; [exact Hc|reflexivity].
Qed.

Lemma live_loop_never_ends (Hdead : never_answers env)
    (mongo_collection : option string) (fuel : nat) :
  forall s, trade_loop_cond s = true ->
    fst (while fuel trade_loop_cond (live_window env market mongo_collection) s)
    = OutOfFuel.
Proof.
  induction fuel as [|fuel IH]; intros s Hc; simpl; rewrite Hc; [reflexivity|].
  rewrite live_window_unfold.
  destruct (fetch_trades_live_unanswered mongo_collection (trade_head env market s))
    as [w' Hf]; [apply Hdead|].
  rewrite (try_except_logged _ _ _ _ Hf).
  apply IH. erewrite trade_loop_cond_head; [exact Hc|reflexivity].
Qed.

(** The window a market starts with. *)
Lemma first_window_run (start_date : Z) (s : frame TradeVars.t) :
  in_range (start_date + Datetime.one_day) ->
  in_range (start_date + Datetime.one_day - Datetime.one_microsecond) ->
  first_window start_date s
  = (Ok tt,
     Frame (with_end (start_date + Datetime.one_day - Datetime.one_microsecond)
              (with_start start_date (vars s)))
       (world_of s)).
Proof.
  intros H1 H2. unfold first_window, bind, assign, lift. simpl.
  rewrite (add_in_range _ _ H1). simpl.
  rewrite (add_in_range (start_date + Datetime.one_day) (- Datetime.one_microsecond))
    by (replace (start_date + Datetime.one_day + - Datetime.one_microsecond)
          with (start_date + Datetime.one_day - Datetime.one_microsecond) by lia;
        exact H2).
  reflexivity.
Qed.

End TradeLoops.

Section TradeCalls.
Import Py World Exec Wrapper Bot Spec.
Import TradeVars.

Variable env : environment.

Lemma join_items_strings (names : list string) :
  join_items (map PStr names) = Ok names.
Proof. induction names as [|n names IH]; simpl; [|rewrite IH]; reflexivity. Qed.

Lemma log_call_run (name : string) (start_date end_date : Z) (extra : list pyval)
    (names : list string) (w : world) :
  exists w', log_call env name start_date end_date extra (PList (map PStr names)) w
             = (Ok (map PStr names), w')
             /\ requests w' = requests w /\ clock w' = clock w
             /\ stored w' = stored w.
Proof.
  unfold log_call, bind, lift, log_info, modify, ret. simpl.
  rewrite join_items_strings. simpl. eauto.
Qed.

Lemma bind_out_of_fuel {S A B : Type} (c : M S A) (k : A -> M S B) (s : S) :
  fst (c s) = OutOfFuel -> fst (bind c k s) = OutOfFuel.
Proof. unfold bind. destruct (c s) as [[| |] s']; simpl; congruence. Qed.

Lemma call_out_of_fuel {L A : Type} (init : L) (c : M (frame L) A) (w : world) :
  fst (c (Frame init w)) = OutOfFuel -> fst (call init c w) = OutOfFuel.
Proof. unfold call. destruct (c (Frame init w)) as [r s']. auto. Qed.

Lemma trade_market_loop_never_ends (Hdead : never_answers env)
    (fuel : nat) (start_date : Z) (insert_to_database : bool) (market : pyval)
    (s : frame TradeVars.t) :
  in_range (start_date + Datetime.one_day) ->
  in_range (start_date + Datetime.one_day - Datetime.one_microsecond) ->
  start_date < end_date (vars s) ->
  fst (trade_market_loop fuel env start_date insert_to_database market s) = OutOfFuel.
Proof.
  intros H1 H2 Hlt. unfold trade_market_loop. unfold bind.
  rewrite (first_window_run start_date s H1 H2).
  apply trade_loop_never_ends; [exact Hdead|].
  unfold trade_loop_cond. simpl. now apply Z.ltb_lt.
Qed.

Lemma live_market_loop_never_ends (Hdead : never_answers env)
    (fuel : nat) (start_date : Z) (mongo_collection : option string)
    (market : pyval) (s : frame TradeVars.t) :
  in_range (start_date + Datetime.one_day) ->
  in_range (start_date + Datetime.one_day - Datetime.one_microsecond) ->
  start_date < end_date (vars s) ->
  fst (live_market_loop fuel env start_date mongo_collection market s) = OutOfFuel.
Proof.
  intros H1 H2 Hlt. unfold live_market_loop. unfold bind.
  rewrite (first_window_run start_date s H1 H2).
  apply live_loop_never_ends; [exact Hdead|].
  unfold trade_loop_cond. simpl. now apply Z.ltb_lt.
Qed.

End TradeCalls.


Section Sequencing.
Import Py World Exec.

Lemma bind_ok {S A B : Type} (c : M S A) (k : A -> M S B) (s s' : S) (a : A) :
  c s = (Ok a, s') -> bind c k s = k a s'.
Proof. intros H. unfold bind. now rewrite H. Qed.

End Sequencing.

(** C3, as the code has it.  With an exchange that never answers, the two
    trade-history functions do not end: a failed round leaves the window
    where it was and nothing counts the rounds, so whatever the bound put on
    the loop of the first market, the bound is used up before the loop is
    left. *)
Theorem trade_history_retries_without_bound
    (env : World.environment) (start_date end_date : Z)
    (name : string) (names : list string) (insert_to_database : bool)
    (mongo_collection : option string) (w : World.world) (fuel : nat)
    (Hdead : Spec.never_answers env)
    (Hstart : Spec.in_range start_date)
    (Hnext : Spec.in_range (start_date + Datetime.one_day))
    (Horder : start_date < end_date)
    (Hpast : start_date < World.clock w) :
  fst (Bot.get_trade_history_between_dates fuel env start_date end_date
         (Py.PList (map Py.PStr (name :: names))) insert_to_database w)
  = Py.OutOfFuel
  /\ fst (Bot.get_complete_trade_history fuel env start_date
            (Py.PList (map Py.PStr (name :: names))) mongo_collection w)
     = Py.OutOfFuel.
Proof.
  assert (Hlast : Spec.in_range (start_date + Datetime.one_day - Datetime.one_microsecond)).
  { unfold Spec.in_range, Datetime.one_day, Datetime.one_microsecond,
      Datetime.dt_min, Datetime.dt_max in *. lia. }
  split.
  - unfold Bot.get_trade_history_between_dates.
    rewrite (bind_ok _ _ w w (Py.PList (map Py.PStr (name :: names)))) by reflexivity.
    destruct (log_call_run env "get_trade_history_between_dates(%s, %s, %s)"
                start_date end_date [] (name :: names) w) as (w' & Hlog & _).
    rewrite (bind_ok _ _ _ _ _ Hlog).
    apply call_out_of_fuel, bind_out_of_fuel. simpl Exec.for_each.
    apply bind_out_of_fuel.
    now apply trade_market_loop_never_ends.
  - unfold Bot.get_complete_trade_history.
    rewrite (bind_ok _ _ w w (Some (Py.PList (map Py.PStr (name :: names)))))
      by reflexivity.
    rewrite (bind_ok _ _ w w (World.clock w)) by reflexivity.
    destruct (log_call_run env "get_trade_history_between_dates(%s, %s, %s)"
                start_date (World.clock w) [] (name :: names) w) as (w' & Hlog & _).
    rewrite (bind_ok _ _ _ _ _ Hlog).
    apply call_out_of_fuel, bind_out_of_fuel. simpl Exec.for_each.
    apply bind_out_of_fuel.
    now apply live_market_loop_never_ends.
Qed.

Lemma trade_history_retries_without_bound_witness :
  Spec.never_answers Samples.dead_exchange
  /\ Datetime.datetime 2017 1 1 0 0 0 0 < Datetime.datetime 2017 1 2 0 0 0 0
  /\ fst (Bot.get_trade_history_between_dates 1000 Samples.dead_exchange
            (Datetime.datetime 2017 1 1 0 0 0 0) (Datetime.datetime 2017 1 2 0 0 0 0)
            (Py.PList [Py.PStr "BTC_ETH"]) false
            (Samples.fresh (Datetime.datetime 2017 8 20 0 0 0 0) []))
     = Py.OutOfFuel.
Proof.
  assert (Hdead : Spec.never_answers Samples.dead_exchange) by (intros n r; reflexivity).
  assert (Horder : Datetime.datetime 2017 1 1 0 0 0 0 < Datetime.datetime 2017 1 2 0 0 0 0)
    by reflexivity.
  split; [exact Hdead|]. split; [exact Horder|].
  refine (proj1 (trade_history_retries_without_bound Samples.dead_exchange
                   (Datetime.datetime 2017 1 1 0 0 0 0)
                   (Datetime.datetime 2017 1 2 0 0 0 0)
                   "BTC_ETH" [] false None
                   (Samples.fresh (Datetime.datetime 2017 8 20 0 0 0 0) []) 1000
                   Hdead _ _ Horder _)).
  - split; vm_compute; discriminate.
  - split; vm_compute; discriminate.
  - reflexivity.
Defined.

(** ** One round of a trade-history loop *)

Section TradeRounds.
Import Py World Exec Wrapper Bot Spec Runs.
Import TradeVars.

Variable env : environment.
Variable market : pyval.

Lemma set_market_each_tagged (items items' : list pyval) :
  set_market_each market items = Ok items' -> Forall (tagged market) items'.
Proof.
  revert items'. induction items as [|x items IH]; simpl; intros items' H.
  - injection H as <-. constructor.
  - apply and_then_ok in H as (x' & Hx & H).
    apply and_then_ok in H as (rest & Hr & H). injection H as <-.
    constructor; [|now apply IH].
    apply py_setitem_ok in Hx as (d & -> & ->).
    exists (dict_set "market" market d). split; [reflexivity|].
    rewrite dict_get_set. now rewrite String.eqb_refl.
Qed.

(** What the tagging loop leaves for the code after it: an iterable whose
    items all carry the tag. *)
Lemma set_market_tagged (ct ct' : pyval) :
  set_market market ct = Ok ct' ->
  exists items, py_iter ct' = Ok items /\ Forall (tagged market) items.
Proof.
  unfold set_market. intros H.
  apply and_then_ok in H as (items & Hi & H).
  apply and_then_ok in H as (items' & Ht & H). injection H as <-.
  destruct ct; simpl in Hi; try discriminate; injection Hi as <-.
  - destruct s; simpl in Ht; [|discriminate]. exists []. split; [reflexivity|constructor].
  - exists items'. split; [reflexivity|]. eapply set_market_each_tagged; eauto.
  - destruct d as [|[k v] d]; simpl in Ht; [|discriminate].
    exists []. split; [reflexivity|constructor].
Qed.

Lemma set_market_no_fuel (ct : pyval) : set_market market ct <> OutOfFuel.
Proof.
  unfold set_market.
  assert (Hi : forall v, py_iter v <> OutOfFuel) by (intros []; simpl; discriminate).
  assert (He : forall items, set_market_each market items <> OutOfFuel).
  { induction items as [|x items IH]; simpl; [discriminate|].
    destruct x; simpl; try discriminate.
    destruct (set_market_each market items); simpl; [discriminate|discriminate|congruence]. }
  destruct (py_iter ct) as [items| |] eqn:E; simpl; [|discriminate|now apply Hi in E].
  specialize (He items).
  destruct (set_market_each market items); simpl; [discriminate|discriminate|congruence].
Qed.

(** The request of a round is sent whatever comes back. *)
Lemma trade_history_call (a b : Z) (w : world) :
  exists r w', return_public_trade_history env market a b w = (r, w')
    /\ requests w' = requests w ++ [ReturnTradeHistory market a b]
    /\ clock w' = clock w /\ stored w' = stored w
    /\ r = match http env (length (requests w)) (ReturnTradeHistory market a b) with
           | Some v => Ok v
           | None => Raise TypeError
           end.
Proof.
  unfold return_public_trade_history, api_query, bind, gets, modify, log_info,
    log_exception, raise, ret. simpl.
  destruct (http env _ _); simpl; eauto 10.
Qed.

(** The [try] of [get_trade_history_between_dates], case by case: one
    request is sent; then either an exception leaves the local variables
    alone, or the window moves one day on and, when nothing is stored, the
    tagged records are appended to the history. *)
Lemma fetch_trades_cases (insert_to_database : bool) (s1 s2 : frame TradeVars.t)
    (o : outcome unit) :
  in_range (current_date_start (vars s1) + Datetime.one_day) ->
  in_range (current_date_end (vars s1) + Datetime.one_day) ->
  fetch_trades env market insert_to_database s1 = (o, s2) ->
  requests (world_of s2) = requests (world_of s1) ++ [trade_request market (vars s1)]
  /\ clock (world_of s2) = clock (world_of s1)
  /\ ((exists e, o = Raise e /\ vars s2 = vars s1)
      \/ (o = Ok tt
          /\ exists items, Forall (tagged market) items
             /\ vars s2 = trade_advanced (if insert_to_database then [] else items)
                            (vars s1))).
Proof.
  intros H1 H2. unfold fetch_trades.
  unfold bind at 1. unfold local at 1.
  unfold bind at 1. unfold in_world at 1.
  destruct (trade_history_call (current_date_start (vars s1))
              (current_date_end (vars s1)) (world_of s1))
    as (r & w1 & Hc & Hreq & Hclk & _ & Hr).
  unfold id. rewrite Hc. clear Hc.
  destruct (http env _ _) as [ct|]; subst r.
  2:{ intros [= <- <-]. simpl. repeat split; auto. left. eauto. }
  unfold bind at 1. unfold lift at 1.
  pose proof (set_market_no_fuel ct) as Hnf.
  destruct (set_market market ct) as [ct'|e|] eqn:Hs; [| |congruence].
  2:{ intros [= <- <-]. simpl. repeat split; auto. left. eauto. }
  destruct (set_market_tagged _ _ Hs) as (items & Hit & Htag).
  unfold bind at 1. destruct insert_to_database.
  - unfold in_world, insert_many. simpl.
    destruct (insert_many_error env _ _ _).
    + intros [= <- <-]. simpl. repeat split; auto. left. eauto.
    + rewrite advance_one_day_run by assumption. intros [= <- <-]. simpl.
      repeat split; auto. right. split; [reflexivity|]. exists items.
      split; [exact Htag|]. unfold trade_advanced. rewrite app_nil_r.
      destruct (vars s1); reflexivity.
  - unfold extend_history, bind, lift, assign. rewrite Hit. simpl.
    rewrite advance_one_day_run by assumption. intros [= <- <-]. simpl.
    repeat split; auto. right. split; [reflexivity|]. exists items.
    split; [exact Htag|]. reflexivity.
Qed.

(** The [try] of [get_complete_trade_history], case by case: after the
    fetch, the live-tail step is taken exactly when a window one day later
    would end after [end_date]. *)
Lemma fetch_trades_live_cases (mongo_collection : option string)
    (s1 s2 : frame TradeVars.t) (o : outcome unit) :
  in_range (current_date_start (vars s1) + Datetime.one_day) ->
  in_range (current_date_end (vars s1) + Datetime.one_day) ->
  fetch_trades_live env market mongo_collection s1 = (o, s2) ->
  requests (world_of s2) = requests (world_of s1) ++ [trade_request market (vars s1)]
  /\ ((exists e, o = Raise e /\ vars s2 = vars s1
                 /\ clock (world_of s2) = clock (world_of s1))
      \/ (o = Ok tt
          /\ exists items, Forall (tagged market) items
             /\ let kept := match mongo_collection with
                            | Some _ => []
                            | None => items
                            end in
                (end_date (vars s1) < current_date_end (vars s1) + Datetime.one_day
                 /\ clock (world_of s2) = clock (world_of s1) + 60 * 1000000
                 /\ vars s2 = trade_tailed kept (clock (world_of s2)) (vars s1))
                \/ (current_date_end (vars s1) + Datetime.one_day <= end_date (vars s1)
                    /\ clock (world_of s2) = clock (world_of s1)
                    /\ vars s2 = trade_advanced kept (vars s1)))).
Proof.
  intros H1 H2. unfold fetch_trades_live.
  unfold bind at 1. unfold local at 1.
  unfold bind at 1. unfold in_world at 1.
  destruct (trade_history_call (current_date_start (vars s1))
              (current_date_end (vars s1)) (world_of s1))
    as (r & w1 & Hc & Hreq & Hclk & _ & Hr).
  unfold id. rewrite Hc. clear Hc.
  destruct (http env _ _) as [ct|]; subst r.
  2:{ intros [= <- <-]. simpl. split; auto. left. eauto. }
  unfold bind at 1. unfold lift at 1.
  pose proof (set_market_no_fuel ct) as Hnf.
  destruct (set_market market ct) as [ct'|e|] eqn:Hs; [| |congruence].
  2:{ intros [= <- <-]. simpl. split; auto. left. eauto. }
  destruct (set_market_tagged _ _ Hs) as (items & Hit & Htag).
  unfold bind at 1.
  destruct mongo_collection as [c|].
  - unfold in_world at 1, insert_many. simpl.
    destruct (insert_many_error env _ _ _).
    { intros [= <- <-]. simpl. split; auto. left. eauto. }
    unfold bind at 1. unfold lift. rewrite (add_in_range _ _ H2).
    unfold bind at 1. unfold local at 1. simpl.
    destruct (Z.ltb_spec (end_date (vars s1))
                (current_date_end (vars s1) + Datetime.one_day)).
    + unfold bind, assign, in_world, sleep, now, modify, gets. simpl.
      intros [= <- <-]. simpl. split; auto. right. split; [reflexivity|].
      exists items. split; [exact Htag|]. left. rewrite Hclk.
      repeat split; auto. unfold trade_tailed. rewrite app_nil_r.
      destruct (vars s1); reflexivity.
    + rewrite advance_one_day_run by assumption. intros [= <- <-]. simpl.
      split; auto. right. split; [reflexivity|]. exists items.
      split; [exact Htag|]. right. repeat split; auto.
      unfold trade_advanced. rewrite app_nil_r. destruct (vars s1); reflexivity.
  - unfold extend_history. unfold bind at 1. unfold bind at 1. unfold lift at 1.
    rewrite Hit. unfold assign at 1. simpl.
    unfold bind at 1. unfold lift. rewrite (add_in_range _ _ H2).
    unfold bind at 1. unfold local at 1. simpl.
    destruct (Z.ltb_spec (end_date (vars s1))
                (current_date_end (vars s1) + Datetime.one_day)).
    + unfold bind, assign, in_world, sleep, now, modify, gets. simpl.
      intros [= <- <-]. simpl. split; auto. right. split; [reflexivity|].
      exists items. split; [exact Htag|]. left. rewrite Hclk.
      repeat split; auto.
    + rewrite advance_one_day_run by assumption. intros [= <- <-]. simpl.
      split; auto. right. split; [reflexivity|]. exists items.
      split; [exact Htag|]. right. repeat split; auto.
Qed.

Lemma fetch_trades_live_raise (mongo_collection : option string)
    (s1 s2 : frame TradeVars.t) (e : exn) :
  in_range (current_date_start (vars s1) + Datetime.one_day) ->
  in_range (current_date_end (vars s1) + Datetime.one_day) ->
  fetch_trades_live env market mongo_collection s1 = (Raise e, s2) ->
  vars s2 = vars s1.
Proof.
  intros H1 H2 H.
  destruct (fetch_trades_live_cases _ _ _ _ H1 H2 H) as (_ & [(e' & _ & Hv & _)|(Ho & _)]);
    [exact Hv|discriminate].
Qed.

End TradeRounds.

(** A failed round of a trade-history loop is caught, logged and retried.
    When the [try] of a round of [get_trade_history_between_dates] or of
    [get_complete_trade_history] raises (the request, the tagging or the
    insert), the round ends normally with one more line in the log; the
    window is the one that was requested, the history is untouched, and the
    next round requests the same window again. *)
Theorem failed_trade_round_is_retried
    (env : World.environment) (market : Py.pyval) (insert_to_database : bool)
    (mongo_collection : option string) (s s2 : World.frame Bot.TradeVars.t)
    (e : Py.exn)
    (Hstart : Spec.in_range
                (Bot.TradeVars.current_date_start (World.vars s) + Datetime.one_day))
    (Hend : Spec.in_range
              (Z.min (Bot.TradeVars.current_date_end (World.vars s))
                 (Bot.TradeVars.end_date (World.vars s)) + Datetime.one_day))
    (Hraise : Bot.fetch_trades env market insert_to_database
                (Spec.trade_head env market s) = (Py.Raise e, s2)
              \/ Bot.fetch_trades_live env market mongo_collection
                   (Spec.trade_head env market s) = (Py.Raise e, s2)) :
  exists s3,
    (Bot.fetch_trades env market insert_to_database (Spec.trade_head env market s)
     = (Py.Raise e, s2) ->
     Bot.trade_window env market insert_to_database s = (Py.Ok tt, s3))
    /\ (Bot.fetch_trades_live env market mongo_collection (Spec.trade_head env market s)
        = (Py.Raise e, s2) ->
        Bot.live_window env market mongo_collection s = (Py.Ok tt, s3))
    /\ World.vars s3
       = Bot.TradeVars.with_end
           (Z.min (Bot.TradeVars.current_date_end (World.vars s))
              (Bot.TradeVars.end_date (World.vars s))) (World.vars s)
    /\ World.logs (World.world_of s3)
       = World.logs (World.world_of s2)
         ++ [World.LogException Bot.logger "Public trade history method error" (Some e)]
    /\ Runs.trade_request market (World.vars (Spec.trade_head env market s3))
       = Runs.trade_request market (World.vars (Spec.trade_head env market s)).
Proof.
  assert (Hv := trade_head_vars env market s).
  assert (Hs2 : World.vars s2 = World.vars (Spec.trade_head env market s)).
  { destruct Hraise as [H|H].
    - eapply fetch_trades_raise; [| |exact H]; rewrite Hv; simpl; assumption.
    - eapply fetch_trades_live_raise; [| |exact H]; rewrite Hv; simpl; assumption. }
  eexists. split; [|split; [|split; [|split]]].
  - intros H. rewrite trade_window_unfold. apply (try_except_logged _ _ _ _ H).
  - intros H. rewrite live_window_unfold. apply (try_except_logged _ _ _ _ H).
  - simpl. now rewrite Hs2.
  - reflexivity.
  - rewrite !trade_head_vars. simpl. rewrite Hs2, Hv. simpl.
    unfold Runs.trade_request. simpl. f_equal. lia.
Qed.

Lemma failed_trade_round_is_retried_witness :
  exists s3,
    Bot.trade_window Samples.dead_exchange (Py.PStr "BTC_ETH") false
      (Runs.trade_entry (Datetime.datetime 2017 1 1 0 0 0 0)
         (Datetime.datetime 2017 1 3 0 0 0 0) [] (Samples.fresh 0 []))
    = (Py.Ok tt, s3)
    /\ Bot.TradeVars.current_date_start (World.vars s3)
       = Datetime.datetime 2017 1 1 0 0 0 0.
Proof.
  destruct (failed_trade_round_is_retried Samples.dead_exchange (Py.PStr "BTC_ETH")
              false None
              (Runs.trade_entry (Datetime.datetime 2017 1 1 0 0 0 0)
                 (Datetime.datetime 2017 1 3 0 0 0 0) [] (Samples.fresh 0 []))
              _ Py.TypeError
              ltac:(split; vm_compute; discriminate)
              ltac:(split; vm_compute; discriminate)
              (or_introl eq_refl))
    as (s3 & Ht & _ & Hv & _).
  exists s3. split; [apply Ht; reflexivity|rewrite Hv; reflexivity].
Defined.

(** The live-tail step of [get_complete_trade_history].  When the [try] of
    a round completes, the window is compared with [end_date]: if a window
    one day later would end after [end_date], the start becomes the old
    end, the process sleeps 60 seconds and both the end of the window and
    [end_date] become the new [datetime.now()]; otherwise (also when it
    would end exactly at [end_date]) both ends move one day on, nothing
    sleeps and [end_date] stays.  Either way the loop condition holds
    again, provided the round began with a non-empty window inside a range
    that ends in the past. *)
Theorem live_tail_step
    (env : World.environment) (market : Py.pyval) (mongo_collection : option string)
    (s s' : World.frame Bot.TradeVars.t)
    (Hstart : Spec.in_range
                (Bot.TradeVars.current_date_start (World.vars s) + Datetime.one_day))
    (Hend : Spec.in_range
              (Z.min (Bot.TradeVars.current_date_end (World.vars s))
                 (Bot.TradeVars.end_date (World.vars s)) + Datetime.one_day))
    (Hdone : Bot.fetch_trades_live env market mongo_collection
               (Spec.trade_head env market s) = (Py.Ok tt, s')) :
  let v := World.vars s in
  let window_end := Z.min (Bot.TradeVars.current_date_end v) (Bot.TradeVars.end_date v) in
  let now := World.clock (World.world_of s) in
  Bot.live_window env market mongo_collection s = (Py.Ok tt, s')
  /\ (if Bot.TradeVars.end_date v <? window_end + Datetime.one_day then
        Bot.TradeVars.current_date_start (World.vars s') = window_end
        /\ Bot.TradeVars.current_date_end (World.vars s') = now + 60 * 1000000
        /\ Bot.TradeVars.end_date (World.vars s') = now + 60 * 1000000
        /\ World.clock (World.world_of s') = now + 60 * 1000000
      else
        Bot.TradeVars.current_date_start (World.vars s')
        = Bot.TradeVars.current_date_start v + Datetime.one_day
        /\ Bot.TradeVars.current_date_end (World.vars s')
           = window_end + Datetime.one_day
        /\ Bot.TradeVars.end_date (World.vars s') = Bot.TradeVars.end_date v
        /\ World.clock (World.world_of s') = now)
  /\ (Bot.TradeVars.current_date_start v < Bot.TradeVars.current_date_end v ->
      Bot.TradeVars.current_date_start v < Bot.TradeVars.end_date v ->
      Bot.TradeVars.end_date v <= now ->
      Bot.trade_loop_cond s' = true).
Proof.
  intros v window_end now.
  assert (Hv := trade_head_vars env market s).
  destruct (trade_head_world env market s) as (_ & Hclk & _).
  destruct (fetch_trades_live_cases env market mongo_collection _ _ _
              ltac:(rewrite Hv; exact Hstart) ltac:(rewrite Hv; exact Hend) Hdone)
    as (_ & [(e & He & _)|(_ & items & _ & Hcase)]); [discriminate|].
  rewrite Hv, Hclk in Hcase. simpl in Hcase.
  fold v window_end now in Hcase.
  split; [|split].
  - rewrite live_window_unfold. unfold Exec.try_except. now rewrite Hdone.
  - destruct Hcase as [(Hlt & Hc & ->)|(Hle & Hc & ->)].
    + destruct (Z.ltb_spec (Bot.TradeVars.end_date v) (window_end + Datetime.one_day));
        [|lia]. simpl. rewrite Hc. auto.
    + destruct (Z.ltb_spec (Bot.TradeVars.end_date v) (window_end + Datetime.one_day));
        [lia|]. simpl. auto.
  - intros H1 H2 H3. unfold Bot.trade_loop_cond. apply Z.ltb_lt.
    destruct Hcase as [(Hlt & Hc & ->)|(Hle & Hc & ->)]; simpl.
    + rewrite Hc. subst window_end. lia.
    + subst window_end. unfold Datetime.one_day in *. lia.
Qed.

Lemma live_tail_step_witness :
  exists s',
    Bot.live_window Samples.quiet_exchange (Py.PStr "BTC_ETH") None
      (Runs.trade_entry (Datetime.datetime 2017 8 19 0 0 0 0)
         (Datetime.datetime 2017 8 19 12 0 0 0) []
         (Samples.fresh (Datetime.datetime 2017 8 19 12 0 0 0) []))
    = (Py.Ok tt, s')
    /\ Bot.TradeVars.current_date_start (World.vars s')
       = Datetime.datetime 2017 8 19 12 0 0 0
    /\ Bot.TradeVars.end_date (World.vars s') = Datetime.datetime 2017 8 19 12 1 0 0.
Proof.
  eexists.
  destruct (live_tail_step Samples.quiet_exchange (Py.PStr "BTC_ETH") None
              (Runs.trade_entry (Datetime.datetime 2017 8 19 0 0 0 0)
                 (Datetime.datetime 2017 8 19 12 0 0 0) []
                 (Samples.fresh (Datetime.datetime 2017 8 19 12 0 0 0) []))
              _
              ltac:(split; vm_compute; discriminate)
              ltac:(split; vm_compute; discriminate)
              eq_refl)
    as (Hrun & Hstep & _).
  split; [exact Hrun|]. vm_compute in Hstep. destruct Hstep as (H1 & _ & H3 & _).
  split; [exact H1|exact H3].
Defined.

(** ** The loop of [get_complete_trade_history] is never left *)

Section LiveLoop.
Import Py World Exec Wrapper Bot Spec Runs.
Import TradeVars.

Variable env : environment.
Variable market : pyval.
Variable mongo_collection : option string.



End LiveLoop.



(** ** The windows of a range *)

Section DayWindows.
Import Py World Exec Wrapper Bot Spec Runs.

Lemma window_count_done (a b : Z) : b <= a -> window_count a b = 0%nat.
Proof.
  intros H. unfold window_count, Datetime.one_day.
  assert ((b - a + 86400000000 - 1) / 86400000000 <= 0).
  { apply Z.lt_succ_r. apply Z.div_lt_upper_bound; lia. }
  lia.
Qed.

Lemma window_count_step (a b : Z) :
  a < b -> window_count a b = S (window_count (a + Datetime.one_day) b).
Proof.
  intros H. unfold window_count, Datetime.one_day.
  replace (b - a + 86400000000 - 1)
    with ((b - (a + 86400000000) + 86400000000 - 1) + 1 * 86400000000) by lia.
  rewrite Z.div_add by lia.
  assert (0 <= (b - (a + 86400000000) + 86400000000 - 1) / 86400000000).
  { apply Z.div_pos; lia. }
  lia.
Qed.

Lemma window_at_shift (a b k : Z) :
  window_at a b (k + 1) = window_at (a + Datetime.one_day) b k.
Proof. unfold window_at. f_equal; [lia|f_equal; lia]. Qed.

Lemma day_windows_done (a b : Z) : b <= a -> day_windows a b = [].
Proof. intros H. unfold day_windows. now rewrite window_count_done. Qed.

(** The windows of a range: its first day, then the windows of the rest. *)
Lemma day_windows_step (a b : Z) :
  a < b ->
  day_windows a b
  = (a, Z.min (a + Datetime.one_day - Datetime.one_microsecond) b)
    :: day_windows (a + Datetime.one_day) b.
Proof.
  intros H. unfold day_windows. rewrite (window_count_step a b H).
  simpl seq. simpl map. f_equal.
  - unfold window_at. simpl Z.of_nat. repeat (f_equal; try lia).
  - rewrite <- seq_shift, map_map. apply map_ext. intros k.
    rewrite <- window_at_shift. f_equal. lia.
Qed.

End DayWindows.

(** ** A range walked with an exchange that answers *)

Section TradeWalk.
Import Py World Exec Wrapper Bot Spec Runs.
Import TradeVars.

Variable env : environment.
Variable insert_to_database : bool.
Hypothesis Hanswers : trades_succeed env.
Hypothesis Hsink : sink_ready env insert_to_database.

Lemma set_market_each_dicts (market : pyval) (rows : list (list (string * pyval))) :
  set_market_each market (map PDict rows)
  = Ok (map PDict (map (dict_set "market" market) rows)).
Proof. induction rows as [|d rows IH]; simpl; [|rewrite IH]; reflexivity. Qed.

Lemma set_market_dicts (market : pyval) (rows : list (list (string * pyval))) :
  set_market market (PList (map PDict rows))
  = Ok (PList (map PDict (map (dict_set "market" market) rows))).
Proof. unfold set_market. simpl. now rewrite set_market_each_dicts. Qed.

(** A round with an answer: the window is requested and left behind. *)
Lemma trade_round_answered (market : pyval) (s : frame TradeVars.t) :
  in_range (current_date_start (vars s) + Datetime.one_day) ->
  in_range (Z.min (current_date_end (vars s)) (end_date (vars s)) + Datetime.one_day) ->
  exists s' items,
    trade_window env market insert_to_database s = (Ok tt, s')
    /\ requests (world_of s')
       = requests (world_of s) ++ [trade_request market (vars (trade_head env market s))]
    /\ vars s' = trade_advanced items (vars (trade_head env market s)).
Proof.
  intros R1 R2.
  assert (Hv := trade_head_vars env market s).
  destruct (trade_head_world env market s) as (Hrq & _ & _).
  assert (R1' : in_range (current_date_start (vars (trade_head env market s))
                          + Datetime.one_day)) by (rewrite Hv; exact R1).
  assert (R2' : in_range (current_date_end (vars (trade_head env market s))
                          + Datetime.one_day)) by (rewrite Hv; exact R2).
  rewrite trade_window_unfold. unfold try_except.
  destruct (fetch_trades env market insert_to_database (trade_head env market s))
    as [o s2] eqn:Hf.
  destruct (fetch_trades_cases env market insert_to_database _ _ _ R1' R2' Hf)
    as (Hreq & _ & Hcase).
  rewrite Hrq in Hreq.
  destruct Hcase as [(e & -> & _)|(-> & items & _ & Hvars)].
  - (* with an answering exchange the [try] cannot raise *)
    exfalso. revert Hf. unfold fetch_trades.
    unfold bind at 1. unfold local at 1.
    unfold bind at 1. unfold in_world at 1.
    destruct (trade_history_call env market
                (current_date_start (vars (trade_head env market s)))
                (current_date_end (vars (trade_head env market s)))
                (world_of (trade_head env market s)))
      as (r & w1 & Hc & _ & _ & Hst & Hr).
    unfold id. rewrite Hc.
    destruct (Hanswers (length (requests (world_of (trade_head env market s)))) market
                (current_date_start (vars (trade_head env market s)))
                (current_date_end (vars (trade_head env market s)))) as [rows Hh].
    rewrite Hh in Hr. subst r.
    unfold bind at 1. unfold lift at 1. rewrite set_market_dicts.
    unfold bind at 1. destruct insert_to_database.
    + unfold in_world, insert_many. simpl. rewrite (Hsink eq_refl).
      rewrite advance_one_day_run; [discriminate|exact R1'|exact R2'].
    + unfold extend_history, bind, lift, assign. simpl.
      rewrite advance_one_day_run; [discriminate|exact R1'|exact R2'].
  - eauto.
Qed.

(** The loop of one market, entered on a day boundary of the walk. *)
Lemma trade_loop_answered (market : pyval) (end_ : Z) (n : nat) :
  forall (fuel : nat) (s : frame TradeVars.t),
    window_count (current_date_start (vars s)) end_ = n ->
    (n <= fuel)%nat ->
    end_date (vars s) = end_ ->
    (current_date_start (vars s) < end_ ->
     current_date_end (vars s)
     = current_date_start (vars s) + Datetime.one_day - Datetime.one_microsecond) ->
    Datetime.dt_min <= current_date_start (vars s) ->
    in_range (end_ + Datetime.one_day) ->
    exists s',
      while fuel trade_loop_cond (trade_window env market insert_to_database) s
      = (Ok tt, s')
      /\ requests (world_of s')
         = requests (world_of s)
           ++ trade_requests (current_date_start (vars s)) end_ market
      /\ end_date (vars s') = end_.
Proof.
  induction n as [|n IH]; intros fuel s Hn Hfuel Hend Hcde Hmin Hmax.
  - assert (Hge : end_ <= current_date_start (vars s)).
    { destruct (Z.lt_ge_cases (current_date_start (vars s)) end_) as [Hlt|]; [|lia].
      rewrite (window_count_step _ _ Hlt) in Hn. discriminate. }
    exists s. unfold trade_requests. rewrite day_windows_done by exact Hge.
    rewrite app_nil_r. split; [|auto].
    destruct fuel; simpl; unfold trade_loop_cond; rewrite Hend;
      destruct (Z.ltb_spec (current_date_start (vars s)) end_); (lia || reflexivity).
  - assert (Hlt : current_date_start (vars s) < end_).
    { destruct (Z.lt_ge_cases (current_date_start (vars s)) end_) as [|Hge]; [assumption|].
      rewrite (window_count_done _ _ Hge) in Hn. discriminate. }
    destruct fuel as [|fuel]; [lia|].
    specialize (Hcde Hlt).
    assert (Hv := trade_head_vars env market s).
    destruct (trade_round_answered market s) as (s1 & items & Hrun & Hreq & Hvars).
    { unfold in_range, Datetime.one_day in *. lia. }
    { rewrite Hend, Hcde. unfold in_range, Datetime.one_day, Datetime.one_microsecond in *.
      lia. }
    rewrite Hv in Hreq, Hvars.
    destruct (IH fuel s1) as (s' & Hloop & Hreq' & Hend').
    + rewrite Hvars. simpl. rewrite (window_count_step _ _ Hlt) in Hn. congruence.
    + lia.
    + rewrite Hvars. simpl. exact Hend.
    + rewrite Hvars. simpl. rewrite Hend, Hcde.
      unfold Datetime.one_day, Datetime.one_microsecond in *. lia.
    + rewrite Hvars. simpl. unfold Datetime.one_day. lia.
    + exact Hmax.
    + exists s'. split; [|split; [|exact Hend']].
      * simpl. unfold trade_loop_cond at 1. rewrite Hend.
        destruct (Z.ltb_spec (current_date_start (vars s)) end_); [|lia].
        rewrite Hrun. exact Hloop.
      * rewrite Hreq', Hreq, Hvars. simpl.
        unfold trade_requests. rewrite (day_windows_step _ _ Hlt). simpl.
        unfold trade_request. simpl. rewrite Hend, Hcde, <- app_assoc. reflexivity.
Qed.

(** The body of [for market in currency_pairs]. *)
Lemma trade_market_loop_answered (market : pyval) (start_date end_ : Z) (fuel : nat)
    (s : frame TradeVars.t) :
  Datetime.dt_min <= start_date -> start_date < end_ ->
  in_range (end_ + Datetime.one_day) ->
  (window_count start_date end_ <= fuel)%nat ->
  end_date (vars s) = end_ ->
  exists s',
    trade_market_loop fuel env start_date insert_to_database market s = (Ok tt, s')
    /\ requests (world_of s')
       = requests (world_of s) ++ trade_requests start_date end_ market
    /\ end_date (vars s') = end_.
Proof.
  intros Hmin Hlt Hmax Hfuel Hend. unfold trade_market_loop, bind.
  rewrite first_window_run.
  - destruct (trade_loop_answered market end_ (window_count start_date end_) fuel
                (Frame (with_end (start_date + Datetime.one_day - Datetime.one_microsecond)
                          (with_start start_date (vars s))) (world_of s)))
      as (s' & Hloop & Hreq & Hend'); simpl; auto.
    exists s'. auto.
  - unfold in_range, Datetime.one_day in *. lia.
  - unfold in_range, Datetime.one_day, Datetime.one_microsecond in *. lia.
Qed.

Lemma trade_all_markets_answered (start_date end_ : Z) (fuel : nat) (names : list string) :
  Datetime.dt_min <= start_date -> start_date < end_ ->
  in_range (end_ + Datetime.one_day) ->
  (window_count start_date end_ <= fuel)%nat ->
  forall s, end_date (vars s) = end_ ->
    exists s',
      for_each (map PStr names)
        (trade_market_loop fuel env start_date insert_to_database) s = (Ok tt, s')
      /\ requests (world_of s')
         = requests (world_of s)
           ++ flat_map (fun name => trade_requests start_date end_ (PStr name)) names
      /\ end_date (vars s') = end_.
Proof.
  intros Hmin Hlt Hmax Hfuel.
  induction names as [|name names IH]; intros s Hend.
  - exists s. simpl. rewrite app_nil_r. auto.
  - destruct (trade_market_loop_answered (PStr name) start_date end_ fuel s)
      as (s1 & Hrun & Hreq & Hend1); auto.
    destruct (IH s1 Hend1) as (s' & Hrest & Hreq' & Hend').
    exists s'. split; [|split; [|exact Hend']].
    + simpl. unfold bind. rewrite Hrun. exact Hrest.
    + rewrite Hreq', Hreq. simpl. now rewrite <- app_assoc.
Qed.

End TradeWalk.

(** [get_trade_history_between_dates] walks the range day by day.  With an
    exchange that answers every request with a list of objects (and a
    database that takes every batch when one is used), the call ends and the
    requests it sent are, for each market in turn, those of the day windows
    of the range: window [k] starts [k] days after [start_date] and ends one
    microsecond before the next window starts, or at [end_date] if that
    comes first. *)
Theorem trade_sync_walks_day_windows
    (env : World.environment) (start_date end_date : Z) (names : list string)
    (insert_to_database : bool) (w : World.world) (fuel : nat)
    (Hanswers : Spec.trades_succeed env)
    (Hsink : Runs.sink_ready env insert_to_database)
    (Hmin : Datetime.dt_min <= start_date)
    (Horder : start_date < end_date)
    (Hmax : Spec.in_range (end_date + Datetime.one_day))
    (Hfuel : (Spec.window_count start_date end_date <= fuel)%nat) :
  exists v w',
    Bot.get_trade_history_between_dates fuel env start_date end_date
      (Py.PList (map Py.PStr names)) insert_to_database w = (Py.Ok v, w')
    /\ World.requests w'
       = World.requests w
         ++ flat_map (fun name => Runs.trade_requests start_date end_date (Py.PStr name))
              names.
Proof.
  unfold Bot.get_trade_history_between_dates.
  rewrite (bind_ok _ _ w w (Py.PList (map Py.PStr names))) by reflexivity.
  destruct (log_call_run env "get_trade_history_between_dates(%s, %s, %s)"
              start_date end_date [] names w) as (w1 & Hlog & Hreq & _).
  rewrite (bind_ok _ _ _ _ _ Hlog).
  unfold Exec.call.
  destruct (trade_all_markets_answered env insert_to_database Hanswers Hsink
              start_date end_date fuel names Hmin Horder Hmax Hfuel
              (World.Frame
                 {| Bot.TradeVars.end_date := end_date;
                    Bot.TradeVars.current_date_start := start_date;
                    Bot.TradeVars.current_date_end := start_date;
                    Bot.TradeVars.trade_history := [] |} w1) eq_refl)
    as (s' & Hrun & Hreq' & _).
  rewrite (bind_ok _ _ _ _ _ Hrun). simpl in Hreq'. rewrite Hreq in Hreq'.
  destruct insert_to_database; simpl.
  - eexists _, _. split; [reflexivity|exact Hreq'].
  - unfold Exec.bind, Exec.local, Exec.ret. simpl.
    eexists _, _. split; [reflexivity|exact Hreq'].
Qed.

Lemma trade_sync_walks_day_windows_witness :
  exists v w',
    Bot.get_trade_history_between_dates 2 Samples.quiet_exchange
      (Datetime.datetime 2017 1 1 0 0 0 0) (Datetime.datetime 2017 1 3 0 0 0 0)
      (Py.PList [Py.PStr "BTC_ETH"]) false (Samples.fresh 0 []) = (Py.Ok v, w')
    /\ World.requests w'
       = [World.ReturnTradeHistory (Py.PStr "BTC_ETH")
            (Datetime.datetime 2017 1 1 0 0 0 0)
            (Datetime.datetime 2017 1 1 23 59 59 999999);
          World.ReturnTradeHistory (Py.PStr "BTC_ETH")
            (Datetime.datetime 2017 1 2 0 0 0 0)
            (Datetime.datetime 2017 1 2 23 59 59 999999)].
Proof.
  assert (Hanswers : Spec.trades_succeed Samples.quiet_exchange)
    by (intros n market a b; exists []; reflexivity).
  assert (Hsink : Runs.sink_ready Samples.quiet_exchange false) by discriminate.
  destruct (trade_sync_walks_day_windows Samples.quiet_exchange
              (Datetime.datetime 2017 1 1 0 0 0 0) (Datetime.datetime 2017 1 3 0 0 0 0)
              ["BTC_ETH"] false (Samples.fresh 0 []) 2 Hanswers Hsink
              ltac:(vm_compute; congruence) ltac:(reflexivity)
              ltac:(split; vm_compute; congruence)
              ltac:(vm_compute; repeat constructor))
    as (v & w' & Hrun & Hreq).
  exists v, w'. split; [exact Hrun|]. rewrite Hreq. reflexivity.
Defined.

(** ** One round of the chart loop *)

Section ChartRounds.
Import Py World Exec Wrapper Bot Spec Runs.
Import ChartVars.

Variable env : environment.
Variable market : pyval.
Variable period : Z.

(** The round is counted under the second of its window start. *)
Lemma chart_head_vars (s : frame ChartVars.t) :
  vars (chart_head env market period s)
  = with_atempt
      (<[Datetime.strftime_seconds (current_date_start (vars s))
         := S (attempts (vars s))]> (atempt (vars s)))
      (with_end (Z.min (current_date_end (vars s)) (end_date (vars s))) (vars s)).
Proof.
  unfold chart_head, chart_clamp_window, chart_announce_window, count_attempt, bind,
    assign, local, in_world, log_info, print, modify, attempts. simpl.
  destruct (Z.ltb_spec (end_date (vars s)) (current_date_end (vars s))); simpl.
  - rewrite Z.min_r by lia.
    destruct (atempt (vars s) !! _); reflexivity.
  - rewrite Z.min_l by lia.
    destruct (atempt (vars s) !! _); destruct s as [[] ?]; reflexivity.
Qed.

Lemma chart_head_world (s : frame ChartVars.t) :
  requests (world_of (chart_head env market period s)) = requests (world_of s)
  /\ clock (world_of (chart_head env market period s)) = clock (world_of s).
Proof.
  unfold chart_head, chart_clamp_window, chart_announce_window, count_attempt, bind,
    assign, local, in_world, log_info, print, modify. simpl. auto.
Qed.

Lemma chart_window_unfold (insert_to_database : bool) (s : frame ChartVars.t) :
  chart_window env market period insert_to_database s
  = bind (try_except (fetch_candles env market period insert_to_database)
            log_window_error)
      (fun _ => force_advance) (chart_head env market period s).
Proof. reflexivity. Qed.

Lemma normalize_candle_normalized (x x' : pyval) :
  normalize_candle env market x = Ok x' -> normalized market x'.
Proof.
  intros H. apply normalize_candle_ok in H
    as (d0 & t & f1 & f2 & f3 & f4 & f5 & f6 & f7 & _ & ->).
  eexists _, t. split; [reflexivity|]. split; [|split].
  - rewrite !dict_get_set. simpl. reflexivity.
  - rewrite !dict_get_set. simpl. reflexivity.
  - unfold numeric_fields.
    repeat (constructor; [eexists; rewrite !dict_get_set; simpl; reflexivity|]).
    constructor.
Qed.

Lemma normalize_candle_no_fuel (x : pyval) : normalize_candle env market x <> OutOfFuel.
Proof.
  intros H.
  assert (Hand : forall (A B : Type) (o : outcome A) (k : A -> outcome B),
             and_then o k = OutOfFuel ->
             o = OutOfFuel \/ exists a, o = Ok a /\ k a = OutOfFuel).
  { intros A B [a| |] k Hk; simpl in Hk; [eauto|discriminate|auto]. }
  assert (Hset : forall k v o, py_setitem k v o <> OutOfFuel)
    by (intros k v []; simpl; discriminate).
  assert (Hget : forall o k, py_getitem o k <> OutOfFuel).
  { intros o k. unfold py_getitem.
    destruct o; try discriminate; destruct k; try discriminate;
      repeat (match goal with |- context [match ?x with _ => _ end] => destruct x end;
              try discriminate). }
  assert (Hfloat : forall v, py_float v <> OutOfFuel).
  { intros []; simpl; try discriminate.
    - destruct (binary_normalize _ _ _ _ _); discriminate.
    - destruct (parse_float _); discriminate. }
  assert (Hint : forall v, py_int v <> OutOfFuel).
  { intros []; simpl; try discriminate.
    - destruct f; simpl; discriminate.
    - destruct (parse_int _); discriminate. }
  assert (Hts : forall ts, Datetime.fromtimestamp (utcoffset env) ts <> OutOfFuel).
  { intros ts. unfold Datetime.fromtimestamp. destruct (_ && _); discriminate. }
  assert (Hco : forall f v, coerce_float f v <> OutOfFuel).
  { intros f v Hc. unfold coerce_float in Hc.
    apply Hand in Hc as [Hc|(a & _ & Hc)]; [now apply Hget in Hc|].
    apply Hand in Hc as [Hc|(b & _ & Hc)]; [now apply Hfloat in Hc|].
    now apply Hset in Hc. }
  unfold normalize_candle in H.
  do 11 (apply Hand in H as [H|(? & _ & H)];
          [first [now apply Hset in H | now apply Hget in H | now apply Hint in H
                 | now apply Hts in H | now apply Hco in H]|]).
  now apply Hco in H.
Qed.

Lemma normalize_each_normalized (items items' : list pyval) :
  normalize_each env market items = Ok items' -> Forall (normalized market) items'.
Proof.
  revert items'. induction items as [|x items IH]; simpl; intros items' H.
  - injection H as <-. constructor.
  - apply and_then_ok in H as (x' & Hx & H).
    apply and_then_ok in H as (rest & Hr & H). injection H as <-.
    constructor; [now apply normalize_candle_normalized in Hx|now apply IH].
Qed.

Lemma normalize_each_no_fuel (items : list pyval) :
  normalize_each env market items <> OutOfFuel.
Proof.
  induction items as [|x items IH]; simpl; [discriminate|].
  pose proof (normalize_candle_no_fuel x) as Hx.
  destruct (normalize_candle env market x); simpl; [|discriminate|congruence].
  destruct (normalize_each env market items); simpl; [discriminate|discriminate|congruence].
Qed.

(** What the normalizing loop leaves for the code after it. *)
Lemma normalize_normalized (ct ct' : pyval) :
  normalize env market ct = Ok ct' ->
  exists items, py_iter ct' = Ok items /\ Forall (normalized market) items.
Proof.
  unfold normalize. intros H.
  apply and_then_ok in H as (items & Hi & H).
  apply and_then_ok in H as (items' & Ht & H). injection H as <-.
  destruct ct; simpl in Hi; try discriminate; injection Hi as <-.
  - destruct s; simpl in Ht; [|discriminate]. exists []. split; [reflexivity|constructor].
  - exists items'. split; [reflexivity|]. eapply normalize_each_normalized; eauto.
  - destruct d as [|[k v] d]; simpl in Ht; [|discriminate].
    exists []. split; [reflexivity|constructor].
Qed.

Lemma normalize_no_fuel (ct : pyval) : normalize env market ct <> OutOfFuel.
Proof.
  unfold normalize.
  destruct (py_iter ct) as [items| |] eqn:E; simpl; [|discriminate|].
  - pose proof (normalize_each_no_fuel items) as He.
    destruct (normalize_each env market items); simpl; [discriminate|discriminate|congruence].
  - destruct ct; simpl in E; discriminate.
Qed.

Lemma chart_data_call (a b : Z) (w : world) :
  exists r w', return_chart_data env market a b period w = (r, w')
    /\ requests w' = requests w ++ [ReturnChartData market a b period]
    /\ clock w' = clock w
    /\ r = match http env (length (requests w)) (ReturnChartData market a b period) with
           | Some v => Ok v
           | None => Raise TypeError
           end.
Proof.
  unfold return_chart_data, api_query, bind, gets, modify, log_info,
    log_exception, raise, ret. simpl.
  destruct (http env _ _); simpl; eauto 10.
Qed.

Lemma chart_advance_one_day_run (s : frame ChartVars.t) :
  in_range (current_date_start (vars s) + Datetime.one_day) ->
  in_range (current_date_end (vars s) + Datetime.one_day) ->
  chart_advance_one_day s
  = (Ok tt,
     Frame (with_end (current_date_end (vars s) + Datetime.one_day)
              (with_start (current_date_start (vars s) + Datetime.one_day) (vars s)))
       (world_of s)).
Proof.
  intros H1 H2. unfold chart_advance_one_day, bind, local, lift, assign. simpl.
  rewrite (add_in_range _ _ H1). simpl. rewrite (add_in_range _ _ H2). reflexivity.
Qed.

(** The [try] of [get_chart_data_between_dates], case by case. *)
Lemma fetch_candles_cases (insert_to_database : bool) (s1 s2 : frame ChartVars.t)
    (o : outcome unit) :
  in_range (current_date_start (vars s1) + Datetime.one_day) ->
  in_range (current_date_end (vars s1) + Datetime.one_day) ->
  fetch_candles env market period insert_to_database s1 = (o, s2) ->
  requests (world_of s2)
  = requests (world_of s1) ++ [chart_request market period (vars s1)]
  /\ clock (world_of s2) = clock (world_of s1)
  /\ ((exists e, o = Raise e /\ vars s2 = vars s1)
      \/ (o = Ok tt
          /\ exists items, Forall (normalized market) items
             /\ vars s2 = chart_advanced (if insert_to_database then [] else items)
                            (vars s1))).
Proof.
  intros H1 H2. unfold fetch_candles.
  unfold bind at 1. unfold local at 1.
  unfold bind at 1. unfold in_world at 1.
  destruct (chart_data_call (current_date_start (vars s1))
              (current_date_end (vars s1)) (world_of s1))
    as (r & w1 & Hc & Hreq & Hclk & Hr).
  unfold id. rewrite Hc. clear Hc.
  destruct (http env _ _) as [ct|]; subst r.
  2:{ intros [= <- <-]. simpl. repeat split; auto. left. eauto. }
  unfold bind at 1. unfold lift at 1.
  pose proof (normalize_no_fuel ct) as Hnf.
  destruct (normalize env market ct) as [ct'|e|] eqn:Hs; [| |congruence].
  2:{ intros [= <- <-]. simpl. repeat split; auto. left. eauto. }
  destruct (normalize_normalized _ _ Hs) as (items & Hit & Htag).
  unfold bind at 1. destruct insert_to_database.
  - unfold in_world, insert_many. simpl.
    destruct (insert_many_error env _ _ _).
    + intros [= <- <-]. simpl. repeat split; auto. left. eauto.
    + rewrite chart_advance_one_day_run by assumption. intros [= <- <-]. simpl.
      repeat split; auto. right. split; [reflexivity|]. exists items.
      split; [exact Htag|]. unfold chart_advanced. rewrite app_nil_r.
      destruct (vars s1); reflexivity.
  - unfold bind, lift, assign. rewrite Hit. simpl.
    rewrite chart_advance_one_day_run by assumption. intros [= <- <-]. simpl.
    repeat split; auto. right. split; [reflexivity|]. exists items.
    split; [exact Htag|]. reflexivity.
Qed.

End ChartRounds.

Section ChartRound.
Import Py World Exec Wrapper Bot Spec Runs.
Import ChartVars.

Variable env : environment.
Variable market : pyval.
Variable period : Z.
Variable insert_to_database : bool.

Lemma strftime_seconds_next_day (t : Z) :
  Datetime.strftime_seconds (t + Datetime.one_day) = Datetime.strftime_seconds t + 86400.
Proof.
  unfold Datetime.strftime_seconds, Datetime.one_day.
  replace (t + 86400000000) with (t + 86400 * 1000000) by lia.
  now rewrite Z.div_add by lia.
Qed.

Lemma force_advance_run (s : frame ChartVars.t) :
  force_advance s = if fifth_attempt (vars s) then chart_advance_one_day s else (Ok tt, s).
Proof.
  unfold force_advance, bind, local. simpl. destruct (fifth_attempt (vars s)); reflexivity.
Qed.

(** One round of the chart loop, whatever the exchange and the database
    do: it ends normally after one request, and either the window stays
    with one more attempt on its counter, or it moves one day on with a
    fresh counter.  The budget goes down in both cases. *)
Lemma chart_round (end_ : Z) (s : frame ChartVars.t) :
  chart_invariant end_ s ->
  current_date_start (vars s) < end_ ->
  in_range (end_ + Datetime.one_day) ->
  exists s' o s2,
    fetch_candles env market period insert_to_database (chart_head env market period s)
    = (o, s2)
    /\ chart_window env market period insert_to_database s = (Ok tt, s')
    /\ chart_invariant end_ s'
    /\ chart_budget end_ (vars s') + 1 <= chart_budget end_ (vars s)
    /\ requests (world_of s')
       = requests (world_of s)
         ++ [ReturnChartData market (current_date_start (vars s))
               (Z.min (current_date_end (vars s)) end_) period]
    /\ let stays :=
         current_date_start (vars s') = current_date_start (vars s)
         /\ current_date_end (vars s') = Z.min (current_date_end (vars s)) end_
         /\ attempts (vars s') = S (attempts (vars s)) in
       let moves :=
         current_date_start (vars s') = current_date_start (vars s) + Datetime.one_day
         /\ current_date_end (vars s')
            = Z.min (current_date_end (vars s)) end_ + Datetime.one_day
         /\ attempts (vars s') = 0%nat in
       match o with
       | Ok _ => moves
       | Raise e =>
           chart_data (vars s') = chart_data (vars s)
           /\ logs (world_of s')
              = logs (world_of s2)
                ++ [LogException Bot.logger "Public trade history method error" (Some e)]
           /\ (if Nat.eqb (attempts (vars s)) 4 then moves else stays)
       | OutOfFuel => False
       end.
Proof.
  intros (Hend & Hmin & Hmine & Hkeys & Hfour) Hlt Hmax.
  assert (Hv := chart_head_vars env market period s).
  destruct (chart_head_world env market period s) as (Hrq & _).
  set (v1 := vars (chart_head env market period s)) in *.
  set (k := Datetime.strftime_seconds (current_date_start (vars s))) in *.
  assert (R1 : in_range (current_date_start v1 + Datetime.one_day)).
  { rewrite Hv. simpl. unfold in_range, Datetime.one_day in *. lia. }
  assert (R2 : in_range (current_date_end v1 + Datetime.one_day)).
  { rewrite Hv. simpl. rewrite Hend. unfold in_range, Datetime.one_day in *. lia. }
  assert (Hnext : atempt (vars s) !! (k + 86400) = None).
  { destruct (atempt (vars s) !! (k + 86400)) as [m|] eqn:E; [|reflexivity].
    apply Hkeys in E. lia. }
  assert (Hcount : window_count (current_date_start (vars s)) end_
                   = S (window_count (current_date_start (vars s) + Datetime.one_day) end_))
    by (now apply window_count_step).
  assert (Hat1 : attempts v1 = S (attempts (vars s))).
  { rewrite Hv. unfold attempts at 1. simpl. fold k. now rewrite lookup_insert_eq. }
  assert (Hkeys1 : forall k' m, atempt v1 !! k' = Some m -> k' <= k).
  { rewrite Hv. simpl. intros k' m Hk'.
    destruct (decide (k = k')) as [<-|Hne]; [lia|].
    rewrite lookup_insert_ne in Hk' by exact Hne. now apply Hkeys in Hk'. }
  assert (Hat2 : forall v', atempt v' = atempt v1 ->
                   current_date_start v' = current_date_start (vars s) + Datetime.one_day ->
                   attempts v' = 0%nat).
  { intros v' Ha Hs'. unfold attempts. rewrite Ha, Hs', strftime_seconds_next_day. fold k.
    destruct (atempt v1 !! (k + 86400)) as [m|] eqn:E; [|reflexivity].
    apply Hkeys1 in E. lia. }
  assert (Hfifth1 : fifth_attempt v1 = Nat.eqb (S (attempts (vars s))) 5).
  { rewrite Hv. unfold fifth_attempt. simpl. fold k. now rewrite lookup_insert_eq. }
  assert (Hfifth2 : forall v', atempt v' = atempt v1 ->
                      current_date_start v' = current_date_start (vars s) + Datetime.one_day ->
                      fifth_attempt v' = false).
  { intros v' Ha Hs'. unfold fifth_attempt. rewrite Ha, Hs', strftime_seconds_next_day.
    fold k. destruct (atempt v1 !! (k + 86400)) as [m|] eqn:E; [|reflexivity].
    apply Hkeys1 in E. lia. }
  assert (Hs1 : current_date_start v1 = current_date_start (vars s))
    by (rewrite Hv; reflexivity).
  assert (He1 : current_date_end v1 = Z.min (current_date_end (vars s)) end_)
    by (rewrite Hv; simpl; now rewrite Hend).
  assert (Hd1 : end_date v1 = end_) by (rewrite Hv; exact Hend).
  assert (Hc1 : chart_data v1 = chart_data (vars s)) by (rewrite Hv; reflexivity).
  clear Hv.
  rewrite chart_window_unfold. unfold bind at 1. unfold try_except.
  destruct (fetch_candles env market period insert_to_database
              (chart_head env market period s)) as [o s2] eqn:Hf.
  destruct (fetch_candles_cases env market period insert_to_database _ _ _ R1 R2 Hf)
    as (Hreq & _ & Hcase).
  rewrite Hrq in Hreq. unfold chart_request in Hreq. fold v1 in Hreq.
  rewrite Hs1, He1 in Hreq.
  fold v1 in Hcase.
  destruct Hcase as [(e & -> & Hvars)|(-> & items & _ & Hvars)].
  - (* the [try] raised *)
    unfold log_window_error, in_world, log_exception, modify.
    rewrite force_advance_run. cbn [vars world_of]. rewrite Hvars, Hfifth1.
    destruct (Nat.eqb_spec (S (attempts (vars s))) 5) as [H5|H5].
    + rewrite chart_advance_one_day_run
        by (cbn [vars]; rewrite ?Hvars; assumption).
      cbn [vars world_of]. rewrite ?Hvars.
      eexists _, _, s2. split; [reflexivity|]. split; [reflexivity|]. cbn [vars world_of].
      assert (Hzero := Hat2 (with_end (current_date_end v1 + Datetime.one_day)
                               (with_start (current_date_start v1 + Datetime.one_day) v1))
                         eq_refl ltac:(simpl; now rewrite Hs1)).
      assert (H4 : Nat.eqb (attempts (vars s)) 4 = true) by (apply Nat.eqb_eq; lia).
      rewrite H4.
      split; [|split; [|split; [|split; [simpl; exact Hc1|split; [reflexivity|]]]]].
      * unfold chart_invariant. cbn [vars]. rewrite Hzero.
        simpl. rewrite Hs1, He1, strftime_seconds_next_day. fold k.
        repeat split; try (unfold Datetime.one_day; lia).
        intros k' m Hk'. apply Hkeys1 in Hk'. lia.
      * unfold chart_budget. rewrite Hzero. simpl. rewrite Hs1, Hcount. lia.
      * exact Hreq.
      * split; [simpl; now rewrite Hs1|split; [simpl; now rewrite He1|exact Hzero]].
    + eexists _, _, s2. split; [reflexivity|]. split; [reflexivity|]. cbn [vars world_of].
      assert (H4 : Nat.eqb (attempts (vars s)) 4 = false) by (apply Nat.eqb_neq; lia).
      rewrite H4.
      split; [|split; [|split; [|split; [exact Hc1|split; [reflexivity|]]]]].
      * unfold chart_invariant. cbn [vars]. rewrite Hat1, Hs1. fold k.
        repeat split; try lia. exact Hkeys1.
      * unfold chart_budget. rewrite Hat1, Hs1. lia.
      * exact Hreq.
      * auto.
  - (* the [try] completed *)
    rewrite force_advance_run.
    assert (Hzero := Hat2 (vars s2) ltac:(rewrite Hvars; reflexivity)
                       ltac:(rewrite Hvars; simpl; now rewrite Hs1)).
    rewrite (Hfifth2 (vars s2)) by (rewrite Hvars; simpl; now rewrite ?Hs1).
    eexists _, _, s2. split; [reflexivity|]. split; [reflexivity|].
    split; [|split; [|split]].
    + unfold chart_invariant. cbn zeta. rewrite Hzero. rewrite Hvars.
      simpl. rewrite Hs1, He1, strftime_seconds_next_day. fold k.
      repeat split; try (unfold Datetime.one_day; lia).
      intros k' m Hk'. apply Hkeys1 in Hk'. lia.
    + unfold chart_budget. rewrite Hzero. rewrite Hvars. simpl. rewrite Hs1, Hcount. lia.
    + exact Hreq.
    + split; [rewrite Hvars; simpl; now rewrite Hs1|].
      split; [rewrite Hvars; simpl; now rewrite He1|exact Hzero].
Qed.

End ChartRound.

(** ** The chart loop ends *)

Section ChartLoop.
Import Py World Exec Wrapper Bot Spec Runs.
Import ChartVars.

Variable env : environment.
Variable period : Z.
Variable insert_to_database : bool.

Lemma chart_budget_positive (end_ : Z) (s : frame ChartVars.t) :
  chart_invariant end_ s -> current_date_start (vars s) < end_ ->
  1 <= chart_budget end_ (vars s).
Proof.
  intros (_ & _ & _ & _ & Hfour) Hlt. unfold chart_budget.
  rewrite (window_count_step _ _ Hlt). lia.
Qed.

Lemma chart_loop_ends (market : pyval) (end_ : Z) (Hmax : in_range (end_ + Datetime.one_day))
    (fuel : nat) :
  forall s, chart_invariant end_ s ->
    chart_budget end_ (vars s) <= Z.of_nat fuel ->
    exists s',
      while fuel chart_loop_cond (chart_window env market period insert_to_database) s
      = (Ok tt, s')
      /\ end_date (vars s') = end_
      /\ Z.of_nat (length (requests (world_of s')))
         <= Z.of_nat (length (requests (world_of s)))
            + Z.max 0 (chart_budget end_ (vars s)).
Proof.
  induction fuel as [|fuel IH]; intros s Hinv Hfuel.
  - assert (Hge : end_ <= current_date_start (vars s)).
    { destruct (Z.lt_ge_cases (current_date_start (vars s)) end_) as [Hlt|]; [|lia].
      pose proof (chart_budget_positive _ _ Hinv Hlt). lia. }
    exists s. destruct Hinv as (Hend & _). simpl. unfold chart_loop_cond. rewrite Hend.
    destruct (Z.ltb_spec (current_date_start (vars s)) end_); [lia|].
    split; [reflexivity|split; [auto|lia]].
  - destruct (Z.lt_ge_cases (current_date_start (vars s)) end_) as [Hlt|Hge].
    + destruct (chart_round env market period insert_to_database end_ s Hinv Hlt Hmax)
        as (s1 & o & s2 & _ & Hrun & Hinv1 & Hbud & Hreq & _).
      destruct (IH s1 Hinv1 ltac:(lia)) as (s' & Hloop & Hend' & Hlen).
      exists s'. split; [|split; [exact Hend'|]].
      * destruct Hinv as (Hend & _). simpl. unfold chart_loop_cond at 1. rewrite Hend.
        destruct (Z.ltb_spec (current_date_start (vars s)) end_); [|lia].
        rewrite Hrun. exact Hloop.
      * pose proof (chart_budget_positive _ _ Hinv Hlt).
        rewrite Hreq, length_app in Hlen. simpl in Hlen. lia.
    + exists s. destruct Hinv as (Hend & _). simpl. unfold chart_loop_cond. rewrite Hend.
      destruct (Z.ltb_spec (current_date_start (vars s)) end_); [lia|].
      split; [reflexivity|split; [auto|lia]].
Qed.

Lemma chart_first_window_run (start_date : Z) (s : frame ChartVars.t) :
  in_range (start_date + Datetime.one_day) ->
  in_range (start_date + Datetime.one_day - Datetime.one_microsecond) ->
  chart_first_window start_date s
  = (Ok tt,
     Frame (with_atempt ∅
              (with_end (start_date + Datetime.one_day - Datetime.one_microsecond)
                 (with_start start_date (vars s))))
       (world_of s)).
Proof.
  intros H1 H2. unfold chart_first_window, bind, assign, lift. simpl.
  rewrite (add_in_range _ _ H1). simpl.
  rewrite (add_in_range (start_date + Datetime.one_day) (- Datetime.one_microsecond))
    by (replace (start_date + Datetime.one_day + - Datetime.one_microsecond)
          with (start_date + Datetime.one_day - Datetime.one_microsecond) by lia;
        exact H2).
  reflexivity.
Qed.

Lemma chart_entry_invariant (start_date end_ : Z) (s : frame ChartVars.t) :
  Datetime.dt_min <= start_date -> end_date (vars s) = end_ ->
  let s0 := Frame (with_atempt ∅
                     (with_end (start_date + Datetime.one_day - Datetime.one_microsecond)
                        (with_start start_date (vars s)))) (world_of s) in
  chart_invariant end_ s0
  /\ chart_budget end_ (vars s0) = 5 * Z.of_nat (window_count start_date end_).
Proof.
  intros Hmin Hend s0. unfold chart_invariant, chart_budget, attempts. simpl.
  rewrite lookup_empty. simpl.
  repeat split; try (unfold Datetime.one_day, Datetime.one_microsecond; lia); auto.
  intros k n Hk. rewrite lookup_empty in Hk. discriminate.
Qed.

Lemma chart_market_loop_ends (market : pyval) (start_date end_ : Z) (fuel : nat)
    (s : frame ChartVars.t) :
  Datetime.dt_min <= start_date -> start_date < end_ ->
  in_range (end_ + Datetime.one_day) ->
  (5 * window_count start_date end_ <= fuel)%nat ->
  end_date (vars s) = end_ ->
  exists s',
    chart_market_loop fuel env start_date period insert_to_database market s = (Ok tt, s')
    /\ end_date (vars s') = end_
    /\ (length (requests (world_of s'))
        <= length (requests (world_of s)) + 5 * window_count start_date end_)%nat.
Proof.
  intros Hmin Hlt Hmax Hfuel Hend. unfold chart_market_loop, bind.
  rewrite chart_first_window_run.
  - destruct (chart_entry_invariant start_date end_ s Hmin Hend) as (Hinv & Hbud).
    destruct (chart_loop_ends market end_ Hmax fuel _ Hinv ltac:(rewrite Hbud; lia))
      as (s' & Hloop & Hend' & Hlen).
    exists s'. split; [exact Hloop|split; [exact Hend'|]].
    rewrite Hbud in Hlen. simpl in Hlen. lia.
  - unfold in_range, Datetime.one_day in *. lia.
  - unfold in_range, Datetime.one_day, Datetime.one_microsecond in *. lia.
Qed.

Lemma chart_all_markets_end (start_date end_ : Z) (fuel : nat) (names : list string) :
  Datetime.dt_min <= start_date -> start_date < end_ ->
  in_range (end_ + Datetime.one_day) ->
  (5 * window_count start_date end_ <= fuel)%nat ->
  forall s, end_date (vars s) = end_ ->
    exists s',
      for_each (map PStr names)
        (chart_market_loop fuel env start_date period insert_to_database) s = (Ok tt, s')
      /\ end_date (vars s') = end_
      /\ (length (requests (world_of s'))
          <= length (requests (world_of s))
             + length names * (5 * window_count start_date end_))%nat.
Proof.
  intros Hmin Hlt Hmax Hfuel.
  induction names as [|name names IH]; intros s Hend.
  - exists s. simpl. split; [reflexivity|split; [exact Hend|lia]].
  - destruct (chart_market_loop_ends (PStr name) start_date end_ fuel s)
      as (s1 & Hrun & Hend1 & Hlen1); auto.
    destruct (IH s1 Hend1) as (s' & Hrest & Hend' & Hlen').
    exists s'. split; [|split; [exact Hend'|]].
    + simpl. unfold bind. rewrite Hrun. exact Hrest.
    + simpl. lia.
Qed.

End ChartLoop.

(** [get_chart_data_between_dates] ends whatever the exchange and the
    database do.  Every window is tried at most five times, so the loop of
    each market needs at most five rounds per day of the range, and the
    call sends at most that many requests per market. *)
Theorem chart_sync_always_ends
    (env : World.environment) (start_date end_date : Z) (period : Z)
    (names : list string) (insert_to_database : bool) (w : World.world) (fuel : nat)
    (Hmin : Datetime.dt_min <= start_date)
    (Horder : start_date < end_date)
    (Hmax : Spec.in_range (end_date + Datetime.one_day))
    (Hfuel : (5 * Spec.window_count start_date end_date <= fuel)%nat) :
  exists v w',
    Bot.get_chart_data_between_dates fuel env start_date end_date period
      (Py.PList (map Py.PStr names)) insert_to_database w = (Py.Ok v, w')
    /\ (length (World.requests w')
        <= length (World.requests w)
           + length names * (5 * Spec.window_count start_date end_date))%nat.
Proof.
  unfold Bot.get_chart_data_between_dates.
  rewrite (bind_ok _ _ w w (Py.PList (map Py.PStr names))) by reflexivity.
  destruct (log_call_run env "get_chart_data_between_dates(%s, %s, %d, %s)"
              start_date end_date [Py.PInt period] names w) as (w1 & Hlog & Hreq & _).
  rewrite (bind_ok _ _ _ _ _ Hlog).
  unfold Exec.call.
  destruct (chart_all_markets_end env period insert_to_database start_date end_date
              fuel names Hmin Horder Hmax Hfuel
              (World.Frame
                 {| Bot.ChartVars.end_date := end_date;
                    Bot.ChartVars.current_date_start := start_date;
                    Bot.ChartVars.current_date_end := start_date;
                    Bot.ChartVars.atempt := ∅;
                    Bot.ChartVars.chart_data := [] |} w1) eq_refl)
    as (s' & Hrun & _ & Hlen).
  rewrite (bind_ok _ _ _ _ _ Hrun). simpl in Hlen. rewrite Hreq in Hlen.
  destruct insert_to_database; simpl.
  - eexists _, _. split; [reflexivity|exact Hlen].
  - unfold Exec.bind, Exec.local, Exec.ret. simpl.
    eexists _, _. split; [reflexivity|exact Hlen].
Qed.

Lemma chart_sync_always_ends_witness :
  exists v w',
    Bot.get_chart_data_between_dates 15 Samples.dead_exchange
      (Datetime.datetime 2017 1 1 0 0 0 0) (Datetime.datetime 2017 1 3 12 0 0 0) 300
      (Py.PList [Py.PStr "BTC_BCN"]) true (Samples.fresh 0 []) = (Py.Ok v, w')
    /\ (length (World.requests w') <= 15)%nat.
Proof.
  destruct (chart_sync_always_ends Samples.dead_exchange
              (Datetime.datetime 2017 1 1 0 0 0 0) (Datetime.datetime 2017 1 3 12 0 0 0)
              300 ["BTC_BCN"] true (Samples.fresh 0 []) 15
              ltac:(vm_compute; congruence) ltac:(reflexivity)
              ltac:(split; vm_compute; congruence)
              ltac:(vm_compute; repeat constructor))
    as (v & w' & Hrun & Hlen).
  exists v, w'. split; [exact Hrun|exact Hlen].
Defined.

(** A failed round of the chart loop.  When the [try] of a round of
    [get_chart_data_between_dates] raises, the round still ends normally:
    the exception is logged and the candles kept so far are untouched.  The
    window is requested again in the next round unless this was the fifth
    round on this window start; then both ends are moved one day on. *)
Theorem failed_chart_round
    (env : World.environment) (market : Py.pyval) (period : Z)
    (insert_to_database : bool) (end_ : Z)
    (s s2 : World.frame Bot.ChartVars.t) (e : Py.exn)
    (Hinv : Runs.chart_invariant end_ s)
    (Hin : Bot.ChartVars.current_date_start (World.vars s) < end_)
    (Hmax : Spec.in_range (end_ + Datetime.one_day))
    (Hraise : Bot.fetch_candles env market period insert_to_database
                (Spec.chart_head env market period s) = (Py.Raise e, s2)) :
  exists s',
    Bot.chart_window env market period insert_to_database s = (Py.Ok tt, s')
    /\ Bot.ChartVars.chart_data (World.vars s') = Bot.ChartVars.chart_data (World.vars s)
    /\ World.logs (World.world_of s')
       = World.logs (World.world_of s2)
         ++ [World.LogException Bot.logger "Public trade history method error" (Some e)]
    /\ (if Nat.eqb (Spec.attempts (World.vars s)) 4 then
          Bot.ChartVars.current_date_start (World.vars s')
          = Bot.ChartVars.current_date_start (World.vars s) + Datetime.one_day
          /\ Bot.ChartVars.current_date_end (World.vars s')
             = Z.min (Bot.ChartVars.current_date_end (World.vars s)) end_
               + Datetime.one_day
          /\ Spec.attempts (World.vars s') = 0%nat
        else
          Bot.ChartVars.current_date_start (World.vars s')
          = Bot.ChartVars.current_date_start (World.vars s)
          /\ Bot.ChartVars.current_date_end (World.vars s')
             = Z.min (Bot.ChartVars.current_date_end (World.vars s)) end_
          /\ Spec.attempts (World.vars s') = S (Spec.attempts (World.vars s))).
Proof.
  destruct (chart_round env market period insert_to_database end_ s Hinv Hin Hmax)
    as (s' & o & s2' & Hf & Hrun & _ & _ & _ & Hcase).
  rewrite Hraise in Hf. injection Hf as <- <-.
  exists s'. split; [exact Hrun|]. exact Hcase.
Qed.

Lemma failed_chart_round_witness :
  exists s',
    Bot.chart_window Samples.dead_exchange (Py.PStr "BTC_BCN") 300 true
      (Runs.chart_entry (Datetime.datetime 2017 1 1 0 0 0 0)
         (Datetime.datetime 2017 1 3 0 0 0 0) [] (Samples.fresh 0 []))
    = (Py.Ok tt, s')
    /\ Spec.attempts (World.vars s') = 1%nat.
Proof.
  assert (Hinv : Runs.chart_invariant (Datetime.datetime 2017 1 3 0 0 0 0)
                   (Runs.chart_entry (Datetime.datetime 2017 1 1 0 0 0 0)
                      (Datetime.datetime 2017 1 3 0 0 0 0) [] (Samples.fresh 0 []))).
  { exact (proj1 (chart_entry_invariant (Datetime.datetime 2017 1 1 0 0 0 0)
                    (Datetime.datetime 2017 1 3 0 0 0 0)
                    (Runs.chart_entry (Datetime.datetime 2017 1 1 0 0 0 0)
                       (Datetime.datetime 2017 1 3 0 0 0 0) [] (Samples.fresh 0 []))
                    ltac:(vm_compute; congruence) eq_refl)). }
  destruct (failed_chart_round Samples.dead_exchange (Py.PStr "BTC_BCN") 300 true
              (Datetime.datetime 2017 1 3 0 0 0 0) _ _ Py.TypeError Hinv
              ltac:(reflexivity) ltac:(split; vm_compute; congruence) eq_refl)
    as (s' & Hrun & _ & _ & Hcase).
  exists s'. split; [exact Hrun|].
  change (Spec.attempts
            (World.vars (Runs.chart_entry (Datetime.datetime 2017 1 1 0 0 0 0)
                           (Datetime.datetime 2017 1 3 0 0 0 0) [] (Samples.fresh 0 []))))
    with 0%nat in Hcase.
  simpl in Hcase. apply Hcase.
Defined.

(** ** The shape of the day windows *)

Section WindowShape.
Import Py World Exec Wrapper Bot Spec Runs.

Lemma window_count_spec (a b : Z) (i : nat) :
  (i < window_count a b)%nat <-> a + Z.of_nat i * Datetime.one_day < b.
Proof.
  unfold window_count, Datetime.one_day.
  set (q := (b - a + 86400000000 - 1) / 86400000000).
  assert (Hq : 86400000000 * q <= b - a + 86400000000 - 1 < 86400000000 * (q + 1)).
  { subst q. pose proof (Z.mul_div_le (b - a + 86400000000 - 1) 86400000000 ltac:(lia)).
    pose proof (Z.mul_succ_div_gt (b - a + 86400000000 - 1) 86400000000 ltac:(lia)).
    lia. }
  split; intros H; lia.
Qed.

Lemma day_windows_lookup (a b : Z) (i : nat) (w : Z * Z) :
  day_windows a b !! i = Some w <->
  a + Z.of_nat i * Datetime.one_day < b /\ w = window_at a b (Z.of_nat i).
Proof.
  unfold day_windows. rewrite list_lookup_fmap. rewrite <- window_count_spec.
  split.
  - intros H. destruct (seq 0 (window_count a b) !! i) as [j|] eqn:E; [|discriminate].
    apply lookup_seq in E as [-> Hlt]. simpl in H. injection H as <-. auto.
  - intros [Hlt ->]. rewrite (lookup_seq_lt _ _ _ Hlt). reflexivity.
Qed.

End WindowShape.

(** The windows of a range with [start_date < end_date] tile it. *)
Lemma day_windows_tile (start_date end_date : Z) (Horder : start_date < end_date) :
  let ws := Spec.day_windows start_date end_date in
  (exists b rest, ws = (start_date, b) :: rest)
  /\ (forall i a b, ws !! i = Some (a, b) ->
        start_date <= a < end_date /\ a < b <= end_date
        /\ b - a <= Datetime.one_day - Datetime.one_microsecond)
  /\ (forall i a b a' b', ws !! i = Some (a, b) -> ws !! S i = Some (a', b') ->
        a' = a + Datetime.one_day /\ a' = b + Datetime.one_microsecond)
  /\ (exists a b, last ws = Some (a, b)
        /\ b = if (end_date - start_date) mod Datetime.one_day =? 0
               then end_date - Datetime.one_microsecond else end_date).
Proof.
  intros ws. split; [|split; [|split]].
  - subst ws. rewrite (day_windows_step _ _ Horder). eauto.
  - intros i a b H. apply day_windows_lookup in H as [Hlt H].
    unfold Spec.window_at in H. injection H as -> ->.
    unfold Datetime.one_day, Datetime.one_microsecond in *. lia.
  - intros i a b a' b' H H'.
    apply day_windows_lookup in H as [Hlt H]. apply day_windows_lookup in H' as [Hlt' H'].
    unfold Spec.window_at in H, H'. injection H as -> ->. injection H' as -> ->.
    unfold Datetime.one_day, Datetime.one_microsecond in *. lia.
  - assert (Hn : exists n, Spec.window_count start_date end_date = S n).
    { rewrite (window_count_step _ _ Horder). eauto. }
    destruct Hn as [n Hn].
    assert (Hlast : last ws = ws !! n).
    { rewrite last_lookup. subst ws. unfold Spec.day_windows.
      rewrite length_map, length_seq, Hn. reflexivity. }
    assert (Hin : (n < Spec.window_count start_date end_date)%nat) by lia.
    assert (Hout : ~ (S n < Spec.window_count start_date end_date)%nat) by lia.
    rewrite window_count_spec in Hin, Hout.
    eexists _, _. split.
    + rewrite Hlast. apply day_windows_lookup. split; [exact Hin|reflexivity].
    + unfold Datetime.one_day, Datetime.one_microsecond in *.
      pose proof (Z.div_mod (end_date - start_date) 86400000000 ltac:(lia)) as Hdm.
      pose proof (Z.mod_pos_bound (end_date - start_date) 86400000000 ltac:(lia)) as Hmb.
      destruct (Z.eqb_spec ((end_date - start_date) mod 86400000000) 0); lia.
Qed.

(** The windows [get_trade_history_between_dates] asks for tile the
    range.  With an exchange that answers, the requests of a market are
    those of a list of windows of which the first starts at [start_date];
    each starts inside the range, is not empty, ends at most at [end_date]
    and spans less than a day; the next one starts one day after this one,
    which is one microsecond after this one ends; and the last one ends at
    [end_date], except when the range is a whole number of days: then it
    ends one microsecond before [end_date]. *)
Theorem trade_sync_windows_tile_the_range
    (env : World.environment) (start_date end_date : Z) (name : string)
    (insert_to_database : bool) (w : World.world) (fuel : nat)
    (Hanswers : Spec.trades_succeed env)
    (Hsink : Runs.sink_ready env insert_to_database)
    (Hmin : Datetime.dt_min <= start_date)
    (Horder : start_date < end_date)
    (Hmax : Spec.in_range (end_date + Datetime.one_day))
    (Hfuel : (Spec.window_count start_date end_date <= fuel)%nat) :
  exists v w' ws,
    Bot.get_trade_history_between_dates fuel env start_date end_date
      (Py.PList [Py.PStr name]) insert_to_database w = (Py.Ok v, w')
    /\ World.requests w'
       = World.requests w
         ++ map (fun ab => World.ReturnTradeHistory (Py.PStr name) (fst ab) (snd ab)) ws
    /\ (exists b rest, ws = (start_date, b) :: rest)
    /\ (forall i a b, ws !! i = Some (a, b) ->
          start_date <= a < end_date /\ a < b <= end_date
          /\ b - a <= Datetime.one_day - Datetime.one_microsecond)
    /\ (forall i a b a' b', ws !! i = Some (a, b) -> ws !! S i = Some (a', b') ->
          a' = a + Datetime.one_day /\ a' = b + Datetime.one_microsecond)
    /\ (exists a b, last ws = Some (a, b)
          /\ b = if (end_date - start_date) mod Datetime.one_day =? 0
                 then end_date - Datetime.one_microsecond else end_date).
Proof.
  unfold Bot.get_trade_history_between_dates.
  rewrite (bind_ok _ _ w w (Py.PList (map Py.PStr [name]))) by reflexivity.
  destruct (log_call_run env "get_trade_history_between_dates(%s, %s, %s)"
              start_date end_date [] [name] w) as (w1 & Hlog & Hreq & _).
  rewrite (bind_ok _ _ _ _ _ Hlog).
  unfold Exec.call.
  destruct (trade_all_markets_answered env insert_to_database Hanswers Hsink
              start_date end_date fuel [name] Hmin Horder Hmax Hfuel
              (World.Frame
                 {| Bot.TradeVars.end_date := end_date;
                    Bot.TradeVars.current_date_start := start_date;
                    Bot.TradeVars.current_date_end := start_date;
                    Bot.TradeVars.trade_history := [] |} w1) eq_refl)
    as (s' & Hrun & Hreq' & _).
  rewrite (bind_ok _ _ _ _ _ Hrun). simpl in Hreq'. rewrite Hreq, app_nil_r in Hreq'.
  pose proof (day_windows_tile start_date end_date Horder) as Hshape.
  destruct insert_to_database; simpl.
  - eexists _, _, (Spec.day_windows start_date end_date).
    split; [reflexivity|]. split; [exact Hreq'|exact Hshape].
  - unfold Exec.bind, Exec.local, Exec.ret. simpl.
    eexists _, _, (Spec.day_windows start_date end_date).
    split; [reflexivity|]. split; [exact Hreq'|exact Hshape].
Qed.

Lemma trade_sync_windows_tile_the_range_witness :
  exists v w' ws a,
    Bot.get_trade_history_between_dates 2 Samples.quiet_exchange
      (Datetime.datetime 2017 1 1 0 0 0 0) (Datetime.datetime 2017 1 3 0 0 0 0)
      (Py.PList [Py.PStr "BTC_ETH"]) false (Samples.fresh 0 []) = (Py.Ok v, w')
    /\ World.requests w'
       = map (fun ab => World.ReturnTradeHistory (Py.PStr "BTC_ETH") (fst ab) (snd ab)) ws
    /\ last ws = Some (a, Datetime.datetime 2017 1 2 23 59 59 999999).
Proof.
  assert (Hanswers : Spec.trades_succeed Samples.quiet_exchange)
    by (intros n market a b; exists []; reflexivity).
  assert (Hsink : Runs.sink_ready Samples.quiet_exchange false) by discriminate.
  destruct (trade_sync_windows_tile_the_range Samples.quiet_exchange
              (Datetime.datetime 2017 1 1 0 0 0 0) (Datetime.datetime 2017 1 3 0 0 0 0)
              "BTC_ETH" false (Samples.fresh 0 []) 2 Hanswers Hsink
              ltac:(vm_compute; congruence) ltac:(reflexivity)
              ltac:(split; vm_compute; congruence)
              ltac:(vm_compute; repeat constructor))
    as (v & w' & ws & Hrun & Hreq & _ & _ & _ & a & b & Hlast & Hb).
  exists v, w', ws, a. split; [exact Hrun|]. split; [exact Hreq|].
  rewrite Hlast. subst b. reflexivity.
Defined.

(** ** The chart loop with an exchange that answers, and with one that
    never does *)

Section ChartWalk.
Import Py World Exec Wrapper Bot Spec Runs.
Import ChartVars.

Variable env : environment.
Variable period : Z.
Variable insert_to_database : bool.

Lemma while_step {S : Type} (cond : S -> bool) (body : M S unit) (fuel : nat) (s s1 : S) :
  cond s = true -> body s = (Ok tt, s1) ->
  while (Datatypes.S fuel) cond body s = while fuel cond body s1.
Proof. intros Hc Hb. simpl. now rewrite Hc, Hb. Qed.

Lemma while_done {S : Type} (cond : S -> bool) (body : M S unit) (fuel : nat) (s : S) :
  cond s = false -> while fuel cond body s = (Ok tt, s).
Proof. intros Hc. destruct fuel; simpl; now rewrite Hc. Qed.

Lemma normalize_list (market : pyval) (items items' : list pyval) :
  normalize_each env market items = Ok items' ->
  normalize env market (PList items) = Ok (PList items').
Proof. intros H. unfold normalize. simpl. now rewrite H. Qed.

Lemma fetch_candles_answered (market : pyval) (s1 : frame ChartVars.t) :
  candles_succeed env -> sink_ready env insert_to_database ->
  in_range (current_date_start (vars s1) + Datetime.one_day) ->
  in_range (current_date_end (vars s1) + Datetime.one_day) ->
  exists s2, fetch_candles env market period insert_to_database s1 = (Ok tt, s2).
Proof.
  intros Hanswers Hsink R1 R2. unfold fetch_candles.
  unfold bind at 1. unfold local at 1.
  unfold bind at 1. unfold in_world at 1.
  destruct (chart_data_call env market period (current_date_start (vars s1))
              (current_date_end (vars s1)) (world_of s1))
    as (r & w1 & Hc & _ & _ & Hr).
  unfold id. rewrite Hc.
  destruct (Hanswers (length (requests (world_of s1))) market
              (current_date_start (vars s1)) (current_date_end (vars s1)) period)
    as (items & items' & Hh & Hn).
  rewrite Hh in Hr. subst r.
  unfold bind at 1. unfold lift at 1. rewrite (normalize_list _ _ _ Hn).
  unfold bind at 1. destruct insert_to_database.
  - unfold in_world, insert_many. simpl. rewrite (Hsink eq_refl).
    rewrite chart_advance_one_day_run; [eauto|exact R1|exact R2].
  - unfold bind, lift, assign. simpl.
    rewrite chart_advance_one_day_run; [eauto|exact R1|exact R2].
Qed.

Lemma fetch_candles_unanswered (market : pyval) (s1 : frame ChartVars.t) :
  never_answers env ->
  exists w', fetch_candles env market period insert_to_database s1
             = (Raise TypeError, Frame (vars s1) w').
Proof.
  intros H. unfold fetch_candles, return_chart_data, api_query.
  unfold bind, local, in_world, gets, modify, log_info, log_exception, raise.
  simpl. rewrite H. simpl. eauto.
Qed.

Lemma chart_loop_cond_true (end_ : Z) (s : frame ChartVars.t) :
  chart_invariant end_ s -> current_date_start (vars s) < end_ ->
  chart_loop_cond s = true.
Proof.
  intros (Hend & _) Hlt. unfold chart_loop_cond. rewrite Hend. now apply Z.ltb_lt.
Qed.

Lemma chart_loop_cond_false (end_ : Z) (s : frame ChartVars.t) :
  chart_invariant end_ s -> end_ <= current_date_start (vars s) ->
  chart_loop_cond s = false.
Proof.
  intros (Hend & _) Hge. unfold chart_loop_cond. rewrite Hend. now apply Z.ltb_ge.
Qed.

(** The loop of one market when every request is answered. *)
Lemma chart_loop_answered (Hanswers : candles_succeed env)
    (Hsink : sink_ready env insert_to_database) (market : pyval) (end_ : Z)
    (Hmax : in_range (end_ + Datetime.one_day)) (n : nat) :
  forall (fuel : nat) (s : frame ChartVars.t),
    window_count (current_date_start (vars s)) end_ = n ->
    (n <= fuel)%nat ->
    chart_invariant end_ s ->
    (current_date_start (vars s) < end_ ->
     current_date_end (vars s)
     = current_date_start (vars s) + Datetime.one_day - Datetime.one_microsecond) ->
    exists s',
      while fuel chart_loop_cond (chart_window env market period insert_to_database) s
      = (Ok tt, s')
      /\ requests (world_of s')
         = requests (world_of s)
           ++ chart_requests (current_date_start (vars s)) end_ period market
      /\ end_date (vars s') = end_.
Proof.
  induction n as [|n IH]; intros fuel s Hn Hfuel Hinv Hcde.
  - assert (Hge : end_ <= current_date_start (vars s)).
    { destruct (Z.lt_ge_cases (current_date_start (vars s)) end_) as [Hlt|]; [|lia].
      rewrite (window_count_step _ _ Hlt) in Hn. discriminate. }
    exists s. unfold chart_requests. rewrite day_windows_done by exact Hge.
    rewrite app_nil_r. rewrite (while_done _ _ _ _ (chart_loop_cond_false _ _ Hinv Hge)).
    destruct Hinv as (Hend & _). auto.
  - assert (Hlt : current_date_start (vars s) < end_).
    { destruct (Z.lt_ge_cases (current_date_start (vars s)) end_) as [|Hge]; [assumption|].
      rewrite (window_count_done _ _ Hge) in Hn. discriminate. }
    destruct fuel as [|fuel]; [lia|].
    specialize (Hcde Hlt).
    destruct (chart_round env market period insert_to_database end_ s Hinv Hlt Hmax)
      as (s1 & o & s2 & Hf & Hrun & Hinv1 & _ & Hreq & Hcase).
    destruct (fetch_candles_answered market (chart_head env market period s)
                Hanswers Hsink) as (s2' & Hf').
    { rewrite chart_head_vars. simpl. destruct Hinv as (_ & Hmin & _).
      unfold in_range, Datetime.one_day in *. lia. }
    { rewrite chart_head_vars. simpl. destruct Hinv as (Hend & Hmin & Hmine & _).
      rewrite Hend. unfold in_range, Datetime.one_day in *. lia. }
    rewrite Hf' in Hf. injection Hf as <- <-.
    destruct Hcase as (Hs1 & He1 & _).
    rewrite (while_step _ _ _ _ _ (chart_loop_cond_true _ _ Hinv Hlt) Hrun).
    destruct (IH fuel s1) as (s' & Hloop & Hreq' & Hend').
    + rewrite Hs1. rewrite (window_count_step _ _ Hlt) in Hn. congruence.
    + lia.
    + exact Hinv1.
    + rewrite Hs1, He1, Hcde. unfold Datetime.one_day, Datetime.one_microsecond. lia.
    + exists s'. split; [exact Hloop|split; [|exact Hend']].
      rewrite Hreq', Hreq, Hs1. unfold chart_requests.
      rewrite (day_windows_step _ _ Hlt). simpl. rewrite Hcde, <- app_assoc. reflexivity.
Qed.

(** With an exchange that never answers, a window that was tried [5 - m]
    times takes [m] more rounds, all for the same request, and is then left
    behind. *)
Lemma chart_window_stalls (Hdead : never_answers env) (market : pyval) (end_ : Z)
    (Hmax : in_range (end_ + Datetime.one_day)) (m : nat) :
  forall (fuel : nat) (s : frame ChartVars.t),
    chart_invariant end_ s ->
    current_date_start (vars s) < end_ ->
    (attempts (vars s) + S m = 5)%nat ->
    exists s',
      while (S m + fuel) chart_loop_cond
        (chart_window env market period insert_to_database) s
      = while fuel chart_loop_cond
          (chart_window env market period insert_to_database) s'
      /\ chart_invariant end_ s'
      /\ current_date_start (vars s') = current_date_start (vars s) + Datetime.one_day
      /\ current_date_end (vars s')
         = Z.min (current_date_end (vars s)) end_ + Datetime.one_day
      /\ chart_data (vars s') = chart_data (vars s)
      /\ attempts (vars s') = 0%nat
      /\ requests (world_of s')
         = requests (world_of s)
           ++ repeat (ReturnChartData market (current_date_start (vars s))
                        (Z.min (current_date_end (vars s)) end_) period) (S m).
Proof.
  induction m as [|m IH]; intros fuel s Hinv Hlt Hat.
  - destruct (chart_round env market period insert_to_database end_ s Hinv Hlt Hmax)
      as (s1 & o & s2 & Hf & Hrun & Hinv1 & _ & Hreq & Hcase).
    destruct (fetch_candles_unanswered market (chart_head env market period s) Hdead)
      as (w' & Hf').
    rewrite Hf' in Hf. injection Hf as <- <-.
    destruct Hcase as (Hcd & _ & Hcase).
    replace (Nat.eqb (attempts (vars s)) 4) with true in Hcase
      by (symmetry; apply Nat.eqb_eq; lia).
    destruct Hcase as (Hs1 & He1 & Hz1).
    exists s1. split; [|auto 10].
    simpl Nat.add. apply (while_step _ _ _ _ _ (chart_loop_cond_true _ _ Hinv Hlt) Hrun).
  - destruct (chart_round env market period insert_to_database end_ s Hinv Hlt Hmax)
      as (s1 & o & s2 & Hf & Hrun & Hinv1 & _ & Hreq & Hcase).
    destruct (fetch_candles_unanswered market (chart_head env market period s) Hdead)
      as (w' & Hf').
    rewrite Hf' in Hf. injection Hf as <- <-.
    destruct Hcase as (Hcd & _ & Hcase).
    replace (Nat.eqb (attempts (vars s)) 4) with false in Hcase
      by (symmetry; apply Nat.eqb_neq; lia).
    destruct Hcase as (Hs1 & He1 & Hat1).
    destruct (IH fuel s1 Hinv1 ltac:(rewrite Hs1; exact Hlt) ltac:(rewrite Hat1; lia))
      as (s' & Hloop & Hinv' & Hs' & He' & Hcd' & Hz' & Hreq').
    exists s'.
    split; [|split; [exact Hinv'|split; [|split; [|split; [|split; [exact Hz'|]]]]]].
    + change (S (S m) + fuel)%nat with (S (S m + fuel)).
      rewrite (while_step _ _ _ _ _ (chart_loop_cond_true _ _ Hinv Hlt) Hrun).
      exact Hloop.
    + rewrite Hs', Hs1. reflexivity.
    + rewrite He', He1. f_equal. lia.
    + rewrite Hcd', Hcd. reflexivity.
    + rewrite Hreq', Hreq, Hs1, He1.
      replace (Z.min (Z.min (current_date_end (vars s)) end_) end_)
        with (Z.min (current_date_end (vars s)) end_) by lia.
      rewrite <- app_assoc. reflexivity.
Qed.

(** The loop of one market when no request is answered. *)
Lemma chart_loop_unanswered (Hdead : never_answers env) (market : pyval) (end_ : Z)
    (Hmax : in_range (end_ + Datetime.one_day)) (n : nat) :
  forall (fuel : nat) (s : frame ChartVars.t),
    window_count (current_date_start (vars s)) end_ = n ->
    (5 * n <= fuel)%nat ->
    chart_invariant end_ s ->
    attempts (vars s) = 0%nat ->
    (current_date_start (vars s) < end_ ->
     current_date_end (vars s)
     = current_date_start (vars s) + Datetime.one_day - Datetime.one_microsecond) ->
    exists s',
      while fuel chart_loop_cond (chart_window env market period insert_to_database) s
      = (Ok tt, s')
      /\ requests (world_of s')
         = requests (world_of s)
           ++ flat_map (fun r => repeat r 5)
                (chart_requests (current_date_start (vars s)) end_ period market)
      /\ end_date (vars s') = end_
      /\ chart_data (vars s') = chart_data (vars s).
Proof.
  induction n as [|n IH]; intros fuel s Hn Hfuel Hinv Hat Hcde.
  - assert (Hge : end_ <= current_date_start (vars s)).
    { destruct (Z.lt_ge_cases (current_date_start (vars s)) end_) as [Hlt|]; [|lia].
      rewrite (window_count_step _ _ Hlt) in Hn. discriminate. }
    exists s. unfold chart_requests. rewrite day_windows_done by exact Hge.
    simpl. rewrite app_nil_r.
    rewrite (while_done _ _ _ _ (chart_loop_cond_false _ _ Hinv Hge)).
    destruct Hinv as (Hend & _). auto.
  - assert (Hlt : current_date_start (vars s) < end_).
    { destruct (Z.lt_ge_cases (current_date_start (vars s)) end_) as [|Hge]; [assumption|].
      rewrite (window_count_done _ _ Hge) in Hn. discriminate. }
    specialize (Hcde Hlt).
    assert (Hf5 : exists fuel', fuel = (5 + fuel')%nat) by (exists (fuel - 5)%nat; lia).
    destruct Hf5 as [fuel' ->].
    destruct (chart_window_stalls Hdead market end_ Hmax 4 fuel' s Hinv Hlt
                ltac:(rewrite Hat; reflexivity))
      as (s1 & Hloop & Hinv1 & Hs1 & He1 & Hcd1 & Hat1 & Hreq1).
    rewrite Hloop.
    destruct (IH fuel' s1) as (s' & Hrest & Hreq' & Hend' & Hcd').
    + rewrite Hs1. rewrite (window_count_step _ _ Hlt) in Hn. congruence.
    + lia.
    + exact Hinv1.
    + exact Hat1.
    + rewrite Hs1, He1, Hcde. unfold Datetime.one_day, Datetime.one_microsecond. lia.
    + exists s'. split; [exact Hrest|split; [|split; [exact Hend'|congruence]]].
      rewrite Hreq', Hreq1, Hs1. unfold chart_requests.
      rewrite (day_windows_step _ _ Hlt). simpl flat_map. simpl map.
      rewrite Hcde, <- app_assoc. reflexivity.
Qed.

Lemma chart_market_loop_answered (Hanswers : candles_succeed env)
    (Hsink : sink_ready env insert_to_database) (market : pyval)
    (start_date end_ : Z) (fuel : nat) (s : frame ChartVars.t) :
  Datetime.dt_min <= start_date -> start_date < end_ ->
  in_range (end_ + Datetime.one_day) ->
  (window_count start_date end_ <= fuel)%nat ->
  end_date (vars s) = end_ ->
  exists s',
    chart_market_loop fuel env start_date period insert_to_database market s = (Ok tt, s')
    /\ requests (world_of s')
       = requests (world_of s) ++ chart_requests start_date end_ period market
    /\ end_date (vars s') = end_.
Proof.
  intros Hmin Hlt Hmax Hfuel Hend. unfold chart_market_loop, bind.
  rewrite chart_first_window_run.
  - destruct (chart_entry_invariant start_date end_ s Hmin Hend) as (Hinv & _).
    match type of Hinv with
    | chart_invariant _ ?s0 =>
        destruct (chart_loop_answered Hanswers Hsink market end_ Hmax _ fuel s0 eq_refl
                    Hfuel Hinv (fun _ => eq_refl))
          as (s' & Hloop & Hreq & Hend')
    end.
    exists s'. auto.
  - unfold in_range, Datetime.one_day in *. lia.
  - unfold in_range, Datetime.one_day, Datetime.one_microsecond in *. lia.
Qed.

Lemma chart_all_markets_answered (Hanswers : candles_succeed env)
    (Hsink : sink_ready env insert_to_database)
    (start_date end_ : Z) (fuel : nat) (names : list string) :
  Datetime.dt_min <= start_date -> start_date < end_ ->
  in_range (end_ + Datetime.one_day) ->
  (window_count start_date end_ <= fuel)%nat ->
  forall s, end_date (vars s) = end_ ->
    exists s',
      for_each (map PStr names)
        (chart_market_loop fuel env start_date period insert_to_database) s = (Ok tt, s')
      /\ requests (world_of s')
         = requests (world_of s)
           ++ flat_map (fun name => chart_requests start_date end_ period (PStr name))
                names
      /\ end_date (vars s') = end_.
Proof.
  intros Hmin Hlt Hmax Hfuel.
  induction names as [|name names IH]; intros s Hend.
  - exists s. simpl. rewrite app_nil_r. auto.
  - destruct (chart_market_loop_answered Hanswers Hsink (PStr name) start_date end_ fuel s)
      as (s1 & Hrun & Hreq & Hend1); auto.
    destruct (IH s1 Hend1) as (s' & Hrest & Hreq' & Hend').
    exists s'. split; [|split; [|exact Hend']].
    + simpl. unfold bind. rewrite Hrun. exact Hrest.
    + rewrite Hreq', Hreq. simpl. now rewrite <- app_assoc.
Qed.

Lemma chart_market_loop_unanswered (Hdead : never_answers env) (market : pyval)
    (start_date end_ : Z) (fuel : nat) (s : frame ChartVars.t) :
  Datetime.dt_min <= start_date -> start_date < end_ ->
  in_range (end_ + Datetime.one_day) ->
  (5 * window_count start_date end_ <= fuel)%nat ->
  end_date (vars s) = end_ ->
  exists s',
    chart_market_loop fuel env start_date period insert_to_database market s = (Ok tt, s')
    /\ requests (world_of s')
       = requests (world_of s)
         ++ flat_map (fun r => repeat r 5) (chart_requests start_date end_ period market)
    /\ end_date (vars s') = end_
    /\ chart_data (vars s') = chart_data (vars s).
Proof.
  intros Hmin Hlt Hmax Hfuel Hend. unfold chart_market_loop, bind.
  rewrite chart_first_window_run.
  - destruct (chart_entry_invariant start_date end_ s Hmin Hend) as (Hinv & _).
    match type of Hinv with
    | chart_invariant _ ?s0 =>
        destruct (chart_loop_unanswered Hdead market end_ Hmax _ fuel s0 eq_refl
                    Hfuel Hinv eq_refl (fun _ => eq_refl))
          as (s' & Hloop & Hreq & Hend' & Hcd)
    end.
    exists s'. auto.
  - unfold in_range, Datetime.one_day in *. lia.
  - unfold in_range, Datetime.one_day, Datetime.one_microsecond in *. lia.
Qed.

Lemma chart_all_markets_unanswered (Hdead : never_answers env)
    (start_date end_ : Z) (fuel : nat) (names : list string) :
  Datetime.dt_min <= start_date -> start_date < end_ ->
  in_range (end_ + Datetime.one_day) ->
  (5 * window_count start_date end_ <= fuel)%nat ->
  forall s, end_date (vars s) = end_ ->
    exists s',
      for_each (map PStr names)
        (chart_market_loop fuel env start_date period insert_to_database) s = (Ok tt, s')
      /\ requests (world_of s')
         = requests (world_of s)
           ++ flat_map (fun name =>
                          flat_map (fun r => repeat r 5)
                            (chart_requests start_date end_ period (PStr name)))
                names
      /\ end_date (vars s') = end_
      /\ chart_data (vars s') = chart_data (vars s).
Proof.
  intros Hmin Hlt Hmax Hfuel.
  induction names as [|name names IH]; intros s Hend.
  - exists s. simpl. rewrite app_nil_r. auto.
  - destruct (chart_market_loop_unanswered Hdead (PStr name) start_date end_ fuel s)
      as (s1 & Hrun & Hreq & Hend1 & Hcd1); auto.
    destruct (IH s1 Hend1) as (s' & Hrest & Hreq' & Hend' & Hcd').
    exists s'. split; [|split; [|split; [exact Hend'|congruence]]].
    + simpl. unfold bind. rewrite Hrun. exact Hrest.
    + rewrite Hreq', Hreq. simpl. now rewrite <- app_assoc.
Qed.

End ChartWalk.

(** [get_chart_data_between_dates] walks the range day by day.  With an
    exchange that answers every chart request with candles that normalize
    (and a database that takes every batch when one is used), the call ends
    and the requests it sent are, for each market in turn, those of the day
    windows of the range, each sent once and with the period asked for. *)
Theorem chart_sync_walks_day_windows
    (env : World.environment) (start_date end_date : Z) (period : Z)
    (names : list string) (insert_to_database : bool) (w : World.world) (fuel : nat)
    (Hanswers : Spec.candles_succeed env)
    (Hsink : Runs.sink_ready env insert_to_database)
    (Hmin : Datetime.dt_min <= start_date)
    (Horder : start_date < end_date)
    (Hmax : Spec.in_range (end_date + Datetime.one_day))
    (Hfuel : (Spec.window_count start_date end_date <= fuel)%nat) :
  exists v w',
    Bot.get_chart_data_between_dates fuel env start_date end_date period
      (Py.PList (map Py.PStr names)) insert_to_database w = (Py.Ok v, w')
    /\ World.requests w'
       = World.requests w
         ++ flat_map (fun name =>
                        Runs.chart_requests start_date end_date period (Py.PStr name))
              names.
Proof.
  unfold Bot.get_chart_data_between_dates.
  rewrite (bind_ok _ _ w w (Py.PList (map Py.PStr names))) by reflexivity.
  destruct (log_call_run env "get_chart_data_between_dates(%s, %s, %d, %s)"
              start_date end_date [Py.PInt period] names w) as (w1 & Hlog & Hreq & _).
  rewrite (bind_ok _ _ _ _ _ Hlog).
  unfold Exec.call.
  destruct (chart_all_markets_answered env period insert_to_database Hanswers Hsink
              start_date end_date fuel names Hmin Horder Hmax Hfuel
              (World.Frame
                 {| Bot.ChartVars.end_date := end_date;
                    Bot.ChartVars.current_date_start := start_date;
                    Bot.ChartVars.current_date_end := start_date;
                    Bot.ChartVars.atempt := ∅;
                    Bot.ChartVars.chart_data := [] |} w1) eq_refl)
    as (s' & Hrun & Hreq' & _).
  rewrite (bind_ok _ _ _ _ _ Hrun). simpl in Hreq'. rewrite Hreq in Hreq'.
  destruct insert_to_database; simpl.
  - eexists _, _. split; [reflexivity|exact Hreq'].
  - unfold Exec.bind, Exec.local, Exec.ret. simpl.
    eexists _, _. split; [reflexivity|exact Hreq'].
Qed.

Lemma chart_sync_walks_day_windows_witness :
  exists v w',
    Bot.get_chart_data_between_dates 2 Samples.quiet_exchange
      (Datetime.datetime 2017 1 1 0 0 0 0) (Datetime.datetime 2017 1 2 12 0 0 0) 300
      (Py.PList [Py.PStr "BTC_ETH"]) false (Samples.fresh 0 []) = (Py.Ok v, w')
    /\ World.requests w'
       = [World.ReturnChartData (Py.PStr "BTC_ETH")
            (Datetime.datetime 2017 1 1 0 0 0 0)
            (Datetime.datetime 2017 1 1 23 59 59 999999) 300;
          World.ReturnChartData (Py.PStr "BTC_ETH")
            (Datetime.datetime 2017 1 2 0 0 0 0)
            (Datetime.datetime 2017 1 2 12 0 0 0) 300].
Proof.
  assert (Hanswers : Spec.candles_succeed Samples.quiet_exchange)
    by (intros n market a b period; exists [], []; split; reflexivity).
  assert (Hsink : Runs.sink_ready Samples.quiet_exchange false) by discriminate.
  destruct (chart_sync_walks_day_windows Samples.quiet_exchange
              (Datetime.datetime 2017 1 1 0 0 0 0) (Datetime.datetime 2017 1 2 12 0 0 0)
              300 ["BTC_ETH"] false (Samples.fresh 0 []) 2 Hanswers Hsink
              ltac:(vm_compute; congruence) ltac:(reflexivity)
              ltac:(split; vm_compute; congruence)
              ltac:(vm_compute; repeat constructor))
    as (v & w' & Hrun & Hreq).
  exists v, w'. split; [exact Hrun|]. rewrite Hreq. reflexivity.
Defined.

(** [get_chart_data_between_dates] against an exchange that never answers.
    The call still ends; every day window of the range is requested exactly
    five times in a row before the next one, for each market in turn, and
    the caller gets no candles: an empty list, or [None] when the database
    was to be filled. *)
Theorem chart_sync_gives_up_after_five
    (env : World.environment) (start_date end_date : Z) (period : Z)
    (names : list string) (insert_to_database : bool) (w : World.world) (fuel : nat)
    (Hdead : Spec.never_answers env)
    (Hmin : Datetime.dt_min <= start_date)
    (Horder : start_date < end_date)
    (Hmax : Spec.in_range (end_date + Datetime.one_day))
    (Hfuel : (5 * Spec.window_count start_date end_date <= fuel)%nat) :
  exists w',
    Bot.get_chart_data_between_dates fuel env start_date end_date period
      (Py.PList (map Py.PStr names)) insert_to_database w
    = (Py.Ok (if insert_to_database then Py.PNone else Py.PList []), w')
    /\ World.requests w'
       = World.requests w
         ++ flat_map (fun name =>
                        flat_map (fun r => repeat r 5)
                          (Runs.chart_requests start_date end_date period (Py.PStr name)))
              names.
Proof.
  unfold Bot.get_chart_data_between_dates.
  rewrite (bind_ok _ _ w w (Py.PList (map Py.PStr names))) by reflexivity.
  destruct (log_call_run env "get_chart_data_between_dates(%s, %s, %d, %s)"
              start_date end_date [Py.PInt period] names w) as (w1 & Hlog & Hreq & _).
  rewrite (bind_ok _ _ _ _ _ Hlog).
  unfold Exec.call.
  destruct (chart_all_markets_unanswered env period insert_to_database Hdead
              start_date end_date fuel names Hmin Horder Hmax Hfuel
              (World.Frame
                 {| Bot.ChartVars.end_date := end_date;
                    Bot.ChartVars.current_date_start := start_date;
                    Bot.ChartVars.current_date_end := start_date;
                    Bot.ChartVars.atempt := ∅;
                    Bot.ChartVars.chart_data := [] |} w1) eq_refl)
    as (s' & Hrun & Hreq' & _ & Hcd).
  rewrite (bind_ok _ _ _ _ _ Hrun). simpl in Hreq', Hcd. rewrite Hreq in Hreq'.
  destruct insert_to_database; simpl.
  - eexists. split; [reflexivity|exact Hreq'].
  - unfold Exec.bind, Exec.local, Exec.ret. simpl. rewrite Hcd.
    eexists. split; [reflexivity|exact Hreq'].
Qed.

Lemma chart_sync_gives_up_after_five_witness :
  exists w',
    Bot.get_chart_data_between_dates 5 Samples.dead_exchange
      (Datetime.datetime 2017 1 1 0 0 0 0) (Datetime.datetime 2017 1 1 12 0 0 0) 300
      (Py.PList [Py.PStr "BTC_BCN"]) false (Samples.fresh 0 [])
    = (Py.Ok (Py.PList []), w')
    /\ World.requests w'
       = repeat (World.ReturnChartData (Py.PStr "BTC_BCN")
                   (Datetime.datetime 2017 1 1 0 0 0 0)
                   (Datetime.datetime 2017 1 1 12 0 0 0) 300) 5.
Proof.
  destruct (chart_sync_gives_up_after_five Samples.dead_exchange
              (Datetime.datetime 2017 1 1 0 0 0 0) (Datetime.datetime 2017 1 1 12 0 0 0)
              300 ["BTC_BCN"] false (Samples.fresh 0 []) 5
              ltac:(intros n r; reflexivity)
              ltac:(vm_compute; congruence) ltac:(reflexivity)
              ltac:(split; vm_compute; congruence)
              ltac:(vm_compute; repeat constructor))
    as (w' & Hrun & Hreq).
  exists w'. split; [exact Hrun|]. rewrite Hreq. reflexivity.
Defined.

(** ** The requests of the chart loop, whatever the exchange does *)

Section ChartShape.
Import Py World Exec Wrapper Bot Spec Runs.
Import ChartVars.

Variable env : environment.
Variable period : Z.
Variable insert_to_database : bool.

(** A window that was tried [5 - m] times is left behind after at most [m]
    more rounds, all for the same request. *)
Lemma chart_window_rounds (market : pyval) (end_ : Z)
    (Hmax : in_range (end_ + Datetime.one_day)) (m : nat) :
  forall (fuel : nat) (s : frame ChartVars.t),
    chart_invariant end_ s ->
    current_date_start (vars s) < end_ ->
    (attempts (vars s) + S m = 5)%nat ->
    (S m <= fuel)%nat ->
    exists s' k,
      (1 <= k <= S m)%nat
      /\ while fuel chart_loop_cond
           (chart_window env market period insert_to_database) s
         = while (fuel - k) chart_loop_cond
             (chart_window env market period insert_to_database) s'
      /\ chart_invariant end_ s'
      /\ current_date_start (vars s') = current_date_start (vars s) + Datetime.one_day
      /\ current_date_end (vars s')
         = Z.min (current_date_end (vars s)) end_ + Datetime.one_day
      /\ attempts (vars s') = 0%nat
      /\ requests (world_of s')
         = requests (world_of s)
           ++ repeat (ReturnChartData market (current_date_start (vars s))
                        (Z.min (current_date_end (vars s)) end_) period) k.
Proof.
  induction m as [|m IH]; intros fuel s Hinv Hlt Hat Hfuel.
  - destruct fuel as [|fuel]; [lia|].
    destruct (chart_round env market period insert_to_database end_ s Hinv Hlt Hmax)
      as (s1 & o & s2 & Hf & Hrun & Hinv1 & _ & Hreq & Hcase).
    assert (Hmoves : current_date_start (vars s1)
                     = current_date_start (vars s) + Datetime.one_day
                     /\ current_date_end (vars s1)
                        = Z.min (current_date_end (vars s)) end_ + Datetime.one_day
                     /\ attempts (vars s1) = 0%nat).
    { destruct o as [u|e|]; [exact Hcase| |contradiction].
      destruct Hcase as (_ & _ & Hcase).
      replace (Nat.eqb (attempts (vars s)) 4) with true in Hcase
        by (symmetry; apply Nat.eqb_eq; lia).
      exact Hcase. }
    destruct Hmoves as (Hs1 & He1 & Hz1).
    exists s1, 1%nat. split; [lia|]. split; [|auto 10].
    rewrite (while_step _ _ _ _ _ (chart_loop_cond_true _ _ Hinv Hlt) Hrun).
    f_equal. lia.
  - destruct fuel as [|fuel]; [lia|].
    destruct (chart_round env market period insert_to_database end_ s Hinv Hlt Hmax)
      as (s1 & o & s2 & Hf & Hrun & Hinv1 & _ & Hreq & Hcase).
    rewrite (while_step _ _ _ _ _ (chart_loop_cond_true _ _ Hinv Hlt) Hrun).
    assert (Hcases :
              (current_date_start (vars s1)
               = current_date_start (vars s) + Datetime.one_day
               /\ current_date_end (vars s1)
                  = Z.min (current_date_end (vars s)) end_ + Datetime.one_day
               /\ attempts (vars s1) = 0%nat)
              \/ (current_date_start (vars s1) = current_date_start (vars s)
                  /\ current_date_end (vars s1) = Z.min (current_date_end (vars s)) end_
                  /\ attempts (vars s1) = S (attempts (vars s)))).
    { destruct o as [u|e|]; [left; exact Hcase| |contradiction].
      destruct Hcase as (_ & _ & Hcase).
      replace (Nat.eqb (attempts (vars s)) 4) with false in Hcase
        by (symmetry; apply Nat.eqb_neq; lia).
      right. exact Hcase. }
    destruct Hcases as [(Hs1 & He1 & Hz1)|(Hs1 & He1 & Hat1)].
    + exists s1, 1%nat. split; [lia|]. split; [f_equal; lia|auto 10].
    + destruct (IH fuel s1 Hinv1 ltac:(rewrite Hs1; exact Hlt) ltac:(rewrite Hat1; lia)
                  ltac:(lia))
        as (s' & k & Hk & Hloop & Hinv' & Hs' & He' & Hz' & Hreq').
      exists s', (S k). split; [lia|]. split; [exact Hloop|].
      split; [exact Hinv'|]. split; [rewrite Hs', Hs1; reflexivity|].
      split; [rewrite He', He1; f_equal; lia|]. split; [exact Hz'|].
      rewrite Hreq', Hreq, Hs1, He1.
      replace (Z.min (Z.min (current_date_end (vars s)) end_) end_)
        with (Z.min (current_date_end (vars s)) end_) by lia.
      rewrite <- app_assoc. reflexivity.
Qed.

(** The loop of one market: every window in turn, one to five times. *)
Lemma chart_loop_shape (market : pyval) (end_ : Z)
    (Hmax : in_range (end_ + Datetime.one_day)) (n : nat) :
  forall (fuel : nat) (s : frame ChartVars.t),
    window_count (current_date_start (vars s)) end_ = n ->
    (5 * n <= fuel)%nat ->
    chart_invariant end_ s ->
    attempts (vars s) = 0%nat ->
    (current_date_start (vars s) < end_ ->
     current_date_end (vars s)
     = current_date_start (vars s) + Datetime.one_day - Datetime.one_microsecond) ->
    exists s' cs,
      while fuel chart_loop_cond (chart_window env market period insert_to_database) s
      = (Ok tt, s')
      /\ length cs = n
      /\ Forall (fun c => (1 <= c <= 5)%nat) cs
      /\ requests (world_of s')
         = requests (world_of s)
           ++ repeated (chart_requests (current_date_start (vars s)) end_ period market) cs
      /\ end_date (vars s') = end_.
Proof.
  induction n as [|n IH]; intros fuel s Hn Hfuel Hinv Hat Hcde.
  - assert (Hge : end_ <= current_date_start (vars s)).
    { destruct (Z.lt_ge_cases (current_date_start (vars s)) end_) as [Hlt|]; [|lia].
      rewrite (window_count_step _ _ Hlt) in Hn. discriminate. }
    exists s, []. unfold chart_requests. rewrite day_windows_done by exact Hge.
    simpl. rewrite app_nil_r.
    rewrite (while_done _ _ _ _ (chart_loop_cond_false _ _ Hinv Hge)).
    destruct Hinv as (Hend & _). auto.
  - assert (Hlt : current_date_start (vars s) < end_).
    { destruct (Z.lt_ge_cases (current_date_start (vars s)) end_) as [|Hge]; [assumption|].
      rewrite (window_count_done _ _ Hge) in Hn. discriminate. }
    specialize (Hcde Hlt).
    destruct (chart_window_rounds market end_ Hmax 4 fuel s Hinv Hlt
                ltac:(rewrite Hat; reflexivity) ltac:(lia))
      as (s1 & k & Hk & Hloop & Hinv1 & Hs1 & He1 & Hat1 & Hreq1).
    rewrite Hloop.
    destruct (IH (fuel - k)%nat s1) as (s' & cs & Hrest & Hlen & Hcs & Hreq' & Hend').
    + rewrite Hs1. rewrite (window_count_step _ _ Hlt) in Hn. congruence.
    + lia.
    + exact Hinv1.
    + exact Hat1.
    + rewrite Hs1, He1, Hcde. unfold Datetime.one_day, Datetime.one_microsecond. lia.
    + exists s', (k :: cs). split; [exact Hrest|]. split; [simpl; congruence|].
      split; [constructor; [lia|exact Hcs]|]. split; [|exact Hend'].
      rewrite Hreq', Hreq1, Hs1. unfold chart_requests, repeated.
      rewrite (day_windows_step _ _ Hlt). simpl.
      rewrite Hcde, <- app_assoc. reflexivity.
Qed.

Lemma chart_market_loop_shape (market : pyval) (start_date end_ : Z) (fuel : nat)
    (s : frame ChartVars.t) :
  Datetime.dt_min <= start_date -> start_date < end_ ->
  in_range (end_ + Datetime.one_day) ->
  (5 * window_count start_date end_ <= fuel)%nat ->
  end_date (vars s) = end_ ->
  exists s' cs,
    chart_market_loop fuel env start_date period insert_to_database market s = (Ok tt, s')
    /\ length cs = window_count start_date end_
    /\ Forall (fun c => (1 <= c <= 5)%nat) cs
    /\ requests (world_of s')
       = requests (world_of s)
         ++ repeated (chart_requests start_date end_ period market) cs
    /\ end_date (vars s') = end_.
Proof.
  intros Hmin Hlt Hmax Hfuel Hend. unfold chart_market_loop, bind.
  rewrite chart_first_window_run.
  - destruct (chart_entry_invariant start_date end_ s Hmin Hend) as (Hinv & _).
    match type of Hinv with
    | chart_invariant _ ?s0 =>
        destruct (chart_loop_shape market end_ Hmax _ fuel s0 eq_refl
                    Hfuel Hinv eq_refl (fun _ => eq_refl))
          as (s' & cs & Hloop & Hlen & Hcs & Hreq & Hend')
    end.
    exists s', cs. auto.
  - unfold in_range, Datetime.one_day in *. lia.
  - unfold in_range, Datetime.one_day, Datetime.one_microsecond in *. lia.
Qed.

Lemma chart_all_markets_shape (start_date end_ : Z) (fuel : nat) (names : list string) :
  Datetime.dt_min <= start_date -> start_date < end_ ->
  in_range (end_ + Datetime.one_day) ->
  (5 * window_count start_date end_ <= fuel)%nat ->
  forall s, end_date (vars s) = end_ ->
    exists s' counts,
      for_each (map PStr names)
        (chart_market_loop fuel env start_date period insert_to_database) s = (Ok tt, s')
      /\ fair_counts start_date end_ names counts
      /\ requests (world_of s')
         = requests (world_of s) ++ chart_rounds start_date end_ period names counts
      /\ end_date (vars s') = end_.
Proof.
  intros Hmin Hlt Hmax Hfuel.
  induction names as [|name names IH]; intros s Hend.
  - exists s, []. simpl. rewrite app_nil_r. repeat split; auto.
  - destruct (chart_market_loop_shape (PStr name) start_date end_ fuel s)
      as (s1 & cs & Hrun & Hlen & Hcs & Hreq & Hend1); auto.
    destruct (IH s1 Hend1) as (s' & counts & Hrest & (Hl & Hfair) & Hreq' & Hend').
    exists s', (cs :: counts). split; [|split; [|split; [|exact Hend']]].
    + simpl. unfold bind. rewrite Hrun. exact Hrest.
    + split; [simpl; congruence|]. constructor; [split; assumption|exact Hfair].
    + rewrite Hreq', Hreq. simpl. now rewrite <- app_assoc.
Qed.

End ChartShape.

Lemma chart_sync_shape_run
    (env : World.environment) (start_date end_date : Z) (period : Z)
    (names : list string) (insert_to_database : bool) (w : World.world) (fuel : nat)
    (Hmin : Datetime.dt_min <= start_date)
    (Horder : start_date < end_date)
    (Hmax : Spec.in_range (end_date + Datetime.one_day))
    (Hfuel : (5 * Spec.window_count start_date end_date <= fuel)%nat) :
  exists v w' counts,
    Bot.get_chart_data_between_dates fuel env start_date end_date period
      (Py.PList (map Py.PStr names)) insert_to_database w = (Py.Ok v, w')
    /\ Runs.fair_counts start_date end_date names counts
    /\ World.requests w'
       = World.requests w ++ Runs.chart_rounds start_date end_date period names counts.
Proof.
  unfold Bot.get_chart_data_between_dates.
  rewrite (bind_ok _ _ w w (Py.PList (map Py.PStr names))) by reflexivity.
  destruct (log_call_run env "get_chart_data_between_dates(%s, %s, %d, %s)"
              start_date end_date [Py.PInt period] names w) as (w1 & Hlog & Hreq & _).
  rewrite (bind_ok _ _ _ _ _ Hlog).
  unfold Exec.call.
  destruct (chart_all_markets_shape env period insert_to_database
              start_date end_date fuel names Hmin Horder Hmax Hfuel
              (World.Frame
                 {| Bot.ChartVars.end_date := end_date;
                    Bot.ChartVars.current_date_start := start_date;
                    Bot.ChartVars.current_date_end := start_date;
                    Bot.ChartVars.atempt := ∅;
                    Bot.ChartVars.chart_data := [] |} w1) eq_refl)
    as (s' & counts & Hrun & Hfair & Hreq' & _).
  rewrite (bind_ok _ _ _ _ _ Hrun). simpl in Hreq'. rewrite Hreq in Hreq'.
  destruct insert_to_database; simpl.
  - eexists _, _, counts. split; [reflexivity|split; [exact Hfair|exact Hreq']].
  - unfold Exec.bind, Exec.local, Exec.ret. simpl.
    eexists _, _, counts. split; [reflexivity|split; [exact Hfair|exact Hreq']].
Qed.

(** The requests of [get_chart_data_between_dates], whatever the exchange
    and the database do.  For each market in turn the call asks for the day
    windows of the range in order, each window at least once and at most
    five times in a row, and for nothing else. *)
Theorem chart_sync_request_shape
    (env : World.environment) (start_date end_date : Z) (period : Z)
    (names : list string) (insert_to_database : bool) (w : World.world) (fuel : nat)
    (Hmin : Datetime.dt_min <= start_date)
    (Horder : start_date < end_date)
    (Hmax : Spec.in_range (end_date + Datetime.one_day))
    (Hfuel : (5 * Spec.window_count start_date end_date <= fuel)%nat) :
  exists v w' counts,
    Bot.get_chart_data_between_dates fuel env start_date end_date period
      (Py.PList (map Py.PStr names)) insert_to_database w = (Py.Ok v, w')
    /\ Runs.fair_counts start_date end_date names counts
    /\ World.requests w'
       = World.requests w ++ Runs.chart_rounds start_date end_date period names counts.
Proof.
  exact (chart_sync_shape_run env start_date end_date period names insert_to_database
           w fuel Hmin Horder Hmax Hfuel).
Qed.

Lemma chart_sync_request_shape_witness :
  exists v w' counts,
    Bot.get_chart_data_between_dates 10 Samples.quiet_exchange
      (Datetime.datetime 2017 1 1 0 0 0 0) (Datetime.datetime 2017 1 2 12 0 0 0) 300
      (Py.PList [Py.PStr "BTC_ETH"]) true (Samples.fresh 0 []) = (Py.Ok v, w')
    /\ length counts = 1%nat
    /\ World.requests w'
       = Runs.chart_rounds (Datetime.datetime 2017 1 1 0 0 0 0)
           (Datetime.datetime 2017 1 2 12 0 0 0) 300 ["BTC_ETH"] counts.
Proof.
  destruct (chart_sync_request_shape Samples.quiet_exchange
              (Datetime.datetime 2017 1 1 0 0 0 0) (Datetime.datetime 2017 1 2 12 0 0 0)
              300 ["BTC_ETH"] true (Samples.fresh 0 []) 10
              ltac:(vm_compute; congruence) ltac:(reflexivity)
              ltac:(split; vm_compute; congruence)
              ltac:(vm_compute; repeat constructor))
    as (v & w' & counts & Hrun & (Hlen & _) & Hreq).
  exists v, w', counts. split; [exact Hrun|]. split; [exact Hlen|exact Hreq].
Defined.

(** ** Empty ranges and the default list of markets *)

Section EmptyRange.
Import Py World Exec Wrapper Bot Spec Runs.

Variable env : environment.
Variable insert_to_database : bool.

Lemma trade_markets_empty_range (start_date end_ : Z) (fuel : nat) (names : list pyval) :
  end_ <= start_date ->
  in_range (start_date + Datetime.one_day) ->
  in_range (start_date + Datetime.one_day - Datetime.one_microsecond) ->
  forall s, TradeVars.end_date (vars s) = end_ ->
    exists s',
      for_each names (trade_market_loop fuel env start_date insert_to_database) s
      = (Ok tt, s')
      /\ world_of s' = world_of s
      /\ TradeVars.trade_history (vars s') = TradeVars.trade_history (vars s).
Proof.
  intros Hempty R1 R2.
  induction names as [|name names IH]; intros s Hend.
  - exists s. auto.
  - simpl. unfold bind at 1. unfold trade_market_loop at 1. unfold bind at 1.
    rewrite (first_window_run _ _ R1 R2).
    rewrite while_done
      by (unfold trade_loop_cond; simpl; rewrite Hend; apply Z.ltb_ge; exact Hempty).
    destruct (IH (Frame (TradeVars.with_end
                           (start_date + Datetime.one_day - Datetime.one_microsecond)
                           (TradeVars.with_start start_date (vars s))) (world_of s)) Hend)
      as (s' & Hrun & Hw & Hh).
    exists s'. auto.
Qed.

Lemma chart_markets_empty_range (start_date end_ period : Z) (fuel : nat)
    (names : list pyval) :
  end_ <= start_date ->
  in_range (start_date + Datetime.one_day) ->
  in_range (start_date + Datetime.one_day - Datetime.one_microsecond) ->
  forall s, ChartVars.end_date (vars s) = end_ ->
    exists s',
      for_each names (chart_market_loop fuel env start_date period insert_to_database) s
      = (Ok tt, s')
      /\ world_of s' = world_of s
      /\ ChartVars.chart_data (vars s') = ChartVars.chart_data (vars s).
Proof.
  intros Hempty R1 R2.
  induction names as [|name names IH]; intros s Hend.
  - exists s. auto.
  - simpl. unfold bind at 1. unfold chart_market_loop at 1. unfold bind at 1.
    rewrite (chart_first_window_run _ _ R1 R2).
    rewrite while_done
      by (unfold chart_loop_cond; simpl; rewrite Hend; apply Z.ltb_ge; exact Hempty).
    destruct (IH (Frame (ChartVars.with_atempt ∅
                           (ChartVars.with_end
                              (start_date + Datetime.one_day - Datetime.one_microsecond)
                              (ChartVars.with_start start_date (vars s))))
                    (world_of s)) Hend)
      as (s' & Hrun & Hw & Hh).
    exists s'. auto.
Qed.

End EmptyRange.

(** A range that is empty or backwards.  When [end_date] is not after
    [start_date], neither [get_trade_history_between_dates] nor
    [get_chart_data_between_dates] sends a request or stores anything,
    whatever the markets: the caller gets an empty list, or [None] when the
    database was to be filled. *)
Theorem empty_range_sends_nothing
    (env : World.environment) (start_date end_date period : Z)
    (names : list string) (insert_to_database : bool) (w : World.world) (fuel : nat)
    (Hempty : end_date <= start_date)
    (Hmin : Datetime.dt_min <= start_date)
    (Hmax : start_date + Datetime.one_day <= Datetime.dt_max) :
  (exists w',
      Bot.get_trade_history_between_dates fuel env start_date end_date
        (Py.PList (map Py.PStr names)) insert_to_database w
      = (Py.Ok (if insert_to_database then Py.PNone else Py.PList []), w')
      /\ World.requests w' = World.requests w
      /\ World.stored w' = World.stored w)
  /\ (exists w',
        Bot.get_chart_data_between_dates fuel env start_date end_date period
          (Py.PList (map Py.PStr names)) insert_to_database w
        = (Py.Ok (if insert_to_database then Py.PNone else Py.PList []), w')
        /\ World.requests w' = World.requests w
        /\ World.stored w' = World.stored w).
Proof.
  assert (R1 : Spec.in_range (start_date + Datetime.one_day))
    by (unfold Spec.in_range, Datetime.one_day in *; lia).
  assert (R2 : Spec.in_range (start_date + Datetime.one_day - Datetime.one_microsecond))
    by (unfold Spec.in_range, Datetime.one_day, Datetime.one_microsecond in *; lia).
  split.
  - unfold Bot.get_trade_history_between_dates.
    rewrite (bind_ok _ _ w w (Py.PList (map Py.PStr names))) by reflexivity.
    destruct (log_call_run env "get_trade_history_between_dates(%s, %s, %s)"
                start_date end_date [] names w) as (w1 & Hlog & Hreq & _ & Hst).
    rewrite (bind_ok _ _ _ _ _ Hlog).
    unfold Exec.call.
    destruct (trade_markets_empty_range env insert_to_database start_date end_date fuel
                (map Py.PStr names) Hempty R1 R2
                (World.Frame
                   {| Bot.TradeVars.end_date := end_date;
                      Bot.TradeVars.current_date_start := start_date;
                      Bot.TradeVars.current_date_end := start_date;
                      Bot.TradeVars.trade_history := [] |} w1) eq_refl)
      as (s' & Hrun & Hw & Hh).
    rewrite (bind_ok _ _ _ _ _ Hrun). simpl in Hw, Hh.
    destruct insert_to_database; simpl.
    + eexists. split; [reflexivity|]. rewrite Hw. auto.
    + unfold Exec.bind, Exec.local, Exec.ret. simpl. rewrite Hh, Hw.
      eexists. split; [reflexivity|]. auto.
  - unfold Bot.get_chart_data_between_dates.
    rewrite (bind_ok _ _ w w (Py.PList (map Py.PStr names))) by reflexivity.
    destruct (log_call_run env "get_chart_data_between_dates(%s, %s, %d, %s)"
                start_date end_date [Py.PInt period] names w)
      as (w1 & Hlog & Hreq & _ & Hst).
    rewrite (bind_ok _ _ _ _ _ Hlog).
    unfold Exec.call.
    destruct (chart_markets_empty_range env insert_to_database start_date end_date period
                fuel (map Py.PStr names) Hempty R1 R2
                (World.Frame
                   {| Bot.ChartVars.end_date := end_date;
                      Bot.ChartVars.current_date_start := start_date;
                      Bot.ChartVars.current_date_end := start_date;
                      Bot.ChartVars.atempt := ∅;
                      Bot.ChartVars.chart_data := [] |} w1) eq_refl)
      as (s' & Hrun & Hw & Hh).
    rewrite (bind_ok _ _ _ _ _ Hrun). simpl in Hw, Hh.
    destruct insert_to_database; simpl.
    + eexists. split; [reflexivity|]. rewrite Hw. auto.
    + unfold Exec.bind, Exec.local, Exec.ret. simpl. rewrite Hh, Hw.
      eexists. split; [reflexivity|]. auto.
Qed.

Lemma empty_range_sends_nothing_witness :
  exists w',
    Bot.get_trade_history_between_dates 0 Samples.dead_exchange
      (Datetime.datetime 2017 1 2 0 0 0 0) (Datetime.datetime 2017 1 1 0 0 0 0)
      (Py.PList [Py.PStr "BTC_ETH"]) false (Samples.fresh 0 [])
    = (Py.Ok (Py.PList []), w')
    /\ World.requests w' = [].
Proof.
  destruct (empty_range_sends_nothing Samples.dead_exchange
              (Datetime.datetime 2017 1 2 0 0 0 0) (Datetime.datetime 2017 1 1 0 0 0 0)
              300 ["BTC_ETH"] false (Samples.fresh 0 []) 0
              ltac:(vm_compute; congruence) ltac:(vm_compute; congruence)
              ltac:(vm_compute; congruence))
    as ((w' & Hrun & Hreq & _) & _).
  exists w'. split; [exact Hrun|exact Hreq].
Defined.

Lemma failed_market_query_cached_run
    (env : World.environment) (w : World.world) (btc : bool) :
  World.markets w = None ->
  World.http env (length (World.requests w))
    (if btc then World.ReturnTicker else World.Return24hVolume) = None ->
  exists w1,
    (if btc then Wrapper.get_all_btc_markets env w else Wrapper.get_all_markets env w)
    = (Py.Raise Py.TypeError, w1)
    /\ World.requests w1
       = World.requests w ++ [if btc then World.ReturnTicker else World.Return24hVolume]
    /\ World.markets w1 = Some [].
Proof.
  intros Hfresh Hfail. destruct btc.
  - unfold Wrapper.get_all_btc_markets, Wrapper.return_ticker, Wrapper.api_query.
    unfold Exec.bind at 1. unfold Exec.gets at 1. rewrite Hfresh.
    unfold Exec.bind, Exec.gets, Exec.modify, Exec.log_info, Exec.log_exception,
      Exec.raise. simpl. rewrite Hfail. simpl.
    eexists. split; [reflexivity|]. split; reflexivity.
  - unfold Wrapper.get_all_markets, Wrapper.return_24h_volume, Wrapper.api_query.
    unfold Exec.bind at 1. unfold Exec.gets at 1. rewrite Hfresh.
    unfold Exec.bind, Exec.gets, Exec.modify, Exec.log_info, Exec.log_exception,
      Exec.raise. simpl. rewrite Hfail. simpl.
    eexists. split; [reflexivity|]. split; reflexivity.
Qed.

(** A market query that is not answered empties the cache for good.  On an
    instance whose [markets] is still [None], [get_all_markets] (or
    [get_all_btc_markets]) whose request fails raises [TypeError] after one
    request, but the field was set to the empty list before the request was
    sent: every later call of either method returns [[]] and sends
    nothing. *)
Theorem failed_market_query_is_cached
    (env : World.environment) (w : World.world) (btc : bool)
    (Hfresh : World.markets w = None)
    (Hfail : World.http env (length (World.requests w))
               (if btc then World.ReturnTicker else World.Return24hVolume) = None) :
  exists w1,
    (if btc then Wrapper.get_all_btc_markets env w else Wrapper.get_all_markets env w)
    = (Py.Raise Py.TypeError, w1)
    /\ World.requests w1
       = World.requests w ++ [if btc then World.ReturnTicker else World.Return24hVolume]
    /\ (forall env' w2, World.markets w2 = World.markets w1 ->
          Wrapper.get_all_markets env' w2 = (Py.Ok (Py.PList []), w2)
          /\ Wrapper.get_all_btc_markets env' w2 = (Py.Ok (Py.PList []), w2)).
Proof.
  destruct (failed_market_query_cached_run env w btc Hfresh Hfail)
    as (w1 & Hrun & Hreq & Hm1).
  exists w1. split; [exact Hrun|]. split; [exact Hreq|].
  intros env' w2 Hm. rewrite Hm1 in Hm. apply (markets_cached env' w2 [] Hm).
Qed.

Lemma failed_market_query_is_cached_witness :
  exists w1,
    Wrapper.get_all_markets Samples.dead_exchange (Samples.fresh 0 [])
    = (Py.Raise Py.TypeError, w1)
    /\ Wrapper.get_all_btc_markets Samples.quiet_exchange w1 = (Py.Ok (Py.PList []), w1).
Proof.
  destruct (failed_market_query_is_cached Samples.dead_exchange (Samples.fresh 0 []) false
              eq_refl eq_refl) as (w1 & Hrun & _ & Hlater).
  exists w1. split; [exact Hrun|].
  exact (proj2 (Hlater Samples.quiet_exchange w1 eq_refl)).
Defined.

(** The default list of markets is whatever the cache holds.  Once the
    [markets] field is filled, a call without [currency_pairs] of
    [get_trade_history_between_dates] or [get_chart_data_between_dates]
    behaves as the call with the cached list: no market query is sent, and
    the chart call takes the list as it is, whichever of the two wrapper
    methods filled it. *)
Theorem default_markets_are_the_cache
    (env : World.environment) (start_date end_date period : Z)
    (insert_to_database : bool) (w : World.world) (fuel : nat) (l : list Py.pyval)
    (Hcache : World.markets w = Some l) :
  Bot.get_trade_history_between_dates fuel env start_date end_date Py.PNone
    insert_to_database w
  = Bot.get_trade_history_between_dates fuel env start_date end_date (Py.PList l)
      insert_to_database w
  /\ Bot.get_chart_data_between_dates fuel env start_date end_date period Py.PNone
       insert_to_database w
     = Bot.get_chart_data_between_dates fuel env start_date end_date period (Py.PList l)
         insert_to_database w.
Proof.
  destruct (markets_cached env w l Hcache) as [Ha Hb].
  unfold Bot.get_trade_history_between_dates, Bot.get_chart_data_between_dates.
  split.
  - rewrite (bind_ok _ _ _ _ _ Ha).
    now rewrite (bind_ok _ _ w w (Py.PList l)) by reflexivity.
  - rewrite (bind_ok _ _ _ _ _ Hb).
    now rewrite (bind_ok _ _ w w (Py.PList l)) by reflexivity.
Qed.

Lemma default_markets_are_the_cache_witness :
  Bot.get_chart_data_between_dates 5 Samples.quiet_exchange
    (Datetime.datetime 2017 1 1 0 0 0 0) (Datetime.datetime 2017 1 2 0 0 0 0) 300
    Py.PNone true (World.set_markets (Some [Py.PStr "USDT_BTC"]) (Samples.fresh 0 []))
  = Bot.get_chart_data_between_dates 5 Samples.quiet_exchange
      (Datetime.datetime 2017 1 1 0 0 0 0) (Datetime.datetime 2017 1 2 0 0 0 0) 300
      (Py.PList [Py.PStr "USDT_BTC"]) true
      (World.set_markets (Some [Py.PStr "USDT_BTC"]) (Samples.fresh 0 [])).
Proof.
  exact (proj2 (default_markets_are_the_cache Samples.quiet_exchange
                  (Datetime.datetime 2017 1 1 0 0 0 0)
                  (Datetime.datetime 2017 1 2 0 0 0 0) 300 true
                  (World.set_markets (Some [Py.PStr "USDT_BTC"]) (Samples.fresh 0 []))
                  5 [Py.PStr "USDT_BTC"] eq_refl)).
Defined.

(** A failed market query disables the default sync.  When the market
    query of [get_trade_history_between_dates] called without
    [currency_pairs] is not answered, the call raises [TypeError] after
    that one request; every later call without [currency_pairs], of
    this function or of [get_chart_data_between_dates], then finds the
    empty cache: it sends no request, stores nothing and returns an empty
    result. *)
Theorem failed_market_query_disables_default_sync
    (env : World.environment) (start_date end_date : Z)
    (insert_to_database : bool) (w : World.world) (fuel : nat)
    (Hfresh : World.markets w = None)
    (Hfail : World.http env (length (World.requests w)) World.Return24hVolume = None) :
  exists w1,
    Bot.get_trade_history_between_dates fuel env start_date end_date Py.PNone
      insert_to_database w = (Py.Raise Py.TypeError, w1)
    /\ World.requests w1 = World.requests w ++ [World.Return24hVolume]
    /\ (forall env' fuel' a b period ins w2, World.markets w2 = World.markets w1 ->
          (exists w3,
              Bot.get_trade_history_between_dates fuel' env' a b Py.PNone ins w2
              = (Py.Ok (if ins then Py.PNone else Py.PList []), w3)
              /\ World.requests w3 = World.requests w2
              /\ World.stored w3 = World.stored w2)
          /\ (exists w3,
                Bot.get_chart_data_between_dates fuel' env' a b period Py.PNone ins w2
                = (Py.Ok (if ins then Py.PNone else Py.PList []), w3)
                /\ World.requests w3 = World.requests w2
                /\ World.stored w3 = World.stored w2)).
Proof.
  destruct (failed_market_query_cached_run env w false Hfresh Hfail)
    as (w1 & Hrun & Hreq & Hm1).
  exists w1. split; [|split; [exact Hreq|]].
  - unfold Bot.get_trade_history_between_dates, Exec.bind. simpl in Hrun.
    now rewrite Hrun.
  - intros env' fuel' a b period ins w2 Hm. rewrite Hm1 in Hm.
    destruct (markets_cached env' w2 [] Hm) as [Ha Hb].
    split.
    + unfold Bot.get_trade_history_between_dates.
      rewrite (bind_ok _ _ _ _ _ Ha).
      destruct (log_call_run env' "get_trade_history_between_dates(%s, %s, %s)"
                  a b [] [] w2) as (w3 & Hlog & Hrq & _ & Hst).
      simpl map in Hlog. rewrite (bind_ok _ _ _ _ _ Hlog).
      unfold Exec.call, Exec.bind, Exec.local, Exec.ret. simpl.
      exists w3. destruct ins; simpl; auto.
    + unfold Bot.get_chart_data_between_dates.
      rewrite (bind_ok _ _ _ _ _ Hb).
      destruct (log_call_run env' "get_chart_data_between_dates(%s, %s, %d, %s)"
                  a b [Py.PInt period] [] w2) as (w3 & Hlog & Hrq & _ & Hst).
      simpl map in Hlog. rewrite (bind_ok _ _ _ _ _ Hlog).
      unfold Exec.call, Exec.bind, Exec.local, Exec.ret. simpl.
      exists w3. destruct ins; simpl; auto.
Qed.

Lemma failed_market_query_disables_default_sync_witness :
  exists w1 w3,
    Bot.get_trade_history_between_dates 5 Samples.dead_exchange
      (Datetime.datetime 2017 1 1 0 0 0 0) (Datetime.datetime 2017 1 2 0 0 0 0)
      Py.PNone false (Samples.fresh 0 []) = (Py.Raise Py.TypeError, w1)
    /\ Bot.get_trade_history_between_dates 5 Samples.quiet_exchange
         (Datetime.datetime 2017 1 1 0 0 0 0) (Datetime.datetime 2017 1 2 0 0 0 0)
         Py.PNone false w1 = (Py.Ok (Py.PList []), w3).
Proof.
  destruct (failed_market_query_disables_default_sync Samples.dead_exchange
              (Datetime.datetime 2017 1 1 0 0 0 0) (Datetime.datetime 2017 1 2 0 0 0 0)
              false (Samples.fresh 0 []) 5 eq_refl eq_refl)
    as (w1 & Hrun & _ & Hlater).
  destruct (proj1 (Hlater Samples.quiet_exchange 5%nat
                     (Datetime.datetime 2017 1 1 0 0 0 0)
                     (Datetime.datetime 2017 1 2 0 0 0 0) 300 false w1 eq_refl))
    as (w3 & Hrun3 & _).
  exists w1, w3. split; [exact Hrun|exact Hrun3].
Defined.

Section LiveEmptyRange.
Import Py World Exec Wrapper Bot Spec Runs.

Variable env : environment.
Variable mongo_collection : option string.

Lemma live_markets_empty_range (start_date end_ : Z) (fuel : nat) (names : list pyval) :
  end_ <= start_date ->
  in_range (start_date + Datetime.one_day) ->
  in_range (start_date + Datetime.one_day - Datetime.one_microsecond) ->
  forall s, TradeVars.end_date (vars s) = end_ ->
    exists s',
      for_each names (live_market_loop fuel env start_date mongo_collection) s
      = (Ok tt, s')
      /\ world_of s' = world_of s
      /\ TradeVars.trade_history (vars s') = TradeVars.trade_history (vars s).
Proof.
  intros Hempty R1 R2.
  induction names as [|name names IH]; intros s Hend.
  - exists s. auto.
  - simpl. unfold bind at 1. unfold live_market_loop at 1. unfold bind at 1.
    rewrite (first_window_run _ _ R1 R2).
    rewrite while_done
      by (unfold trade_loop_cond; simpl; rewrite Hend; apply Z.ltb_ge; exact Hempty).
    destruct (IH (Frame (TradeVars.with_end
                           (start_date + Datetime.one_day - Datetime.one_microsecond)
                           (TradeVars.with_start start_date (vars s))) (world_of s)) Hend)
      as (s' & Hrun & Hw & Hh).
    exists s'. auto.
Qed.

End LiveEmptyRange.

(** [get_complete_trade_history] returns only when there is nothing to
    fetch.  Called with a start date that is not in the past, it sends no
    request, stores nothing and returns an empty list, or [None] when a
    collection was given; a start date in the past is the case in which the
    call never returns. *)
Theorem full_history_of_the_future_is_empty
    (env : World.environment) (currency_start_date : Z)
    (names : list string) (mongo_collection : option string)
    (w : World.world) (fuel : nat)
    (Hfuture : World.clock w <= currency_start_date)
    (Hmin : Datetime.dt_min <= currency_start_date)
    (Hmax : currency_start_date + Datetime.one_day <= Datetime.dt_max) :
  exists w',
    Bot.get_complete_trade_history fuel env currency_start_date
      (Py.PList (map Py.PStr names)) mongo_collection w
    = (Py.Ok (match mongo_collection with
              | None => Py.PList []
              | Some _ => Py.PNone
              end), w')
    /\ World.requests w' = World.requests w
    /\ World.stored w' = World.stored w
    /\ World.clock w' = World.clock w.
Proof.
  assert (R1 : Spec.in_range (currency_start_date + Datetime.one_day))
    by (unfold Spec.in_range, Datetime.one_day in *; lia).
  assert (R2 : Spec.in_range
                 (currency_start_date + Datetime.one_day - Datetime.one_microsecond))
    by (unfold Spec.in_range, Datetime.one_day, Datetime.one_microsecond in *; lia).
  unfold Bot.get_complete_trade_history.
  rewrite (bind_ok _ _ w w (Some (Py.PList (map Py.PStr names)))) by reflexivity.
  rewrite (bind_ok _ _ w w (World.clock w)) by reflexivity.
  destruct (log_call_run env "get_trade_history_between_dates(%s, %s, %s)"
              currency_start_date (World.clock w) [] names w)
    as (w1 & Hlog & Hreq & Hclk & Hst).
  rewrite (bind_ok _ _ _ _ _ Hlog).
  unfold Exec.call.
  destruct (live_markets_empty_range env mongo_collection currency_start_date
              (World.clock w) fuel (map Py.PStr names) Hfuture R1 R2
              (World.Frame
                 {| Bot.TradeVars.end_date := World.clock w;
                    Bot.TradeVars.current_date_start := currency_start_date;
                    Bot.TradeVars.current_date_end := currency_start_date;
                    Bot.TradeVars.trade_history := [] |} w1) eq_refl)
    as (s' & Hrun & Hw & Hh).
  rewrite (bind_ok _ _ _ _ _ Hrun). simpl in Hw, Hh.
  destruct mongo_collection; simpl.
  - eexists. split; [reflexivity|]. rewrite Hw. auto.
  - unfold Exec.bind, Exec.local, Exec.ret. simpl. rewrite Hh, Hw.
    eexists. split; [reflexivity|]. auto.
Qed.

Lemma full_history_of_the_future_is_empty_witness :
  exists w',
    Bot.get_complete_trade_history 0 Samples.dead_exchange
      (Datetime.datetime 2017 1 1 0 0 0 0) (Py.PList [Py.PStr "BTC_ZRX"]) None
      (Samples.fresh 0 [])
    = (Py.Ok (Py.PList []), w')
    /\ World.requests w' = [].
Proof.
  destruct (full_history_of_the_future_is_empty Samples.dead_exchange
              (Datetime.datetime 2017 1 1 0 0 0 0) ["BTC_ZRX"] None
              (Samples.fresh 0 []) 0
              ltac:(vm_compute; congruence) ltac:(vm_compute; congruence)
              ltac:(vm_compute; congruence))
    as (w' & Hrun & Hreq & _).
  exists w'. split; [exact Hrun|exact Hreq].
Defined.

(** ** The ticker poll, whatever the exchange answers *)

Section TickerPoll.
Import Py World Exec Wrapper ScrapingBot Spec Runs.

Variable env : environment.

Lemma ticker_call (w : world) :
  exists r w', return_ticker env w = (r, w')
    /\ requests w' = requests w ++ [ReturnTicker]
    /\ clock w' = clock w /\ stored w' = stored w
    /\ logs w' = logs w
                 ++ LogInfo Wrapper.logger "ApiPublicMethods URL open: %s" []
                 :: match http env (length (requests w)) ReturnTicker with
                    | Some _ => []
                    | None => [LogException Wrapper.logger "Communication error" None]
                    end
    /\ r = match http env (length (requests w)) ReturnTicker with
           | Some v => Ok v
           | None => Raise TypeError
           end.
Proof.
  unfold return_ticker, api_query, bind, gets, modify, log_info,
    log_exception, raise, ret. simpl.
  destruct (http env _ _); simpl; eauto 10.
  eexists _, _. split; [reflexivity|]. simpl. rewrite <- app_assoc. auto 10.
Qed.

(** The loop over the markets of the answer touches only the local
    variables, and it cannot run out of rounds. *)
Lemma tickers_loop_world (td : pyval) (items : list pyval) :
  forall s : frame locals,
  exists o s',
    for_each items (fun market =>
      bind (lift (py_getitem td market)) (fun ticker =>
      bind (lift (py_setitem "market" market ticker)) (fun ticker =>
      bind (in_world now) (fun t =>
      bind (lift (py_setitem "time"
                    (PStr (strftime env "%Y-%m-%d %H:%M:%S" t)) ticker)) (fun ticker =>
      bind read_tickers (fun l =>
      assign (set_tickers (l ++ [ticker])))))))) s = (o, s')
    /\ world_of s' = world_of s
    /\ o <> OutOfFuel.
Proof.
  induction items as [|market items IH]; intros s.
  - exists (Ok tt), s. simpl. unfold ret. repeat split. discriminate.
  - cbn [for_each]. unfold bind at 1.
    unfold bind at 1. unfold lift at 1.
    destruct (py_getitem td market) as [ticker|e|] eqn:Hg.
    + unfold bind at 1. unfold lift at 1.
      destruct (py_setitem "market" market ticker) as [ticker1|e|] eqn:Hs1.
      * unfold bind at 1. unfold in_world at 1, now at 1, gets at 1.
        unfold bind at 1. unfold lift at 1.
        destruct (py_setitem "time" _ ticker1) as [ticker2|e|] eqn:Hs2.
        -- unfold bind at 1. unfold read_tickers at 1. unfold bind at 1, local at 1.
           cbn [vars world_of].
           destruct (tickers (vars s)) as [l|].
           ++ unfold ret at 1, assign at 1. cbn [vars world_of].
              destruct (IH (Frame (set_tickers (l ++ [ticker2]) (vars s)) (world_of s)))
                as (o & s' & Hrun & Hw & Ho).
              exists o, s'. split; [exact Hrun|]. split; [exact Hw|exact Ho].
           ++ unfold raise. eexists _, _. split; [reflexivity|].
              split; [reflexivity|discriminate].
        -- eexists _, _. split; [reflexivity|]. split; [reflexivity|discriminate].
        -- exfalso. destruct ticker1; discriminate.
      * eexists _, _. split; [reflexivity|]. split; [reflexivity|discriminate].
      * exfalso. destruct ticker; discriminate.
    + eexists _, _. split; [reflexivity|]. split; [reflexivity|discriminate].
    + exfalso. unfold py_getitem in Hg.
      destruct td as [| | | |s0| |l0|d0]; try discriminate.
      * destruct market; try discriminate.
        -- destruct (seq_index _ _); [destruct (nth_error _ _)|]; discriminate.
        -- destruct (seq_index _ _); [destruct (nth_error _ _)|]; discriminate.
      * destruct market; try discriminate.
        -- destruct (seq_index _ _); [destruct (nth_error _ _)|]; discriminate.
        -- destruct (seq_index _ _); [destruct (nth_error _ _)|]; discriminate.
      * destruct market; try discriminate.
        destruct (dict_get _ _); discriminate.
Qed.

(** The [try] of [get_new_ticker_data]: one request, and an outcome that
    is a result or an exception. *)
Lemma fetch_tickers_run (insert_to_database : bool) (s : frame locals) :
  exists o s',
    fetch_tickers env insert_to_database s = (o, s')
    /\ o <> OutOfFuel
    /\ requests (world_of s') = requests (world_of s) ++ [ReturnTicker]
    /\ clock (world_of s') = clock (world_of s)
    /\ (http env (length (requests (world_of s))) ReturnTicker = None ->
        o = Raise TypeError /\ stored (world_of s') = stored (world_of s)).
Proof.
  unfold fetch_tickers.
  destruct (ticker_call (world_of s)) as (r & w1 & Hc & Hreq & Hclk & Hst & _ & Hr).
  unfold bind at 1. unfold in_world at 1. rewrite Hc.
  destruct r as [td|e|].
  - unfold bind at 1. unfold assign at 1.
    unfold bind at 1. unfold assign at 1. cbn [vars world_of].
    unfold bind at 1. unfold lift at 1.
    destruct (py_iter td) as [items|e|] eqn:Hit.
    + unfold bind at 1.
      match goal with
      | |- context [for_each items ?body ?s0] =>
          destruct (tickers_loop_world td items s0) as (o & s1 & Hrun & Hw & Ho)
      end.
      rewrite Hrun. cbn [world_of] in Hw.
      destruct o as [u|e|]; [|
        eexists _, _; split; [reflexivity|]; rewrite Hw;
        split; [discriminate|]; split; [exact Hreq|]; split; [exact Hclk|];
        intros Hn; rewrite Hn in Hr; discriminate|contradiction].
      destruct insert_to_database.
      * unfold bind at 1. unfold read_tickers at 1. unfold bind at 1, local at 1.
        destruct (tickers (vars s1)) as [l|].
        -- unfold ret at 1. unfold in_world, insert_many. rewrite Hw.
           destruct (insert_many_error env _ _ _).
           ++ eexists _, _. split; [reflexivity|]. cbn [world_of].
              split; [discriminate|]. split; [exact Hreq|]. split; [exact Hclk|].
              intros Hn; rewrite Hn in Hr; discriminate.
           ++ eexists _, _. split; [reflexivity|]. cbn [world_of].
              split; [discriminate|]. split; [exact Hreq|]. split; [exact Hclk|].
              intros Hn; rewrite Hn in Hr; discriminate.
        -- unfold raise. eexists _, _. split; [reflexivity|]. rewrite Hw.
           split; [discriminate|]. split; [exact Hreq|]. split; [exact Hclk|].
           intros Hn; rewrite Hn in Hr; discriminate.
      * unfold ret. eexists _, _. split; [reflexivity|]. rewrite Hw.
        split; [discriminate|]. split; [exact Hreq|]. split; [exact Hclk|].
        intros Hn; rewrite Hn in Hr; discriminate.
    + eexists _, _. split; [reflexivity|]. cbn [world_of].
      split; [discriminate|]. split; [exact Hreq|]. split; [exact Hclk|].
      intros Hn; rewrite Hn in Hr; discriminate.
    + exfalso. destruct td; discriminate.
  - eexists _, _. split; [reflexivity|]. cbn [world_of].
    split; [discriminate|]. split; [exact Hreq|]. split; [exact Hclk|].
    intros Hn. rewrite Hn in Hr. injection Hr as ->. auto.
  - exfalso. destruct (http env _ _); discriminate.
Qed.

(** A poll that fills the database: whatever happens inside the [try],
    the call returns [None] after one request. *)
Lemma ticker_poll_run (w : world) :
  exists w',
    get_new_ticker_data env true w = (Ok PNone, w')
    /\ requests w' = requests w ++ [ReturnTicker]
    /\ clock w' = clock w.
Proof.
  unfold get_new_ticker_data, call.
  unfold bind at 1. unfold in_world at 1, log_info at 1, modify at 1.
  cbn [vars world_of].
  unfold bind at 1. unfold try_except.
  match goal with
  | |- context [fetch_tickers env true ?s0] =>
      destruct (fetch_tickers_run true s0) as (o & s1 & Hrun & Ho & Hreq & Hclk & _)
  end.
  rewrite Hrun. cbn [world_of] in Hreq, Hclk. simpl in Hreq, Hclk.
  destruct o as [u|e|]; [| |contradiction].
  - simpl. unfold ret. eexists. split; [reflexivity|]. auto.
  - unfold in_world, log_exception, modify. simpl. unfold ret.
    eexists. split; [reflexivity|]. simpl. auto.
Qed.

End TickerPoll.

Section TickerAnswers.
Import Py World Exec Wrapper ScrapingBot Spec Runs.

Variable env : environment.

(** The loop over the markets of an answer whose entries are objects. *)
Lemma tickers_loop_answered (d : list (string * pyval)) (keys : list string) :
  forall (s : frame locals) (l : list pyval),
    (forall k, In k keys -> has_dict d k = true) ->
    tickers (vars s) = Some l ->
    for_each (map PStr keys) (fun market =>
      bind (lift (py_getitem (PDict d) market)) (fun ticker =>
      bind (lift (py_setitem "market" market ticker)) (fun ticker =>
      bind (in_world now) (fun t =>
      bind (lift (py_setitem "time"
                    (PStr (strftime env "%Y-%m-%d %H:%M:%S" t)) ticker)) (fun ticker =>
      bind read_tickers (fun l =>
      assign (set_tickers (l ++ [ticker])))))))) s
    = (Ok tt,
       Frame (set_tickers
                (l ++ map (stamped_ticker
                             (strftime env "%Y-%m-%d %H:%M:%S" (clock (world_of s))) d)
                        keys)
                (vars s))
         (world_of s)).
Proof.
  induction keys as [|k keys IH]; intros s l Hd Hl.
  - simpl. rewrite app_nil_r. unfold ret. destruct s as [[td ts] w]. simpl in *.
    subst ts. reflexivity.
  - assert (Hk := Hd k (or_introl eq_refl)). unfold has_dict in Hk.
    destruct (dict_get k d) as [v|] eqn:Hg; [|discriminate].
    destruct v as [| | | | | | |t]; try discriminate.
    cbn [map for_each]. unfold bind at 1.
    unfold bind at 1. unfold lift at 1. cbn [py_getitem]. rewrite Hg.
    unfold bind at 1. unfold lift at 1. cbn [py_setitem].
    unfold bind at 1. unfold in_world at 1, now at 1, gets at 1.
    unfold bind at 1. unfold lift at 1. cbn [py_setitem].
    unfold bind at 1. unfold read_tickers at 1. unfold bind at 1, local at 1.
    cbn [vars world_of]. rewrite Hl. unfold ret at 1, assign at 1. cbn [vars world_of].
    rewrite (IH _ (l ++ [PDict (dict_set "time"
                                  (PStr (strftime env "%Y-%m-%d %H:%M:%S"
                                           (clock (world_of s))))
                                  (dict_set "market" (PStr k) t))]));
      [|intros k' Hin; apply Hd; now right|reflexivity].
    cbn [vars world_of]. unfold stamped_ticker at 2. rewrite Hg.
    rewrite <- app_assoc. reflexivity.
Qed.

End TickerAnswers.

(** [get_new_ticker_data()] with its default argument never raises.
    Whatever the exchange answers and whatever the database does with the
    batch, the call sends one ticker request, leaves the clock alone and
    returns [None]. *)
Theorem ticker_poll_never_raises (env : World.environment) (w : World.world) :
  exists w',
    ScrapingBot.get_new_ticker_data env true w = (Py.Ok Py.PNone, w')
    /\ World.requests w' = World.requests w ++ [World.ReturnTicker]
    /\ World.clock w' = World.clock w.
Proof. exact (ticker_poll_run env w). Qed.

(** A ticker answer that is an object of objects.  Every entry comes back
    in the order of the answer, with its market name under [market] and
    the formatted time of the call under [time].  The list is returned when
    nothing is stored; otherwise it is stored as one batch in [tickers]
    and the call returns [None]. *)
Theorem ticker_poll_stamps_every_market
    (env : World.environment) (w : World.world) (d : list (string * Py.pyval))
    (Hanswer : World.http env (length (World.requests w)) World.ReturnTicker
               = Some (Py.PDict d))
    (Hdicts : forall k, In k (map fst d) -> Spec.has_dict d k = true)
    (Hsink : Spec.sink_accepts env) :
  let batch :=
    Py.PList (map (Runs.stamped_ticker
                     (World.strftime env "%Y-%m-%d %H:%M:%S" (World.clock w)) d)
                (map fst d)) in
  (exists w',
      ScrapingBot.get_new_ticker_data env false w = (Py.Ok batch, w')
      /\ World.stored w' = World.stored w)
  /\ (exists w',
        ScrapingBot.get_new_ticker_data env true w = (Py.Ok Py.PNone, w')
        /\ World.stored w' = World.stored w ++ [("tickers", batch)]).
Proof.
  intros batch. subst batch.
  split.
  - unfold ScrapingBot.get_new_ticker_data, Exec.call.
    unfold Exec.bind at 1. unfold Exec.in_world at 1, Exec.log_info at 1, Exec.modify at 1.
    cbn [World.vars World.world_of].
    unfold Exec.bind at 1. unfold Exec.try_except.
    unfold ScrapingBot.fetch_tickers.
    unfold Exec.bind at 1. unfold Exec.in_world at 1.
    unfold Wrapper.return_ticker, Wrapper.api_query.
    unfold Exec.bind at 1. unfold Exec.gets at 1.
    unfold Exec.bind at 1. unfold Exec.log_info at 1, Exec.modify at 1.
    unfold Exec.bind at 1. unfold Exec.modify at 1.
    cbn [World.vars World.world_of World.requests World.add_log World.add_request].
    rewrite Hanswer. unfold Exec.ret at 1.
    unfold Exec.bind at 1. unfold Exec.assign at 1.
    unfold Exec.bind at 1. unfold Exec.assign at 1. cbn [World.vars World.world_of].
    unfold Exec.bind at 1. unfold Exec.lift at 1. cbn [Py.py_iter].
    rewrite <- (map_map fst Py.PStr).
    unfold Exec.bind at 1.
    match goal with
    | |- context [Exec.for_each (map Py.PStr (map fst d)) _ ?s0] =>
        rewrite (tickers_loop_answered env d (map fst d) s0 [] Hdicts eq_refl)
    end.
    cbn. eexists. split; reflexivity.
  - unfold ScrapingBot.get_new_ticker_data, Exec.call.
    unfold Exec.bind at 1. unfold Exec.in_world at 1, Exec.log_info at 1, Exec.modify at 1.
    cbn [World.vars World.world_of].
    unfold Exec.bind at 1. unfold Exec.try_except.
    unfold ScrapingBot.fetch_tickers.
    unfold Exec.bind at 1. unfold Exec.in_world at 1.
    unfold Wrapper.return_ticker, Wrapper.api_query.
    unfold Exec.bind at 1. unfold Exec.gets at 1.
    unfold Exec.bind at 1. unfold Exec.log_info at 1, Exec.modify at 1.
    unfold Exec.bind at 1. unfold Exec.modify at 1.
    cbn [World.vars World.world_of World.requests World.add_log World.add_request].
    rewrite Hanswer. unfold Exec.ret at 1.
    unfold Exec.bind at 1. unfold Exec.assign at 1.
    unfold Exec.bind at 1. unfold Exec.assign at 1. cbn [World.vars World.world_of].
    unfold Exec.bind at 1. unfold Exec.lift at 1. cbn [Py.py_iter].
    rewrite <- (map_map fst Py.PStr).
    unfold Exec.bind at 1.
    match goal with
    | |- context [Exec.for_each (map Py.PStr (map fst d)) _ ?s0] =>
        rewrite (tickers_loop_answered env d (map fst d) s0 [] Hdicts eq_refl)
    end.
    unfold Exec.bind, ScrapingBot.read_tickers, Exec.local, Exec.ret, Exec.in_world,
      Exec.insert_many.
    cbn. rewrite Hsink. cbn. eexists. split; reflexivity.
Qed.

Lemma ticker_poll_stamps_every_market_witness :
  exists w',
    ScrapingBot.get_new_ticker_data Samples.ticker_exchange false (Samples.fresh 0 [])
    = (Py.Ok (Py.PList
                [Py.PDict [("last", Py.PStr "0.0251"); ("market", Py.PStr "BTC_LTC");
                           ("time", Py.PStr "1970-01-01 00:00:00")];
                 Py.PDict [("last", Py.PStr "0.00005730"); ("market", Py.PStr "BTC_NXT");
                           ("time", Py.PStr "1970-01-01 00:00:00")]]), w')
    /\ World.stored w' = [].
Proof.
  exact (proj1 (ticker_poll_stamps_every_market Samples.ticker_exchange
                  (Samples.fresh 0 []) Samples.ticker eq_refl
                  ltac:(intros k Hk; vm_compute in Hk;
                        repeat (destruct Hk as [<-|Hk]; [reflexivity|]);
                        contradiction)
                  ltac:(intros n c docs; reflexivity))).
Defined.

(** The poll of [poloniex_scraping_bot.main] never stops.  No answer of
    the exchange and no failure of the database ends it: every round
    prints the time, sends one ticker request and sleeps sixty seconds, so
    after any number of rounds the loop is still running, that many
    requests were sent and the clock stands that many minutes later. *)
Theorem ticker_poll_loop_never_stops
    (env : World.environment) (fuel : nat) (w : World.world) :
  exists w',
    ScrapingBot.main fuel env w = (Py.OutOfFuel, w')
    /\ World.requests w' = World.requests w ++ repeat World.ReturnTicker fuel
    /\ World.clock w' = World.clock w + Z.of_nat fuel * (60 * 1000000).
Proof.
  unfold ScrapingBot.main. revert w.
  induction fuel as [|fuel IH]; intros w.
  - exists w. simpl. rewrite app_nil_r. repeat split. lia.
  - cbn [Exec.while].
    unfold Exec.bind at 1. unfold Exec.now at 1, Exec.gets at 1.
    unfold Exec.bind at 1. unfold Exec.print at 1, Exec.modify at 1.
    unfold Exec.bind at 1.
    match goal with
    | |- context [ScrapingBot.get_new_ticker_data env true ?w0] =>
        destruct (ticker_poll_run env w0) as (w1 & Hrun & Hreq & Hclk)
    end.
    rewrite Hrun. unfold Exec.sleep, Exec.modify.
    destruct (IH (World.set_clock (World.clock w1 + 60 * 1000000) w1))
      as (w' & Hloop & Hreq' & Hclk').
    exists w'. split; [exact Hloop|]. split.
    + rewrite Hreq'. simpl World.requests. rewrite Hreq. simpl World.requests.
      rewrite <- app_assoc. reflexivity.
    + rewrite Hclk'. simpl World.clock. rewrite Hclk. simpl World.clock. lia.
Qed.

Section TickerPartial.
Import Py World Exec Wrapper ScrapingBot Spec Runs.

Lemma for_each_app {S A : Type} (l1 l2 : list A) (body : A -> M S unit) (s : S) :
  for_each (l1 ++ l2) body s = bind (for_each l1 body) (fun _ => for_each l2 body) s.
Proof.
  revert s. induction l1 as [|x l1 IH]; intros s; simpl.
  - reflexivity.
  - unfold bind. destruct (body x s) as [[u|e|] s1]; [|reflexivity..].
    rewrite IH. reflexivity.
Qed.

End TickerPartial.

(** A ticker answer with an entry that is not an object.  The loop of
    [get_new_ticker_data] stops at the first such entry with a [TypeError]
    that is only logged: the call made with [insert_to_database=False]
    returns the entries stamped so far and nothing of the rest, and the
    call with the default argument stores nothing at all. *)
Theorem ticker_poll_stops_at_first_bad_entry
    (env : World.environment) (w : World.world) (d : list (string * Py.pyval))
    (pre post : list string) (k : string) (v : Py.pyval)
    (Hanswer : World.http env (length (World.requests w)) World.ReturnTicker
               = Some (Py.PDict d))
    (Hkeys : map fst d = pre ++ k :: post)
    (Hpre : forall k', In k' pre -> Spec.has_dict d k' = true)
    (Hbad : Py.dict_get k d = Some v)
    (Hnot : Py.is_dict v = false) :
  (exists w',
      ScrapingBot.get_new_ticker_data env false w
      = (Py.Ok (Py.PList (map (Runs.stamped_ticker
                                 (World.strftime env "%Y-%m-%d %H:%M:%S" (World.clock w))
                                 d) pre)), w')
      /\ last (World.logs w')
         = Some (World.LogException ScrapingBot.logger "Public ticker data method error"
                   (Some Py.TypeError)))
  /\ (exists w',
        ScrapingBot.get_new_ticker_data env true w = (Py.Ok Py.PNone, w')
        /\ World.stored w' = World.stored w).
Proof.
  assert (Hitem : Py.py_setitem "market" (Py.PStr k) v = Py.Raise Py.TypeError)
    by (destruct v; try reflexivity; discriminate).
  split.
  - unfold ScrapingBot.get_new_ticker_data, Exec.call.
    unfold Exec.bind at 1. unfold Exec.in_world at 1, Exec.log_info at 1, Exec.modify at 1.
    cbn [World.vars World.world_of].
    unfold Exec.bind at 1. unfold Exec.try_except.
    unfold ScrapingBot.fetch_tickers.
    unfold Exec.bind at 1. unfold Exec.in_world at 1.
    unfold Wrapper.return_ticker, Wrapper.api_query.
    unfold Exec.bind at 1. unfold Exec.gets at 1.
    unfold Exec.bind at 1. unfold Exec.log_info at 1, Exec.modify at 1.
    unfold Exec.bind at 1. unfold Exec.modify at 1.
    cbn [World.vars World.world_of World.requests World.add_log World.add_request].
    rewrite Hanswer. unfold Exec.ret at 1.
    unfold Exec.bind at 1. unfold Exec.assign at 1.
    unfold Exec.bind at 1. unfold Exec.assign at 1. cbn [World.vars World.world_of].
    unfold Exec.bind at 1. unfold Exec.lift at 1. cbn [Py.py_iter].
    rewrite <- (map_map fst Py.PStr), Hkeys, map_app.
    unfold Exec.bind at 1. rewrite for_each_app.
    unfold Exec.bind at 1.
    match goal with
    | |- context [Exec.for_each (map Py.PStr pre) _ ?s0] =>
        rewrite (tickers_loop_answered env d pre s0 [] Hpre eq_refl)
    end.
    cbn [map Exec.for_each]. unfold Exec.bind at 1.
    unfold Exec.bind at 1. unfold Exec.lift at 1. cbn [Py.py_getitem]. rewrite Hbad.
    unfold Exec.bind at 1. unfold Exec.lift at 1. rewrite Hitem.
    cbn. eexists. split; [reflexivity|].
    cbn. rewrite last_snoc. reflexivity.
  - unfold ScrapingBot.get_new_ticker_data, Exec.call.
    unfold Exec.bind at 1. unfold Exec.in_world at 1, Exec.log_info at 1, Exec.modify at 1.
    cbn [World.vars World.world_of].
    unfold Exec.bind at 1. unfold Exec.try_except.
    unfold ScrapingBot.fetch_tickers.
    unfold Exec.bind at 1. unfold Exec.in_world at 1.
    unfold Wrapper.return_ticker, Wrapper.api_query.
    unfold Exec.bind at 1. unfold Exec.gets at 1.
    unfold Exec.bind at 1. unfold Exec.log_info at 1, Exec.modify at 1.
    unfold Exec.bind at 1. unfold Exec.modify at 1.
    cbn [World.vars World.world_of World.requests World.add_log World.add_request].
    rewrite Hanswer. unfold Exec.ret at 1.
    unfold Exec.bind at 1. unfold Exec.assign at 1.
    unfold Exec.bind at 1. unfold Exec.assign at 1. cbn [World.vars World.world_of].
    unfold Exec.bind at 1. unfold Exec.lift at 1. cbn [Py.py_iter].
    rewrite <- (map_map fst Py.PStr), Hkeys, map_app.
    unfold Exec.bind at 1. rewrite for_each_app.
    unfold Exec.bind at 1.
    match goal with
    | |- context [Exec.for_each (map Py.PStr pre) _ ?s0] =>
        rewrite (tickers_loop_answered env d pre s0 [] Hpre eq_refl)
    end.
    cbn [map Exec.for_each]. unfold Exec.bind at 1.
    unfold Exec.bind at 1. unfold Exec.lift at 1. cbn [Py.py_getitem]. rewrite Hbad.
    unfold Exec.bind at 1. unfold Exec.lift at 1. rewrite Hitem.
    cbn. eexists. split; reflexivity.
Qed.

Lemma ticker_poll_stops_at_first_bad_entry_witness :
  exists w',
    ScrapingBot.get_new_ticker_data Samples.quiet_exchange false (Samples.fresh 0 [])
    = (Py.Ok (Py.PList
                (map (Runs.stamped_ticker "" Samples.volumes)
                   ["BTC_LTC"; "BTC_NXT"; "USDT_BTC"])), w')
    /\ last (World.logs w')
       = Some (World.LogException ScrapingBot.logger "Public ticker data method error"
                 (Some Py.TypeError)).
Proof.
  exact (proj1 (ticker_poll_stops_at_first_bad_entry Samples.quiet_exchange
                  (Samples.fresh 0 []) Samples.volumes
                  ["BTC_LTC"; "BTC_NXT"; "USDT_BTC"] ["totalLTC"] "totalBTC"
                  (Py.PStr "81.89657704") eq_refl eq_refl
                  ltac:(intros k Hk; simpl in Hk;
                        repeat (destruct Hk as [<-|Hk]; [reflexivity|]);
                        contradiction)
                  eq_refl eq_refl)).
Defined.

(** ** What the records of a result look like *)

Section Preservation.
Import Py World Exec.

Lemma bind_preserves {S A B : Type} (I : S -> Prop) (c : M S A) (k : A -> M S B) :
  (forall s, I s -> I (snd (c s))) ->
  (forall a s, I s -> I (snd (k a s))) ->
  forall s, I s -> I (snd (bind c k s)).
Proof.
  intros Hc Hk s Hs. unfold bind. specialize (Hc s Hs).
  destruct (c s) as [[a|e|] s1]; simpl in *; auto.
Qed.

Lemma try_except_preserves {S A : Type} (I : S -> Prop) (body : M S A)
    (handler : exn -> M S A) :
  (forall s, I s -> I (snd (body s))) ->
  (forall e s, I s -> I (snd (handler e s))) ->
  forall s, I s -> I (snd (try_except body handler s)).
Proof.
  intros Hb Hh s Hs. unfold try_except. specialize (Hb s Hs).
  destruct (body s) as [[a|e|] s1]; simpl in *; auto.
Qed.

Lemma while_preserves {S : Type} (I : S -> Prop) (cond : S -> bool) (body : M S unit) :
  (forall s, I s -> I (snd (body s))) ->
  forall fuel s, I s -> I (snd (while fuel cond body s)).
Proof.
  intros Hb. induction fuel as [|fuel IH]; intros s Hs; simpl.
  - destruct (cond s); exact Hs.
  - destruct (cond s); [|exact Hs]. specialize (Hb s Hs).
    destruct (body s) as [[a|e|] s1]; simpl in *; auto.
Qed.

Lemma for_each_preserves {S A : Type} (I : S -> Prop) (items : list A)
    (body : A -> M S unit) :
  (forall x s, In x items -> I s -> I (snd (body x s))) ->
  forall s, I s -> I (snd (for_each items body s)).
Proof.
  induction items as [|x items IH]; intros Hb s Hs; simpl.
  - exact Hs.
  - apply bind_preserves; auto.
    + intros s0 Hs0. apply Hb; [now left|exact Hs0].
    + intros _ s0 Hs0. apply IH; [|exact Hs0].
      intros y s1 Hy. apply Hb. now right.
Qed.

End Preservation.

Section TradeRecords.
Import Py World Exec Wrapper Bot Spec Runs.

Variable env : environment.
Variable insert_to_database : bool.
Variable P : pyval -> Prop.

Lemma add_cases (t d : Z) :
  Datetime.add t d = Ok (t + d) \/ Datetime.add t d = Raise OverflowError.
Proof. unfold Datetime.add. destruct (_ && _); auto. Qed.

Lemma first_window_history (start_date : Z) (s : frame TradeVars.t) :
  TradeVars.trade_history (vars (snd (first_window start_date s)))
  = TradeVars.trade_history (vars s).
Proof.
  unfold first_window, bind, assign, lift. simpl.
  destruct (add_cases start_date Datetime.one_day) as [-> | ->]; [|reflexivity].
  destruct (add_cases (start_date + Datetime.one_day) (- Datetime.one_microsecond))
    as [-> | ->]; reflexivity.
Qed.





End TradeRecords.

Section ChartRecords.
Import Py World Exec Wrapper Bot Spec Runs.

Variable env : environment.
Variable period : Z.
Variable insert_to_database : bool.
Variable P : pyval -> Prop.







End ChartRecords.





(** ** What is stored *)

Section TradeBatches.
Import Py World Exec Wrapper Bot Spec Runs.

Variable env : environment.
Hypothesis Hanswers : trades_succeed env.
Hypothesis Hsink : sink_accepts env.
Variable stored0 : list (string * pyval).
Variable sent0 : nat.
Variable Q : pyval -> Prop.

Lemma first_window_world (start_date : Z) (s : frame TradeVars.t) :
  world_of (snd (first_window start_date s)) = world_of s.
Proof.
  unfold first_window, bind, assign, lift. simpl.
  destruct (add_cases start_date Datetime.one_day) as [-> | ->]; [|reflexivity].
  destruct (add_cases (start_date + Datetime.one_day) (- Datetime.one_microsecond))
    as [-> | ->]; reflexivity.
Qed.

Lemma advance_one_day_world (s : frame TradeVars.t) :
  world_of (snd (advance_one_day s)) = world_of s.
Proof.
  unfold advance_one_day, bind, assign, lift, local. simpl.
  destruct (add_cases (TradeVars.current_date_start (vars s)) Datetime.one_day)
    as [-> | ->]; [|reflexivity]. simpl.
  destruct (add_cases (TradeVars.current_date_end (vars s)) Datetime.one_day)
    as [-> | ->]; reflexivity.
Qed.

Lemma stored_since_next (collection : string) (w w' : world) (items : list pyval) :
  stored_since stored0 sent0 collection Q w ->
  stored w' = stored w ++ [(collection, PList items)] ->
  length (requests w') = S (length (requests w)) ->
  Forall Q items ->
  stored_since stored0 sent0 collection Q w'.
Proof.
  intros (batches & Hst & Hlen & Hall) Hst' Hlen' Hitems.
  exists (batches ++ [(collection, PList items)]).
  split; [rewrite Hst', Hst, <- app_assoc; reflexivity|].
  split; [rewrite Hlen', Hlen, length_app; simpl; lia|].
  apply Forall_app. split; [exact Hall|].
  constructor; [|constructor]. simpl. eauto.
Qed.

Lemma stored_since_same (collection : string) (w w' : world) :
  stored_since stored0 sent0 collection Q w ->
  stored w' = stored w -> requests w' = requests w ->
  stored_since stored0 sent0 collection Q w'.
Proof.
  intros (batches & Hst & Hlen & Hall) Hst' Hreq'.
  exists batches. rewrite Hst', Hreq'. auto.
Qed.

(** The [try] with an exchange that answers and a database that accepts:
    one request, one batch of tagged records. *)
Lemma fetch_trades_batch (market : pyval) (s : frame TradeVars.t) :
  (forall x, tagged market x -> Q x) ->
  stored_since stored0 sent0 "trade_history" Q (world_of s) ->
  stored_since stored0 sent0 "trade_history" Q
    (world_of (snd (fetch_trades env market true s))).
Proof.
  intros HQ Hs. unfold fetch_trades.
  unfold bind at 1. unfold local at 1.
  unfold bind at 1. unfold in_world at 1.
  destruct (trade_history_call env market (TradeVars.current_date_start (vars s))
              (TradeVars.current_date_end (vars s)) (world_of s))
    as (r & w1 & Hc & Hreq & _ & Hst & Hr).
  unfold id. rewrite Hc. clear Hc.
  destruct (Hanswers (length (requests (world_of s))) market
              (TradeVars.current_date_start (vars s))
              (TradeVars.current_date_end (vars s))) as [rows Hh].
  rewrite Hh in Hr. subst r.
  unfold bind at 1. unfold lift at 1.
  rewrite (set_market_dicts market rows).
  unfold bind at 1. unfold in_world at 1, insert_many. cbn [vars world_of].
  rewrite Hsink. rewrite advance_one_day_world. cbn [world_of].
  apply (stored_since_next "trade_history" (world_of s) _
           (map PDict (map (dict_set "market" market) rows))).
  - exact Hs.
  - simpl. rewrite Hst. reflexivity.
  - simpl. rewrite Hreq, length_app. simpl. lia.
  - apply List.Forall_forall. intros x Hx.
    apply in_map_iff in Hx as (d' & <- & Hd').
    apply in_map_iff in Hd' as (d0 & <- & _).
    apply HQ. exists (dict_set "market" market d0). split; [reflexivity|].
    rewrite dict_get_set. now rewrite String.eqb_refl.
Qed.

Lemma trade_window_batch (market : pyval) (s : frame TradeVars.t) :
  (forall x, tagged market x -> Q x) ->
  stored_since stored0 sent0 "trade_history" Q (world_of s) ->
  stored_since stored0 sent0 "trade_history" Q
    (world_of (snd (trade_window env market true s))).
Proof.
  intros HQ Hs. rewrite trade_window_unfold.
  destruct (trade_head_world env market s) as (Hrq & _ & Hst).
  assert (Hh : stored_since stored0 sent0 "trade_history" Q
                 (world_of (trade_head env market s)))
    by (apply (stored_since_same _ (world_of s)); assumption).
  revert Hh. generalize (trade_head env market s). intros s1 Hs1.
  unfold try_except.
  pose proof (fetch_trades_batch market s1 HQ Hs1) as Hb.
  destruct (fetch_trades env market true s1) as [[u|e|] s2]; simpl in Hb |- *;
    exact Hb.
Qed.

Lemma trade_market_loop_batch (fuel : nat) (start_date : Z) (market : pyval)
    (s : frame TradeVars.t) :
  (forall x, tagged market x -> Q x) ->
  stored_since stored0 sent0 "trade_history" Q (world_of s) ->
  stored_since stored0 sent0 "trade_history" Q
    (world_of (snd (trade_market_loop fuel env start_date true market s))).
Proof.
  intros HQ. unfold trade_market_loop.
  apply (bind_preserves
           (fun s => stored_since stored0 sent0 "trade_history" Q (world_of s))).
  - intros s0 Hs0. now rewrite first_window_world.
  - intros _ s0 Hs0.
    apply (while_preserves
             (fun s => stored_since stored0 sent0 "trade_history" Q (world_of s)));
      [|exact Hs0].
    intros s1 Hs1. now apply trade_window_batch.
Qed.

End TradeBatches.

Section RequestCount.
Import Py World Exec Wrapper Bot Spec Runs.

Lemma day_windows_length (a b : Z) : length (day_windows a b) = window_count a b.
Proof. unfold day_windows. now rewrite length_map, length_seq. Qed.

Lemma trade_requests_count (start_date end_ : Z) (names : list string) :
  length (flat_map (fun name => trade_requests start_date end_ (PStr name)) names)
  = (length names * window_count start_date end_)%nat.
Proof.
  induction names as [|name names IH]; simpl; [reflexivity|].
  rewrite length_app, IH. unfold trade_requests.
  now rewrite length_map, day_windows_length.
Qed.

Lemma chart_requests_count (start_date end_ period : Z) (names : list string) :
  length (flat_map (fun name => chart_requests start_date end_ period (PStr name)) names)
  = (length names * window_count start_date end_)%nat.
Proof.
  induction names as [|name names IH]; simpl; [reflexivity|].
  rewrite length_app, IH. unfold chart_requests.
  now rewrite length_map, day_windows_length.
Qed.

End RequestCount.

(** What [get_trade_history_between_dates] stores.  With an exchange that
    answers every request with a list of objects and a database that
    accepts every batch, the call made with [insert_to_database=True]
    returns [None] and leaves in [trade_history] one batch for every day
    window of every market, each a list of records that carry one of the
    market names asked for. *)
Theorem trade_sync_stores_a_batch_per_window
    (env : World.environment) (start_date end_date : Z) (names : list string)
    (w : World.world) (fuel : nat)
    (Hanswers : Spec.trades_succeed env)
    (Hsink : Spec.sink_accepts env)
    (Hmin : Datetime.dt_min <= start_date)
    (Horder : start_date < end_date)
    (Hmax : Spec.in_range (end_date + Datetime.one_day))
    (Hfuel : (Spec.window_count start_date end_date <= fuel)%nat) :
  exists w' batches,
    Bot.get_trade_history_between_dates fuel env start_date end_date
      (Py.PList (map Py.PStr names)) true w = (Py.Ok Py.PNone, w')
    /\ World.stored w' = World.stored w ++ batches
    /\ length batches = (length names * Spec.window_count start_date end_date)%nat
    /\ Forall (fun b =>
                 fst b = "trade_history"
                 /\ exists items,
                      snd b = Py.PList items
                      /\ Forall (fun item => exists name,
                                   In name names /\ Runs.tagged (Py.PStr name) item)
                           items) batches.
Proof.
  unfold Bot.get_trade_history_between_dates.
  rewrite (bind_ok _ _ w w (Py.PList (map Py.PStr names))) by reflexivity.
  destruct (log_call_run env "get_trade_history_between_dates(%s, %s, %s)"
              start_date end_date [] names w) as (w1 & Hlog & Hreq & _ & Hst).
  rewrite (bind_ok _ _ _ _ _ Hlog).
  unfold Exec.call.
  set (s0 := World.Frame
               {| Bot.TradeVars.end_date := end_date;
                  Bot.TradeVars.current_date_start := start_date;
                  Bot.TradeVars.current_date_end := start_date;
                  Bot.TradeVars.trade_history := [] |} w1).
  destruct (trade_all_markets_answered env true Hanswers ltac:(intros _; exact Hsink)
              start_date end_date fuel names Hmin Horder Hmax Hfuel s0 eq_refl)
    as (s' & Hrun & Hreq' & _).
  pose proof (for_each_preserves
                (fun s => Runs.stored_since (World.stored w) (length (World.requests w))
                            "trade_history"
                            (fun item => exists name, In name names
                                         /\ Runs.tagged (Py.PStr name) item)
                            (World.world_of s))
                (map Py.PStr names)
                (Bot.trade_market_loop fuel env start_date true)) as Hkeep.
  specialize (Hkeep ltac:(
    intros x s Hx Hs; apply in_map_iff in Hx as (name & <- & Hin);
    apply trade_market_loop_batch; [exact Hanswers|exact Hsink| |exact Hs];
    intros item Hitem; exists name; auto) s0).
  rewrite Hrun in Hkeep. simpl in Hkeep.
  destruct Hkeep as (batches & Hst' & Hlen & Hall).
  { exists []. rewrite app_nil_r. simpl. rewrite Hst, Hreq. repeat split.
    - lia.
    - constructor. }
  rewrite (bind_ok _ _ _ _ _ Hrun). simpl.
  exists (World.world_of s'), batches.
  split; [reflexivity|]. split; [exact Hst'|]. split; [|exact Hall].
  rewrite Hreq' in Hlen. simpl in Hlen. rewrite Hreq in Hlen.
  rewrite length_app, trade_requests_count in Hlen. lia.
Qed.

Lemma trade_sync_stores_a_batch_per_window_witness :
  exists w' batches,
    Bot.get_trade_history_between_dates 2 Samples.quiet_exchange
      (Datetime.datetime 2017 1 1 0 0 0 0) (Datetime.datetime 2017 1 3 0 0 0 0)
      (Py.PList [Py.PStr "BTC_ETH"]) true (Samples.fresh 0 []) = (Py.Ok Py.PNone, w')
    /\ World.stored w' = batches
    /\ length batches = 2%nat.
Proof.
  assert (Hanswers : Spec.trades_succeed Samples.quiet_exchange)
    by (intros n market a b; exists []; reflexivity).
  destruct (trade_sync_stores_a_batch_per_window Samples.quiet_exchange
              (Datetime.datetime 2017 1 1 0 0 0 0) (Datetime.datetime 2017 1 3 0 0 0 0)
              ["BTC_ETH"] (Samples.fresh 0 []) 2 Hanswers
              ltac:(intros n c docs; reflexivity)
              ltac:(vm_compute; congruence) ltac:(reflexivity)
              ltac:(split; vm_compute; congruence)
              ltac:(vm_compute; repeat constructor))
    as (w' & batches & Hrun & Hst & Hlen & _).
  exists w', batches. split; [exact Hrun|]. split; [exact Hst|exact Hlen].
Defined.

Section ChartBatches.
Import Py World Exec Wrapper Bot Spec Runs.

Variable env : environment.
Variable period : Z.
Hypothesis Hanswers : candles_succeed env.
Hypothesis Hsink : sink_accepts env.
Variable stored0 : list (string * pyval).
Variable sent0 : nat.
Variable Q : pyval -> Prop.

Lemma chart_first_window_world (start_date : Z) (s : frame ChartVars.t) :
  world_of (snd (chart_first_window start_date s)) = world_of s.
Proof.
  unfold chart_first_window, bind, assign, lift. simpl.
  destruct (add_cases start_date Datetime.one_day) as [-> | ->]; [|reflexivity].
  destruct (add_cases (start_date + Datetime.one_day) (- Datetime.one_microsecond))
    as [-> | ->]; reflexivity.
Qed.

Lemma chart_advance_one_day_world (s : frame ChartVars.t) :
  world_of (snd (chart_advance_one_day s)) = world_of s.
Proof.
  unfold chart_advance_one_day, bind, assign, lift, local. simpl.
  destruct (add_cases (ChartVars.current_date_start (vars s)) Datetime.one_day)
    as [-> | ->]; [|reflexivity]. simpl.
  destruct (add_cases (ChartVars.current_date_end (vars s)) Datetime.one_day)
    as [-> | ->]; reflexivity.
Qed.

Lemma force_advance_world (s : frame ChartVars.t) :
  world_of (snd (force_advance s)) = world_of s.
Proof.
  rewrite force_advance_run. destruct (fifth_attempt (vars s)); [|reflexivity].
  apply chart_advance_one_day_world.
Qed.

Lemma chart_head_stored (market : pyval) (s : frame ChartVars.t) :
  stored (world_of (chart_head env market period s)) = stored (world_of s).
Proof.
  unfold chart_head, chart_clamp_window, chart_announce_window, count_attempt, bind,
    assign, local, in_world, log_info, print, modify. simpl. auto.
Qed.

(** The [try] with an exchange that answers and a database that accepts:
    one request, one batch of normalized candles. *)
Lemma fetch_candles_batch (market : pyval) (s : frame ChartVars.t) :
  (forall x, normalized market x -> Q x) ->
  stored_since stored0 sent0 "chart_data" Q (world_of s) ->
  stored_since stored0 sent0 "chart_data" Q
    (world_of (snd (fetch_candles env market period true s))).
Proof.
  intros HQ Hs. unfold fetch_candles.
  unfold bind at 1. unfold local at 1.
  unfold bind at 1. unfold in_world at 1.
  destruct (chart_data_call env market period (ChartVars.current_date_start (vars s))
              (ChartVars.current_date_end (vars s)) (world_of s))
    as (r & w1 & Hc & Hreq & _ & Hr).
  assert (Hst : stored w1 = stored (world_of s)).
  { revert Hc. unfold return_chart_data, api_query, bind, gets, modify, log_info,
      log_exception, raise, ret. simpl.
    destruct (http env _ _); intros [= _ <-]; reflexivity. }
  unfold id. rewrite Hc. clear Hc.
  destruct (Hanswers (length (requests (world_of s))) market
              (ChartVars.current_date_start (vars s))
              (ChartVars.current_date_end (vars s)) period)
    as (items & items' & Hh & Hn).
  rewrite Hh in Hr. subst r.
  unfold bind at 1. unfold lift at 1.
  rewrite (normalize_list env market items items' Hn).
  unfold bind at 1. unfold in_world at 1, insert_many. cbn [vars world_of].
  rewrite Hsink. rewrite chart_advance_one_day_world. cbn [world_of].
  apply (stored_since_next stored0 sent0 Q "chart_data" (world_of s) _ items').
  - exact Hs.
  - simpl. rewrite Hst. reflexivity.
  - simpl. rewrite Hreq, length_app. simpl. lia.
  - eapply Forall_impl; [exact (normalize_each_normalized env market _ _ Hn)|exact HQ].
Qed.

Lemma chart_window_batch (market : pyval) (s : frame ChartVars.t) :
  (forall x, normalized market x -> Q x) ->
  stored_since stored0 sent0 "chart_data" Q (world_of s) ->
  stored_since stored0 sent0 "chart_data" Q
    (world_of (snd (chart_window env market period true s))).
Proof.
  intros HQ Hs. rewrite chart_window_unfold.
  destruct (chart_head_world env market period s) as (Hrq & _).
  pose proof (chart_head_stored market s) as Hst.
  assert (Hh : stored_since stored0 sent0 "chart_data" Q
                 (world_of (chart_head env market period s)))
    by (apply (stored_since_same stored0 sent0 Q _ (world_of s)); assumption).
  revert Hh. generalize (chart_head env market period s). intros s1 Hs1.
  apply (bind_preserves (fun s => stored_since stored0 sent0 "chart_data" Q (world_of s)));
    [|intros _ s0 Hs0; now rewrite force_advance_world|exact Hs1].
  clear s1 Hs1. intros s1 Hs1.
  unfold try_except.
  pose proof (fetch_candles_batch market s1 HQ Hs1) as Hb.
  destruct (fetch_candles env market period true s1) as [[u|e|] s2]; simpl in Hb |- *;
    exact Hb.
Qed.

Lemma chart_market_loop_batch (fuel : nat) (start_date : Z) (market : pyval)
    (s : frame ChartVars.t) :
  (forall x, normalized market x -> Q x) ->
  stored_since stored0 sent0 "chart_data" Q (world_of s) ->
  stored_since stored0 sent0 "chart_data" Q
    (world_of (snd (chart_market_loop fuel env start_date period true market s))).
Proof.
  intros HQ. unfold chart_market_loop.
  apply (bind_preserves
           (fun s => stored_since stored0 sent0 "chart_data" Q (world_of s))).
  - intros s0 Hs0. now rewrite chart_first_window_world.
  - intros _ s0 Hs0.
    apply (while_preserves
             (fun s => stored_since stored0 sent0 "chart_data" Q (world_of s)));
      [|exact Hs0].
    intros s1 Hs1. now apply chart_window_batch.
Qed.

End ChartBatches.

(** What [get_chart_data_between_dates] stores.  With an exchange that
    answers every request with candles that normalize and a database that
    accepts every batch, the call made with its default
    [insert_to_database=True] returns [None] and leaves in [chart_data]
    one batch for every day window of every market, each a list of
    normalized candles of one of the markets asked for. *)
Theorem chart_sync_stores_a_batch_per_window
    (env : World.environment) (start_date end_date period : Z) (names : list string)
    (w : World.world) (fuel : nat)
    (Hanswers : Spec.candles_succeed env)
    (Hsink : Spec.sink_accepts env)
    (Hmin : Datetime.dt_min <= start_date)
    (Horder : start_date < end_date)
    (Hmax : Spec.in_range (end_date + Datetime.one_day))
    (Hfuel : (Spec.window_count start_date end_date <= fuel)%nat) :
  exists w' batches,
    Bot.get_chart_data_between_dates fuel env start_date end_date period
      (Py.PList (map Py.PStr names)) true w = (Py.Ok Py.PNone, w')
    /\ World.stored w' = World.stored w ++ batches
    /\ length batches = (length names * Spec.window_count start_date end_date)%nat
    /\ Forall (fun b =>
                 fst b = "chart_data"
                 /\ exists items,
                      snd b = Py.PList items
                      /\ Forall (fun item => exists name,
                                   In name names /\ Runs.normalized (Py.PStr name) item)
                           items) batches.
Proof.
  unfold Bot.get_chart_data_between_dates.
  rewrite (bind_ok _ _ w w (Py.PList (map Py.PStr names))) by reflexivity.
  destruct (log_call_run env "get_chart_data_between_dates(%s, %s, %d, %s)"
              start_date end_date [Py.PInt period] names w)
    as (w1 & Hlog & Hreq & _ & Hst).
  rewrite (bind_ok _ _ _ _ _ Hlog).
  unfold Exec.call.
  set (s0 := World.Frame
               {| Bot.ChartVars.end_date := end_date;
                  Bot.ChartVars.current_date_start := start_date;
                  Bot.ChartVars.current_date_end := start_date;
                  Bot.ChartVars.atempt := ∅;
                  Bot.ChartVars.chart_data := [] |} w1).
  destruct (chart_all_markets_answered env period true Hanswers
              ltac:(intros _; exact Hsink)
              start_date end_date fuel names Hmin Horder Hmax Hfuel s0 eq_refl)
    as (s' & Hrun & Hreq' & _).
  pose proof (for_each_preserves
                (fun s => Runs.stored_since (World.stored w) (length (World.requests w))
                            "chart_data"
                            (fun item => exists name, In name names
                                         /\ Runs.normalized (Py.PStr name) item)
                            (World.world_of s))
                (map Py.PStr names)
                (Bot.chart_market_loop fuel env start_date period true)) as Hkeep.
  specialize (Hkeep ltac:(
    intros x s Hx Hs; apply in_map_iff in Hx as (name & <- & Hin);
    apply chart_market_loop_batch; [exact Hanswers|exact Hsink| |exact Hs];
    intros item Hitem; exists name; auto) s0).
  rewrite Hrun in Hkeep. simpl in Hkeep.
  destruct Hkeep as (batches & Hst' & Hlen & Hall).
  { exists []. rewrite app_nil_r. simpl. rewrite Hst, Hreq. repeat split.
    - lia.
    - constructor. }
  rewrite (bind_ok _ _ _ _ _ Hrun). simpl.
  exists (World.world_of s'), batches.
  split; [reflexivity|]. split; [exact Hst'|]. split; [|exact Hall].
  rewrite Hreq' in Hlen. simpl in Hlen. rewrite Hreq in Hlen.
  rewrite length_app, chart_requests_count in Hlen. lia.
Qed.

Lemma chart_sync_stores_a_batch_per_window_witness :
  exists w' batches,
    Bot.get_chart_data_between_dates 2 Samples.quiet_exchange
      (Datetime.datetime 2017 1 1 0 0 0 0) (Datetime.datetime 2017 1 3 0 0 0 0) 300
      (Py.PList [Py.PStr "BTC_ETH"]) true (Samples.fresh 0 []) = (Py.Ok Py.PNone, w')
    /\ World.stored w' = batches
    /\ length batches = 2%nat.
Proof.
  assert (Hanswers : Spec.candles_succeed Samples.quiet_exchange)
    by (intros n market a b period; exists [], []; split; reflexivity).
  destruct (chart_sync_stores_a_batch_per_window Samples.quiet_exchange
              (Datetime.datetime 2017 1 1 0 0 0 0) (Datetime.datetime 2017 1 3 0 0 0 0)
              300 ["BTC_ETH"] (Samples.fresh 0 []) 2 Hanswers
              ltac:(intros n c docs; reflexivity)
              ltac:(vm_compute; congruence) ltac:(reflexivity)
              ltac:(split; vm_compute; congruence)
              ltac:(vm_compute; repeat constructor))
    as (w' & batches & Hrun & Hst & Hlen & _).
  exists w', batches. split; [exact Hrun|]. split; [exact Hst|exact Hlen].
Defined.

(** ** The requests of the trade loop, whatever the exchange does *)

Section TradeSafety.
Import Py World Exec Wrapper Bot Spec Runs.

Variable env : environment.
Variable insert_to_database : bool.
Variable start_date end_ : Z.
Hypothesis Hmin : Datetime.dt_min <= start_date.
Hypothesis Hmax : in_range (end_ + Datetime.one_day).
Variable sent0 : list request.
Variable Q : request -> Prop.

Lemma while_preserves_when {S : Type} (I : S -> Prop) (cond : S -> bool)
    (body : M S unit) :
  (forall s, cond s = true -> I s -> I (snd (body s))) ->
  forall fuel s, I s -> I (snd (while fuel cond body s)).
Proof.
  intros Hb. induction fuel as [|fuel IH]; intros s Hs; simpl.
  - destruct (cond s); exact Hs.
  - destruct (cond s) eqn:Hc; [|exact Hs]. specialize (Hb s Hc Hs).
    destruct (body s) as [[a|e|] s1]; simpl in *; auto.
Qed.

Lemma day_window_member (k : nat) :
  start_date + Z.of_nat k * Datetime.one_day < end_ ->
  In (start_date + Z.of_nat k * Datetime.one_day,
      Z.min (start_date + Z.of_nat k * Datetime.one_day + Datetime.one_day
             - Datetime.one_microsecond) end_)
    (day_windows start_date end_).
Proof.
  intros Hlt.
  assert (Hl : day_windows start_date end_ !! k
               = Some (window_at start_date end_ (Z.of_nat k)))
    by (apply day_windows_lookup; auto).
  apply list_elem_of_lookup_2 in Hl. apply list_elem_of_In in Hl.
  unfold window_at in Hl.
  replace (start_date + (Z.of_nat k + 1) * Datetime.one_day - Datetime.one_microsecond)
    with (start_date + Z.of_nat k * Datetime.one_day + Datetime.one_day
          - Datetime.one_microsecond) in Hl by lia.
  exact Hl.
Qed.

(** One round keeps the window on the grid and sends a request for it. *)
Lemma trade_window_safe (market : pyval) (s : frame TradeVars.t) :
  (forall a b, In (a, b) (day_windows start_date end_) ->
               Q (ReturnTradeHistory market a b)) ->
  trade_loop_cond s = true ->
  trade_invariant start_date end_ s /\ sent_since sent0 Q (world_of s) ->
  trade_invariant start_date end_ (snd (trade_window env market insert_to_database s))
  /\ sent_since sent0 Q (world_of (snd (trade_window env market insert_to_database s))).
Proof.
  intros HQ Hcond ((Hend & (k & Hk) & Hcde) & (l & Hl & Hall)).
  unfold trade_loop_cond in Hcond. rewrite Hend in Hcond. apply Z.ltb_lt in Hcond.
  specialize (Hcde Hcond).
  assert (Hv := trade_head_vars env market s).
  destruct (trade_head_world env market s) as (Hrq & _ & _).
  rewrite trade_window_unfold. unfold try_except.
  destruct (fetch_trades env market insert_to_database (trade_head env market s))
    as [o s2] eqn:Hf.
  destruct (fetch_trades_cases env market insert_to_database _ _ _
              ltac:(rewrite Hv; simpl; unfold in_range, Datetime.one_day in *; lia)
              ltac:(rewrite Hv; simpl; rewrite Hend, Hcde;
                    unfold in_range, Datetime.one_day, Datetime.one_microsecond in *; lia)
              Hf)
    as (Hreq & _ & Hcase).
  rewrite Hrq, Hv in Hreq. unfold trade_request in Hreq. simpl in Hreq.
  rewrite Hend, Hcde in Hreq.
  assert (Hsent : sent_since sent0 Q (world_of s2)).
  { exists (l ++ [ReturnTradeHistory market (TradeVars.current_date_start (vars s))
                    (Z.min (TradeVars.current_date_start (vars s) + Datetime.one_day
                            - Datetime.one_microsecond) end_)]).
    split; [rewrite Hreq, Hl, <- app_assoc; reflexivity|].
    apply Forall_app. split; [exact Hall|]. constructor; [|constructor].
    apply HQ. rewrite Hk. apply day_window_member. rewrite <- Hk. exact Hcond. }
  destruct Hcase as [(e & -> & Hvars)|(-> & items & _ & Hvars)].
  - simpl. split; [|exact Hsent].
    unfold trade_invariant. cbn zeta. rewrite Hvars, Hv. simpl.
    split; [exact Hend|]. split; [eauto|]. intros _. rewrite Hend. lia.
  - simpl. split; [|exact Hsent].
    unfold trade_invariant. cbn zeta. rewrite Hvars, Hv. simpl.
    split; [exact Hend|]. split.
    + exists (S k). rewrite Hk. lia.
    + rewrite Hend. unfold Datetime.one_day, Datetime.one_microsecond in *. lia.
Qed.

Lemma trade_market_loop_safe (fuel : nat) (market : pyval) (s : frame TradeVars.t) :
  (forall a b, In (a, b) (day_windows start_date end_) ->
               Q (ReturnTradeHistory market a b)) ->
  TradeVars.end_date (vars s) = end_ /\ sent_since sent0 Q (world_of s) ->
  TradeVars.end_date
    (vars (snd (trade_market_loop fuel env start_date insert_to_database market s)))
  = end_
  /\ sent_since sent0 Q
       (world_of (snd (trade_market_loop fuel env start_date insert_to_database
                         market s))).
Proof.
  intros HQ (Hend & Hsent). unfold trade_market_loop, bind.
  destruct (Z.lt_ge_cases start_date end_) as [Hlt|Hge].
  - rewrite first_window_run
      by (unfold in_range, Datetime.one_day, Datetime.one_microsecond in *; lia).
    pose proof (while_preserves_when
                  (fun s => trade_invariant start_date end_ s
                            /\ sent_since sent0 Q (world_of s))
                  trade_loop_cond (trade_window env market insert_to_database)
                  ltac:(intros s0 Hc Hs0; now apply trade_window_safe) fuel) as Hloop.
    match goal with
    | |- context [while fuel _ _ ?s0] => specialize (Hloop s0)
    end.
    destruct Hloop as ((Hend' & _) & Hsent').
    + split; [|exact Hsent].
      unfold trade_invariant. simpl. split; [exact Hend|]. split.
      * exists 0%nat. lia.
      * intros _. reflexivity.
    + auto.
  - (* an empty range: the loop is not entered *)
    pose proof (first_window_world start_date s) as Hw.
    pose proof (first_window_history start_date s) as Hh.
    destruct (first_window start_date s) as [[u|e|] s1] eqn:Hf; simpl in Hw |- *.
    + assert (Hv : TradeVars.end_date (vars s1) = end_
                   /\ TradeVars.current_date_start (vars s1) = start_date).
      { revert Hf. unfold first_window, bind, assign, lift. simpl.
        destruct (add_cases start_date Datetime.one_day) as [-> | ->]; [|discriminate].
        destruct (add_cases (start_date + Datetime.one_day) (- Datetime.one_microsecond))
          as [-> | ->]; [|discriminate].
        intros [= _ Heq]. rewrite <- Heq. simpl. auto. }
      destruct Hv as [Hend1 Hs1].
      rewrite while_done
        by (unfold trade_loop_cond; rewrite Hend1, Hs1; apply Z.ltb_ge; exact Hge).
      simpl. rewrite Hw. auto.
    + assert (Hend1 : TradeVars.end_date (vars s1) = end_).
      { revert Hf. unfold first_window, bind, assign, lift. simpl.
        destruct (add_cases start_date Datetime.one_day) as [-> | ->].
        - destruct (add_cases (start_date + Datetime.one_day)
                      (- Datetime.one_microsecond)) as [-> | ->]; [discriminate|].
          intros [= _ Heq]. rewrite <- Heq. exact Hend.
        - intros [= _ Heq]. rewrite <- Heq. exact Hend. }
      rewrite Hw. auto.
    + exfalso. revert Hf. unfold first_window, bind, assign, lift. simpl.
      destruct (add_cases start_date Datetime.one_day) as [-> | ->]; [|discriminate].
      destruct (add_cases (start_date + Datetime.one_day) (- Datetime.one_microsecond))
        as [-> | ->]; discriminate.
Qed.

End TradeSafety.

(** [get_trade_history_between_dates] asks only for day windows of the
    range.  Whatever the exchange and the database do, and however long the
    call has been running (it need not end), every request it has sent is
    a trade-history request for one of the markets asked for and for one of
    the day windows of the range; in particular no window ends after
    [end_date]. *)
Theorem trade_sync_asks_only_for_day_windows
    (env : World.environment) (start_date end_date : Z) (names : list string)
    (insert_to_database : bool) (w : World.world) (fuel : nat)
    (Hmin : Datetime.dt_min <= start_date)
    (Hmax : Spec.in_range (end_date + Datetime.one_day)) :
  exists l,
    World.requests
      (snd (Bot.get_trade_history_between_dates fuel env start_date end_date
              (Py.PList (map Py.PStr names)) insert_to_database w))
    = World.requests w ++ l
    /\ Forall (Runs.window_request start_date end_date names) l.
Proof.
  unfold Bot.get_trade_history_between_dates.
  rewrite (bind_ok _ _ w w (Py.PList (map Py.PStr names))) by reflexivity.
  destruct (log_call_run env "get_trade_history_between_dates(%s, %s, %s)"
              start_date end_date [] names w) as (w1 & Hlog & Hreq & _).
  rewrite (bind_ok _ _ _ _ _ Hlog).
  unfold Exec.call.
  set (s0 := World.Frame
               {| Bot.TradeVars.end_date := end_date;
                  Bot.TradeVars.current_date_start := start_date;
                  Bot.TradeVars.current_date_end := start_date;
                  Bot.TradeVars.trade_history := [] |} w1).
  pose proof (for_each_preserves
                (fun s => Bot.TradeVars.end_date (World.vars s) = end_date
                          /\ Runs.sent_since (World.requests w)
                               (Runs.window_request start_date end_date names)
                               (World.world_of s))
                (map Py.PStr names)
                (Bot.trade_market_loop fuel env start_date insert_to_database)) as Hkeep.
  specialize (Hkeep ltac:(
    intros x s Hx Hs; apply in_map_iff in Hx as (name & <- & Hin);
    apply (trade_market_loop_safe env insert_to_database start_date end_date Hmin Hmax);
    [|exact Hs];
    intros a b Hab; exists name, a, b; auto) s0).
  destruct Hkeep as (_ & l & Hl & Hall).
  { split; [reflexivity|]. exists []. simpl. rewrite Hreq, app_nil_r.
    split; [reflexivity|constructor]. }
  exists l. split; [|exact Hall].
  unfold Exec.bind at 1.
  destruct (Exec.for_each _ _ s0) as [[u|e|] s1]; simpl in Hl |- *; try exact Hl.
  destruct insert_to_database; simpl; exact Hl.
Qed.

Lemma trade_sync_asks_only_for_day_windows_witness :
  exists l,
    World.requests
      (snd (Bot.get_trade_history_between_dates 7 Samples.dead_exchange
              (Datetime.datetime 2017 1 1 0 0 0 0) (Datetime.datetime 2017 1 3 0 0 0 0)
              (Py.PList [Py.PStr "BTC_ETH"]) false (Samples.fresh 0 [])))
    = l
    /\ Forall (Runs.window_request (Datetime.datetime 2017 1 1 0 0 0 0)
                 (Datetime.datetime 2017 1 3 0 0 0 0) ["BTC_ETH"]) l.
Proof.
  exact (trade_sync_asks_only_for_day_windows Samples.dead_exchange
           (Datetime.datetime 2017 1 1 0 0 0 0) (Datetime.datetime 2017 1 3 0 0 0 0)
           ["BTC_ETH"] false (Samples.fresh 0 []) 7
           ltac:(vm_compute; congruence) ltac:(split; vm_compute; congruence)).
Defined.

(** ** [post_process]: the timestamps of a trading answer *)

Section PostProcess.
Import Py World Exec Wrapper Spec Runs.

Variable stamp : pyval -> outcome spec_float.

(** What the loop body does to one entry. *)
Lemma post_process_entry_cases (x x' : pyval) :
  post_process_entry stamp x = Ok x' ->
  if unstamped x then
    exists d datestr t,
      x = PDict d /\ dict_get "datetime" d = Some datestr
      /\ dict_get "timestamp" d = None /\ stamp datestr = Ok t
      /\ x' = PDict (dict_set "timestamp" (PFloat t) d)
  else x' = x.
Proof.
  unfold post_process_entry, unstamped.
  destruct x as [| | | | | | |d]; try (intros [= <-]; reflexivity).
  destruct (dict_get "datetime" d) as [datestr|] eqn:Hd;
    [|intros [= <-]; reflexivity].
  destruct (dict_get "timestamp" d) as [ts|] eqn:Ht;
    [intros [= <-]; reflexivity|].
  intros H. apply and_then_ok in H as (t & Hs & H). injection H as <-.
  exists d, datestr, t. auto.
Qed.

Lemma post_process_each_cases (l l' : list pyval) :
  post_process_each stamp l = Ok l' ->
  Forall2 (fun x x' => post_process_entry stamp x = Ok x') l l'.
Proof.
  revert l'. induction l as [|x l IH]; simpl; intros l' H.
  - injection H as <-. constructor.
  - apply and_then_ok in H as (x' & Hx & H).
    apply and_then_ok in H as (rest & Hr & H). injection H as <-.
    constructor; [exact Hx|now apply IH].
Qed.

(** An entry that went through the loop body is left alone by it. *)
Lemma post_process_entry_again (x x' : pyval) :
  post_process_entry stamp x = Ok x' -> post_process_entry stamp x' = Ok x'.
Proof.
  intros H. pose proof (post_process_entry_cases _ _ H) as Hc.
  destruct (unstamped x) eqn:Hu.
  - destruct Hc as (d & datestr & t & -> & Hd & Ht & Hs & ->).
    unfold post_process_entry. rewrite !dict_get_set. simpl. rewrite Hd. reflexivity.
  - subst x'. exact H.
Qed.

Lemma post_process_each_again (l l' : list pyval) :
  post_process_each stamp l = Ok l' -> post_process_each stamp l' = Ok l'.
Proof.
  intros H. apply post_process_each_cases in H.
  induction H as [|x x' l l' Hx _ IH]; simpl; [reflexivity|].
  rewrite (post_process_entry_again _ _ Hx). simpl. rewrite IH. reflexivity.
Qed.

Lemma dict_set_twice (k : string) (v : pyval) (d : list (string * pyval)) :
  dict_set k v (dict_set k v d) = dict_set k v d.
Proof.
  apply dict_set_same. rewrite dict_get_set. now rewrite String.eqb_refl.
Qed.

End PostProcess.

(** [post_process] is idempotent.  An answer that went through it once
    comes back unchanged from a second pass, whatever the C library does
    with the dates: the second pass finds a [timestamp] in every entry the
    first one stamped. *)
Theorem post_process_twice
    (stamp : Py.pyval -> Py.outcome spec_float) (before after : Py.pyval)
    (Hfirst : Wrapper.post_process stamp before = Py.Ok after) :
  Wrapper.post_process stamp after = Py.Ok after.
Proof.
  unfold Wrapper.post_process in Hfirst.
  destruct before as [| | | |s| |l|d]; try discriminate.
  - destruct (String.index 0 "return" s) eqn:Hi; [discriminate|].
    injection Hfirst as <-. simpl. now rewrite Hi.
  - destruct (Wrapper.has_return_item l) eqn:Hi; [discriminate|].
    injection Hfirst as <-. simpl. now rewrite Hi.
  - destruct (Py.dict_get "return" d) as [r|] eqn:Hr.
    + destruct r as [| | | | | |l|];
        try (injection Hfirst as <-; simpl; rewrite Hr; reflexivity).
      apply and_then_ok in Hfirst as (l' & Hl & Hfirst). injection Hfirst as <-.
      simpl. rewrite dict_get_set. simpl.
      rewrite (post_process_each_again stamp _ _ Hl). simpl.
      now rewrite dict_set_twice.
    + injection Hfirst as <-. simpl. rewrite Hr. reflexivity.
Qed.

Lemma post_process_twice_witness :
  Wrapper.post_process (fun _ => Py.Ok (S754_zero false))
    (Py.PDict [("return",
                Py.PList [Py.PDict [("datetime", Py.PStr "2017-08-19 07:00:00");
                                    ("timestamp", Py.PFloat (S754_zero false))]])])
  = Py.Ok (Py.PDict [("return",
                      Py.PList [Py.PDict [("datetime", Py.PStr "2017-08-19 07:00:00");
                                          ("timestamp", Py.PFloat (S754_zero false))]])]).
Proof.
  exact (post_process_twice (fun _ => Py.Ok (S754_zero false))
           (Py.PDict [("return",
                       Py.PList [Py.PDict [("datetime", Py.PStr "2017-08-19 07:00:00")]])])
           _ eq_refl).
Defined.

(** [post_process] only adds timestamps.  Of an answer that is an object
    with a list under [return], the entries that are objects with a
    [datetime] and no [timestamp] get the time stamp of their [datetime]
    under [timestamp]; every other entry, every other key and every other
    answer comes back as it was, and an existing [timestamp] is never
    replaced. *)
Theorem post_process_only_adds_timestamps
    (stamp : Py.pyval -> Py.outcome spec_float) (before after : Py.pyval)
    (Hrun : Wrapper.post_process stamp before = Py.Ok after) :
  match before with
  | Py.PDict d =>
      match Py.dict_get "return" d with
      | Some (Py.PList l) =>
          exists l',
            after = Py.PDict (Py.dict_set "return" (Py.PList l') d)
            /\ Forall2 (fun x x' =>
                          if Runs.unstamped x then
                            exists e datestr t,
                              x = Py.PDict e
                              /\ Py.dict_get "datetime" e = Some datestr
                              /\ Py.dict_get "timestamp" e = None
                              /\ stamp datestr = Py.Ok t
                              /\ x' = Py.PDict (Py.dict_set "timestamp" (Py.PFloat t) e)
                          else x' = x) l l'
      | _ => after = before
      end
  | _ => after = before
  end.
Proof.
  unfold Wrapper.post_process in Hrun.
  destruct before as [| | | |s| |l|d]; try discriminate.
  - destruct (String.index 0 "return" s); [discriminate|]. now injection Hrun.
  - destruct (Wrapper.has_return_item l); [discriminate|]. now injection Hrun.
  - destruct (Py.dict_get "return" d) as [r|] eqn:Hr; [|now injection Hrun].
    destruct r as [| | | | | |l|]; try (now injection Hrun).
    apply and_then_ok in Hrun as (l' & Hl & Hrun). injection Hrun as <-.
    exists l'. split; [reflexivity|].
    apply post_process_each_cases in Hl.
    eapply Forall2_impl; [exact Hl|].
    intros x x' Hx. now apply post_process_entry_cases.
Qed.

Lemma post_process_only_adds_timestamps_witness :
  exists l',
    Py.PDict [("return",
               Py.PList [Py.PDict [("datetime", Py.PStr "2017-08-19 07:00:00");
                                   ("timestamp", Py.PFloat (S754_zero false))];
                         Py.PStr "x"])]
    = Py.PDict (Py.dict_set "return" (Py.PList l')
                  [("return",
                    Py.PList [Py.PDict [("datetime", Py.PStr "2017-08-19 07:00:00")];
                              Py.PStr "x"])])
    /\ length l' = 2%nat.
Proof.
  destruct (post_process_only_adds_timestamps (fun _ => Py.Ok (S754_zero false))
              (Py.PDict [("return",
                          Py.PList [Py.PDict [("datetime", Py.PStr "2017-08-19 07:00:00")];
                                    Py.PStr "x"])])
              _ eq_refl) as (l' & Heq & Hall).
  exists l'. split; [exact Heq|].
  apply Forall2_length in Hall. simpl in Hall. congruence.
Defined.

(** [poloniex_bot.main] syncs the candles of one market.  Called after
    the first of January 2017, it ends whatever the exchange and the
    database do, and its requests are the five-minute candles of
    [BTC_BCN] for the day windows from that date to the time of the call,
    each window asked for one to five times in a row. *)
Theorem bot_main_syncs_one_market
    (env : World.environment) (w : World.world) (fuel : nat)
    (Hafter : Datetime.datetime 2017 1 1 0 0 0 0 < World.clock w)
    (Hmax : World.clock w + Datetime.one_day <= Datetime.dt_max)
    (Hfuel : (5 * Spec.window_count (Datetime.datetime 2017 1 1 0 0 0 0) (World.clock w)
              <= fuel)%nat) :
  exists w' counts,
    Bot.main fuel env w = (Py.Ok tt, w')
    /\ Runs.fair_counts (Datetime.datetime 2017 1 1 0 0 0 0) (World.clock w)
         ["BTC_BCN"] counts
    /\ World.requests w'
       = World.requests w
         ++ Runs.chart_rounds (Datetime.datetime 2017 1 1 0 0 0 0) (World.clock w) 300
              ["BTC_BCN"] counts.
Proof.
  unfold Bot.main.
  unfold Exec.bind at 1. unfold Exec.now at 1, Exec.gets at 1.
  destruct (chart_sync_shape_run env (Datetime.datetime 2017 1 1 0 0 0 0) (World.clock w)
              300 ["BTC_BCN"] true w fuel)
    as (v & w' & counts & Hrun & Hfair & Hreq).
  - vm_compute. congruence.
  - exact Hafter.
  - unfold Spec.in_range. split; [|exact Hmax].
    assert (Datetime.dt_min <= Datetime.datetime 2017 1 1 0 0 0 0)
      by (vm_compute; congruence).
    unfold Datetime.one_day. lia.
  - exact Hfuel.
  - simpl map in Hrun. unfold Exec.bind. rewrite Hrun. unfold Exec.ret.
    exists w', counts. auto.
Qed.

Lemma bot_main_syncs_one_market_witness :
  exists w' counts,
    Bot.main 10 Samples.dead_exchange
      (Samples.fresh (Datetime.datetime 2017 1 2 12 0 0 0) []) = (Py.Ok tt, w')
    /\ length counts = 1%nat
    /\ World.requests w'
       = Runs.chart_rounds (Datetime.datetime 2017 1 1 0 0 0 0)
           (Datetime.datetime 2017 1 2 12 0 0 0) 300 ["BTC_BCN"] counts.
Proof.
  destruct (bot_main_syncs_one_market Samples.dead_exchange
              (Samples.fresh (Datetime.datetime 2017 1 2 12 0 0 0) []) 10
              ltac:(reflexivity) ltac:(vm_compute; congruence)
              ltac:(vm_compute; repeat constructor))
    as (w' & counts & Hrun & (Hlen & _) & Hreq).
  exists w', counts. split; [exact Hrun|]. split; [exact Hlen|exact Hreq].
Defined.
